(** * BeeLoyalty transaction engine: a shallow embedding

    The order / loyalty / inventory engine of [jollibee_service.py], the
    bulk writer of [elasticsearch_client.py] and the two validating routes
    of [app.py], with the properties stated about them.

    Conventions of the embedding.
    - Python [int] is [Z]. Python [float] is idealised as an exact
      rational ([Q]): [1.2] is 6/5, [0.1] is 1/10, [/] is exact division.
    - [int(x)] on a float truncates toward zero: [py_int].
    - Documents read from the store are well-formed records, so the
      [KeyError] paths of the source are not reachable in the model.
    - Every call that leaves the process (HTTP request, clock, uuid) is a
      node of an interaction tree [prog]; the reply is chosen by the
      environment. [exec p tr a] says that [p] can produce the trace [tr]
      and return [a]; [run] shows that it always returns.
    - Loop bodies and blocks that the source repeats inline are named
      ([inventory_line], [index_line], [process_request],
      [build_transaction], [earn], [stock_status]).
    - The customers index itself is outside the repository; [store_step]
      states what a request and its reply mean for it. *)

From Stdlib Require Import ZArith QArith Qround String List Bool Lia Lqa Permutation.
From stdpp Require Import gmap strings list pretty.

Import ListNotations.
Local Open Scope Z_scope.
Local Open Scope string_scope.

(** ** Python numerics *)

(** [int(x)] for a float [x]: truncation toward zero. *)
Definition py_int (x : Q) : Z := Z.quot (Qnum x) (Z.pos (Qden x)).

(** [a < b] on numbers. *)
Definition Qltb (a b : Q) : bool := negb (Qle_bool b a).

(** [max(0, x)]: Python returns the first maximal argument. *)
Definition py_max0 (x : Q) : Q := if Qltb 0 x then x else 0%Q.

(** ** Config (defaults of [config.py]) *)

Definition INDEX_MENU : string := "jollibee-menu".
Definition INDEX_CUSTOMERS : string := "jollibee-customers".
Definition INDEX_TRANSACTIONS : string := "jollibee-transactions".
Definition INDEX_INVENTORY : string := "jollibee-inventory".
Definition INDEX_STORES : string := "jollibee-stores".

(** ** Data model *)

(** Clock readings: days since the epoch; [isoformat] is kept abstract,
    a stored timestamp is the reading itself. *)
Definition datetime : Type := Q.

(** [dt + timedelta(days=d)]. *)
Definition add_days (dt : datetime) (d : Q) : datetime := (dt + d)%Q.

(** [delta.total_seconds()] of a difference of two clock readings. *)
Definition total_seconds (delta : Q) : Q := (delta * 86400)%Q.

(** [dt.hour], [dt.weekday()] (Monday is 0; day 0 of the epoch was a
    Thursday) and [dt.strftime("%A")]. *)
Definition hour_of (dt : datetime) : Z :=
  Qfloor ((dt - inject_Z (Qfloor dt)) * 24).

Definition weekday_of (dt : datetime) : Z := (Qfloor dt + 3) mod 7.

Definition day_name (dt : datetime) : string :=
  nth (Z.to_nat (weekday_of dt))
      ["Monday"; "Tuesday"; "Wednesday"; "Thursday"; "Friday"; "Saturday"; "Sunday"]
      "Monday".

(** One order line: [{"name": .., "price": .., "quantity": ..}]. *)
Record item : Type := Item {
  name : string;
  price : Q;
  quantity : Z
}.

Record loyalty_profile : Type := LoyaltyProfile {
  tier : string;
  total_points : Z;
  points_earned_ytd : Z;
  points_redeemed_ytd : Z;
  annual_spending : Q;
  last_activity : datetime
}.

Record purchase_behavior : Type := PurchaseBehavior {
  total_orders : Z
}.

(** A customer document; [ml] is the ELSER token field the service drops
    before every write. *)
Record customer : Type := Customer {
  personal_name : string;
  loyalty : loyalty_profile;
  purchase : purchase_behavior;
  ml : option string
}.

Record transaction : Type := Transaction {
  transaction_id : string;
  txn_customer_id : string;
  txn_store_id : string;
  txn_timestamp : datetime;
  txn_channel : string;
  txn_location : gmap string string;
  txn_items : list item;
  order_total_of : Q;
  points_earned_of : Z;
  points_redeemed_of : Z;
  payment_method_of : string;
  order_type : string;
  hour_of_day : Z;
  day_of_week : string;
  is_weekend : bool
}.

Record inventory_item : Type := InventoryItem {
  inv_store_id : string;
  item_name : string;
  current_stock : Z;
  reorder_point : Z;
  daily_consumption : option Q;
  status : string;
  predicted_stockout_date : datetime;
  inv_timestamp : datetime
}.

(** ** Points and tier calculation *)

(** [order_total = sum(item['price'] * item['quantity'] for item in items)]:
    Python's [sum] adds left to right starting from 0. *)
Definition order_total (items : list item) : Q :=
  fold_left (fun acc it => (acc + price it * inject_Z (quantity it))%Q) items 0%Q.

(** [multipliers.get(customer_tier, 1.0)]. *)
Definition multiplier (customer_tier : string) : Q :=
  if String.eqb customer_tier "BeeBuddy" then 1%Q
  else if String.eqb customer_tier "BeeFan" then (12 # 10)%Q
  else if String.eqb customer_tier "BeeElite" then (15 # 10)%Q
  else 1%Q.

Definition base_points (total : Q) (channel : string) : Z :=
  if String.eqb channel "dine-in" then py_int (total / 100) * 10
  else if String.eqb channel "app" || String.eqb channel "delivery"
       then py_int (total / 100) * 15
  else 0.

Definition calculate_points (total : Q) (channel customer_tier : string) : Z :=
  py_int (inject_Z (base_points total channel) * multiplier customer_tier).

Definition check_tier_upgrade (annual : Q) : string :=
  if Qle_bool 5000 annual then "BeeElite"
  else if Qle_bool 2000 annual then "BeeFan"
  else "BeeBuddy".


(** ** Untyped documents and document ids ([elasticsearch_client.py]) *)

(** JSON scalars of a document handed to [bulk_index]. *)
Inductive pyvalue : Type :=
| PyNone
| PyBool (b : bool)
| PyInt (z : Z)
| PyStr (s : string).

(** A Python [dict] with string keys, in insertion order. *)
Definition pydict : Type := list (string * pyvalue).

(** [d.get(key)]. *)
Fixpoint dict_get {V : Type} (key : string) (d : list (string * V)) : option V :=
  match d with
  | [] => None
  | (k, v) :: rest => if String.eqb k key then Some v else dict_get key rest
  end.

(** Truth value of a scalar: [None], [False], [0] and [''] are falsy. *)
Definition truthy (v : pyvalue) : bool :=
  match v with
  | PyNone => false
  | PyBool b => b
  | PyInt z => negb (Z.eqb z 0)
  | PyStr s => negb (String.eqb s "")
  end.

(** [str(v)]. *)
Definition py_str (v : pyvalue) : string :=
  match v with
  | PyNone => "None"
  | PyBool true => "True"
  | PyBool false => "False"
  | PyInt z => pretty z
  | PyStr s => s
  end.

(** [s.endswith(suffix)]. *)
Definition endswith (s suffix : string) : bool :=
  let n := String.length s in
  let m := String.length suffix in
  Nat.leb m n && String.eqb (substring (n - m) m s) suffix.

(** The per-index priority table of [_determine_document_id]. *)
Definition id_priorities : list (string * list string) :=
  [ (INDEX_INVENTORY, ["inventory_id"; "id"]);
    (INDEX_CUSTOMERS, ["customer_id"; "id"]);
    (INDEX_TRANSACTIONS, ["transaction_id"; "id"]);
    (INDEX_STORES, ["store_id"; "id"]);
    (INDEX_MENU, ["item_id"; "id"]) ].

Definition default_priority : list string :=
  ["id"; "item_id"; "customer_id"; "transaction_id"; "inventory_id"; "store_id"].

(** [for field in priority_fields: if field in doc and doc[field]: return str(doc[field])]. *)
Fixpoint first_priority_id (priority_fields : list string) (doc : pydict) : option string :=
  match priority_fields with
  | [] => None
  | field :: rest =>
      match dict_get field doc with
      | Some v => if truthy v then Some (py_str v) else first_priority_id rest doc
      | None => first_priority_id rest doc
      end
  end.

(** [for key, value in doc.items(): if key.endswith('_id') and value: return str(value)]. *)
Fixpoint fallback_id (entries : pydict) : option string :=
  match entries with
  | [] => None
  | (key, value) :: rest =>
      if endswith key "_id" && truthy value then Some (py_str value)
      else fallback_id rest
  end.

Definition _determine_document_id (index_name : string) (doc : pydict) : option string :=
  let priority_fields :=
    match dict_get index_name id_priorities with
    | Some fields => fields
    | None => default_priority
    end in
  match first_priority_id priority_fields doc with
  | Some doc_id => Some doc_id
  | None => fallback_id doc
  end.

(** ** The document store seen from the client *)

Inductive es_index : Type := Customers | Transactions | Inventory.

(** The index a typed request addresses: the first segment of its path. *)
Definition index_name (i : es_index) : string :=
  match i with
  | Customers => INDEX_CUSTOMERS
  | Transactions => INDEX_TRANSACTIONS
  | Inventory => INDEX_INVENTORY
  end.

Definition source_of (i : es_index) : Type :=
  match i with
  | Customers => customer
  | Transactions => transaction
  | Inventory => inventory_item
  end.

(** What the client reads of an HTTP response. *)
Record response (A : Type) : Type := Response {
  status_code : Z;
  json : A
}.
Arguments Response {A} _ _.
Arguments status_code {A} _.
Arguments json {A} _.

(** One search hit: [{"_id": .., "_source": ..}]. *)
Record hit (A : Type) : Type := Hit {
  _id : string;
  _source : A
}.
Arguments Hit {A} _ _.
Arguments _id {A} _.
Arguments _source {A} _.

(** The two search bodies the service builds. *)
Inductive query : Type :=
| TermsIds (ids : list string) (size : nat)
| StoreItemMatch (store_id item_name : string) (size : nat).

Inductive document : Type :=
| DocTransaction (t : transaction)
| DocCustomer (c : customer)
| DocInventory (i : inventory_item)
| DocRaw (d : pydict).

(** Lines of a [_bulk] body: an action line [{"index": {"_index", "_id"}}]
    followed by the document. *)
Inductive bulk_line : Type :=
| Action (_index doc_id : string)
| Source (d : document).

(** [item['index']] of a bulk response item; [error] is there on failure. *)
Record index_result : Type := IndexResult {
  error : option string
}.

(** A response item; [None] when it has no ['index'] key. *)
Definition bulk_item : Type := option index_result.

(** [requests.post] either raises or returns a response whose body may
    lack ['items']. *)
Inductive bulk_reply : Type :=
| BulkRaised
| BulkResponse (r : response (option (list bulk_item))).

Inductive request : Type :=
| GetDoc (i : es_index) (doc_id : string)
| PutDoc (i : es_index) (doc_id : string) (d : source_of i)
| Search (i : es_index) (q : query)
| PostBulk (lines : list bulk_line)
| Refresh (indices : list string)
| Now
| Uuid4.

(** [ElasticsearchClient.request] returns [None] on a transport error. *)
Definition reply_of (r : request) : Type :=
  match r with
  | GetDoc i _ => option (response (source_of i))
  | PutDoc _ _ _ => option (response unit)
  | Search i _ => option (response (list (hit (source_of i))))
  | PostBulk _ => bulk_reply
  | Refresh _ => option (response unit)
  | Now => datetime
  | Uuid4 => string
  end.

(** Programs that talk to the environment. *)
Inductive prog (A : Type) : Type :=
| Ret (a : A)
| Vis (r : request) (k : reply_of r -> prog A).
Arguments Ret {A} _.
Arguments Vis {A} _ _.

Fixpoint bind {A B : Type} (p : prog A) (f : A -> prog B) : prog B :=
  match p with
  | Ret a => f a
  | Vis r k => Vis r (fun x => bind (k x) f)
  end.

Notation "x <- p ;; q" := (bind p (fun x => q))
  (at level 100, p at next level, right associativity).

Definition call (r : request) : prog (reply_of r) := Vis r Ret.

(** [for x in xs: s = body(s, x)]. *)
Fixpoint for_each {A S : Type} (xs : list A) (s : S) (body : S -> A -> prog S) : prog S :=
  match xs with
  | [] => Ret s
  | x :: rest => s' <- body s x ;; for_each rest s' body
  end.

(** A request together with the reply it got. *)
Inductive event : Type :=
| Ev (r : request) (x : reply_of r).

(** [exec p tr a]: [p] can issue exactly the requests of [tr], receive the
    replies recorded there, and return [a]. *)
Fixpoint exec {A : Type} (p : prog A) (tr : list event) (a : A) : Prop :=
  match p with
  | Ret a' => tr = [] /\ a = a'
  | Vis r k => exists (x : reply_of r) (tr' : list event),
      tr = Ev r x :: tr' /\ exec (k x) tr' a
  end.

(** An environment answers the n-th request. *)
Definition environment : Type := nat -> forall r : request, reply_of r.

Fixpoint run {A : Type} (env : environment) (n : nat) (p : prog A) : A * list event :=
  match p with
  | Ret a => (a, [])
  | Vis r k =>
      let x := env n r in
      let '(a, tr) := run env (S n) (k x) in
      (a, Ev r x :: tr)
  end.

(** ** [ElasticsearchClient] *)

Definition get_document (i : es_index) (doc_id : string) : prog (option (source_of i)) :=
  response <- call (GetDoc i doc_id) ;;
  match response with
  | Some r => if Z.eqb (status_code r) 200 then Ret (Some (json r)) else Ret None
  | None => Ret None
  end.

Definition update_document (i : es_index) (doc_id : string) (d : source_of i) : prog bool :=
  response <- call (PutDoc i doc_id d) ;;
  match response with
  | Some r => Ret (Z.eqb (status_code r) 200 || Z.eqb (status_code r) 201)
  | None => Ret false
  end.

(** Returns the hits of the response, none when the search failed. *)
Definition aggregation_search (i : es_index) (q : query) : prog (list (hit (source_of i))) :=
  response <- call (Search i q) ;;
  match response with
  | Some r => if Z.eqb (status_code r) 200 then Ret (json r) else Ret []
  | None => Ret []
  end.

Definition refresh_index (indices : list string) : prog bool :=
  response <- call (Refresh indices) ;;
  match response with
  | Some r => Ret (Z.eqb (status_code r) 200)
  | None => Ret false
  end.

(** ['error' in item.get('index', {})]. *)
Definition has_error (it : bulk_item) : bool :=
  match it with
  | Some r => match error r with Some _ => true | None => false end
  | None => false
  end.

(** [[item for item in result.get('items', []) if 'error' in item.get('index', {})]]. *)
Definition bulk_errors (result : option (list bulk_item)) : list bulk_item :=
  List.filter has_error (default [] result).

(** [n_errors < n * 0.1]. *)
Definition below_tolerance (n_errors n : nat) : bool :=
  Qltb (inject_Z (Z.of_nat n_errors)) (inject_Z (Z.of_nat n) * (1 # 10)).

(** [bulk_index], with one turn of its loop as [index_line]; the result
    [None] stands for an exception of [requests.post], which this method
    does not catch. *)
Definition index_line (index : string) (bulk_data : list bulk_line) (doc : pydict)
  : prog (list bulk_line) :=
  doc_id <- match _determine_document_id index doc return prog string with
            | Some doc_id => if String.eqb doc_id "" then call Uuid4 else Ret doc_id
            | None => call Uuid4
            end ;;
  Ret (bulk_data ++ [Action index doc_id; Source (DocRaw doc)])%list.

Definition bulk_index (index : string) (documents : list pydict) : prog (option bool) :=
  bulk_data <- for_each documents [] (index_line index) ;;
  reply <- call (PostBulk bulk_data) ;;
  match reply with
  | BulkRaised => Ret None
  | BulkResponse response =>
      if Z.eqb (status_code response) 200 then
        let errors := bulk_errors (json response) in
        match errors with
        | _ :: _ => Ret (Some (below_tolerance (length errors) (length documents)))
        | [] => Ret (Some true)
        end
      else Ret (Some false)
  end.

(** ** [JollibeeService] *)

Definition get_customer (customer_id : string) : prog (option customer) :=
  get_document Customers customer_id.

Definition redeem_points (customer_id : string) (points_to_redeem : Z) (redeemed_item : string)
  : prog (bool * string * option Z) :=
  found <- get_customer customer_id ;;
  match found with
  | None => Ret (false, "Customer not found", None)
  | Some customer =>
      let current_points := total_points (loyalty customer) in
      if Z.ltb current_points points_to_redeem then
        Ret (false,
             "Insufficient points. Current: " ++ pretty current_points
               ++ ", Required: " ++ pretty points_to_redeem,
             None)
      else
        let new_points := current_points - points_to_redeem in
        now <- call Now ;;
        let customer :=
          {| personal_name := personal_name customer;
             loyalty :=
               {| tier := tier (loyalty customer);
                  total_points := new_points;
                  points_earned_ytd := points_earned_ytd (loyalty customer);
                  points_redeemed_ytd := points_redeemed_ytd (loyalty customer) + points_to_redeem;
                  annual_spending := annual_spending (loyalty customer);
                  last_activity := now |};
             purchase := purchase customer;
             ml := None |} in
        success <- update_document Customers customer_id customer ;;
        if success then
          Ret (true,
               "Successfully redeemed " ++ pretty points_to_redeem ++ " points for " ++ redeemed_item,
               Some new_points)
        else Ret (false, "Failed to update customer points", None)
  end.

(** The [if]/[elif] chain of [_prepare_inventory_updates] that sets
    [status] from the new stock level and the reorder point. *)
Definition stock_status (new_stock reorder : Z) : string :=
  if Qle_bool (inject_Z new_stock) (inject_Z reorder * (1 # 2)) then "Critical"
  else if Z.leb new_stock reorder then "Low"
  else if Z.leb new_stock (reorder * 2) then "Adequate"
  else "Good".

(** One turn of the loop of [_prepare_inventory_updates]: the order line
    [it] against the first matching inventory record, if any. *)
Definition inventory_line (store_id : string) (bulk_updates : list bulk_line) (it : item)
  : prog (list bulk_line) :=
  results <- aggregation_search Inventory (StoreItemMatch store_id (name it) 1) ;;
  match results with
  | inventory_hit :: _ =>
      let inventory_item := _source inventory_hit in
      let inventory_id := _id inventory_hit in
      let new_stock := Z.max 0 (current_stock inventory_item - quantity it) in
      now <- call Now ;;
      let reorder := reorder_point inventory_item in
      let new_status := stock_status new_stock reorder in
      let consumption := default 10%Q (daily_consumption inventory_item) in
      predicted <-
        (if Qltb 0 consumption then
           let days_until_stockout := py_max0 (inject_Z (new_stock - reorder) / consumption) in
           now' <- call Now ;;
           Ret (add_days now' days_until_stockout)
         else Ret (predicted_stockout_date inventory_item)) ;;
      Ret (bulk_updates ++
           [ Action INDEX_INVENTORY inventory_id;
             Source (DocInventory
               {| inv_store_id := inv_store_id inventory_item;
                  item_name := item_name inventory_item;
                  current_stock := new_stock;
                  reorder_point := reorder;
                  daily_consumption := daily_consumption inventory_item;
                  status := new_status;
                  predicted_stockout_date := predicted;
                  inv_timestamp := now |}) ])%list
  | [] => Ret bulk_updates
  end.

Definition _prepare_inventory_updates (store_id : string) (items : list item)
  : prog (list bulk_line) :=
  for_each items [] (inventory_line store_id).

Definition _execute_bulk_update (bulk_updates : list bulk_line) : prog bool :=
  reply <- call (PostBulk bulk_updates) ;;
  match reply with
  | BulkRaised => Ret false
  | BulkResponse response =>
      if Z.eqb (status_code response) 200 then
        let errors := bulk_errors (json response) in
        match errors with
        | _ :: _ => Ret (below_tolerance (length errors) (length bulk_updates))
        | [] => Ret true
        end
      else Ret false
  end.

Definition refreshed_indices : list string :=
  [INDEX_TRANSACTIONS; INDEX_CUSTOMERS; INDEX_INVENTORY].

Definition _batch_transaction_updates
    (txn_id : string) (transaction_data : transaction)
    (customer_id : string) (customer_data : customer)
    (store_id : string) (items : list item) : prog bool :=
  let bulk_updates :=
    [ Action INDEX_TRANSACTIONS txn_id; Source (DocTransaction transaction_data);
      Action INDEX_CUSTOMERS customer_id; Source (DocCustomer customer_data) ] in
  inventory_updates <- _prepare_inventory_updates store_id items ;;
  let bulk_updates := (bulk_updates ++ inventory_updates)%list in
  match bulk_updates with
  | _ :: _ =>
      success <- _execute_bulk_update bulk_updates ;;
      if success
      then (_ <- refresh_index refreshed_indices ;; Ret success)
      else Ret success
  | [] => Ret true
  end.

(** The payload of a successful [create_transaction]. *)
Record transaction_result : Type := TransactionResult {
  res_transaction_id : string;
  res_order_total : Q;
  res_points_earned : Z;
  tier_upgraded : bool;
  new_tier : string;
  inventory_updated : bool
}.

(** [f"txn_{customer_id}_{str(uuid.uuid4())[:8]}"]. *)
Definition make_transaction_id (customer_id uuid : string) : string :=
  "txn_" ++ customer_id ++ "_" ++ substring 0 8 uuid.

(** The block of [create_transaction] and [create_bulk_transactions]
    that draws the transaction id and builds the transaction record;
    each time facet is its own clock reading. *)
Definition build_transaction (customer_id : string) (items : list item) (channel : string)
    (store_info : gmap string string) (payment_method : string) (points_earned : Z)
  : prog (string * transaction) :=
  uuid <- call Uuid4 ;;
  let txn_id := make_transaction_id customer_id uuid in
  t1 <- call Now ;;
  t2 <- call Now ;;
  t3 <- call Now ;;
  t4 <- call Now ;;
  Ret (txn_id,
       {| transaction_id := txn_id;
          txn_customer_id := customer_id;
          txn_store_id := default "store_001" (store_info !! "store_id");
          txn_timestamp := t1;
          txn_channel := channel;
          txn_location := store_info;
          txn_items := items;
          order_total_of := order_total items;
          points_earned_of := points_earned;
          points_redeemed_of := 0;
          payment_method_of := payment_method;
          order_type := channel;
          hour_of_day := hour_of t2;
          day_of_week := day_name t3;
          is_weekend := Z.leb 5 (weekday_of t4) |}).

(** The block of [create_transaction] and [create_bulk_transactions]
    that updates the customer document in place ("Update customer data"
    and the removal of the [ml] field); [now] is the clock reading taken
    for [last_activity]. *)
Definition earn (cust : customer) (total : Q) (points_earned : Z) (now : datetime)
  : customer :=
  let new_annual := (annual_spending (loyalty cust) + total)%Q in
  {| personal_name := personal_name cust;
     loyalty :=
       {| tier := check_tier_upgrade new_annual;
          total_points := total_points (loyalty cust) + points_earned;
          points_earned_ytd := points_earned_ytd (loyalty cust) + points_earned;
          points_redeemed_ytd := points_redeemed_ytd (loyalty cust);
          annual_spending := new_annual;
          last_activity := now |};
     purchase := {| total_orders := total_orders (purchase cust) + 1 |};
     ml := None |}.

Definition create_transaction (customer_id : string) (items : list item) (channel : string)
    (store_info : gmap string string) (payment_method : string)
  : prog (bool * string * option transaction_result) :=
  found <- get_customer customer_id ;;
  match found with
  | None => Ret (false, "Customer not found", None)
  | Some cust =>
      let total := order_total items in
      let customer_tier := tier (loyalty cust) in
      let points_earned := calculate_points total channel customer_tier in
      built <-
        build_transaction customer_id items channel store_info payment_method points_earned ;;
      let txn_id := fst built in
      let transaction_data := snd built in
      let new_tier := check_tier_upgrade (annual_spending (loyalty cust) + total)%Q in
      let upgraded := negb (String.eqb new_tier customer_tier) in
      now <- call Now ;;
      let cust := earn cust total points_earned now in
      updates_successful <-
        _batch_transaction_updates txn_id transaction_data customer_id cust
          (default "store_001" (store_info !! "store_id")) items ;;
      if negb updates_successful then Ret (false, "Failed to process transaction", None)
      else
        Ret (true,
             "Transaction successful! Earned " ++ pretty points_earned ++ " BeePoints.",
             Some {| res_transaction_id := txn_id;
                     res_order_total := total;
                     res_points_earned := points_earned;
                     tier_upgraded := upgraded;
                     new_tier := if upgraded then new_tier else customer_tier;
                     inventory_updated := true |})
  end.

(** One entry of the request array of [create_bulk_transactions]. *)
Record transaction_request : Type := TransactionRequest {
  req_customer_id : string;
  req_items : list item;
  req_channel : string;
  req_store_info : gmap string string;
  req_payment_method : option string
}.

Inductive bulk_result : Type :=
| BulkFailure (message : string)
| BulkSuccess (transactions_created : nat) (total_revenue : Q) (processing_time_seconds : Q).

(** [d[key] = value] on an insertion-ordered dict. *)
Fixpoint dict_set {V : Type} (key : string) (value : V) (d : list (string * V))
  : list (string * V) :=
  match d with
  | [] => [(key, value)]
  | (k, v) :: rest =>
      if String.eqb k key then (k, value) :: rest else (k, v) :: dict_set key value rest
  end.

(** [customers[hit['_id']] = hit['_source']] for every hit of one [terms] query. *)
Definition _fetch_customers_batch (customer_ids : list string)
  : prog (gmap string customer) :=
  hits <- aggregation_search Customers (TermsIds customer_ids (length customer_ids)) ;;
  Ret (fold_left (fun customers h => <[_id h := _source h]> customers) hits ∅).

(** The accumulators of the request loop. [customers_data] holds the
    fetched documents, which the loop mutates in place; [all_customers]
    refers to the same objects, so a later request for the same customer
    reads the state the earlier one left. *)
Record bulk_state : Type := BulkState {
  all_transactions : list (string * transaction);
  all_customers : list (string * customer);
  all_inventory_updates : list bulk_line;
  revenue : Q;
  customers_data : gmap string customer
}.

(** One turn of the request loop of [create_bulk_transactions]. *)
Definition process_request (st : bulk_state) (req : transaction_request) : prog bulk_state :=
  let customer_id := req_customer_id req in
  let items := req_items req in
  let channel := req_channel req in
  let store_info := req_store_info req in
  let payment_method := default "cash" (req_payment_method req) in
  match customers_data st !! customer_id with
  | None => Ret st
  | Some cust =>
      let total := order_total items in
      let customer_tier := tier (loyalty cust) in
      let points_earned := calculate_points total channel customer_tier in
      built <-
        build_transaction customer_id items channel store_info payment_method points_earned ;;
      let txn_id := fst built in
      let transaction_data := snd built in
      now <- call Now ;;
      let cust := earn cust total points_earned now in
      inventory_updates <-
        _prepare_inventory_updates (default "store_001" (store_info !! "store_id")) items ;;
      Ret {| all_transactions := (all_transactions st ++ [(txn_id, transaction_data)])%list;
             all_customers := dict_set customer_id cust (all_customers st);
             all_inventory_updates := (all_inventory_updates st ++ inventory_updates)%list;
             revenue := (revenue st + total)%Q;
             customers_data := <[customer_id := cust]> (customers_data st) |}
  end.

Definition transaction_lines (txns : list (string * transaction)) : list bulk_line :=
  flat_map (fun '(txn_id, transaction_data) =>
    [Action INDEX_TRANSACTIONS txn_id; Source (DocTransaction transaction_data)]) txns.

Definition customer_lines (custs : list (string * customer)) : list bulk_line :=
  flat_map (fun '(customer_id, customer_data) =>
    [Action INDEX_CUSTOMERS customer_id; Source (DocCustomer customer_data)]) custs.

Definition create_bulk_transactions (transaction_requests : list transaction_request)
  : prog bulk_result :=
  match transaction_requests with
  | [] => Ret (BulkFailure "No transactions to process")
  | _ :: _ =>
      start_time <- call Now ;;
      let customer_ids :=
        elements (list_to_set (C := gset string) (map req_customer_id transaction_requests)) in
      fetched <- _fetch_customers_batch customer_ids ;;
      st <- for_each transaction_requests
              {| all_transactions := []; all_customers := []; all_inventory_updates := [];
                 revenue := 0%Q; customers_data := fetched |}
              process_request ;;
      let bulk_updates :=
        (transaction_lines (all_transactions st) ++ customer_lines (all_customers st)
           ++ all_inventory_updates st)%list in
      success <- _execute_bulk_update bulk_updates ;;
      if success then
        _ <- refresh_index refreshed_indices ;;
        end_time <- call Now ;;
        Ret (BulkSuccess (length (all_transactions st)) (revenue st)
               (total_seconds (end_time - start_time)))
      else Ret (BulkFailure "Bulk update failed")
  end.

(** ** The two validating routes of [app.py] *)

Module app.

(** JSON body of [POST /api/customers/<id>/redeem]. *)
Record redeem_body : Type := RedeemBody {
  points : option Z;
  body_item_name : option string
}.

(** JSON body of [POST /api/transactions]. *)
Record transaction_body : Type := TransactionBody {
  customer_id : option string;
  items : option (list item);
  channel : option string;
  store : option (gmap string string);
  payment_method : option string
}.

(** What the route hands to [jsonify]. *)
Inductive api_body : Type :=
| ApiError (error : string)
| ApiRedeemed (message : string) (new_balance : option Z) (redeemed_item : string)
| ApiTransaction (message : string) (result : option transaction_result).

(** A route returns a body and an HTTP status. *)
Definition redeem_points (customer : string) (data : redeem_body) : prog (api_body * Z) :=
  let points_to_redeem := default 0 (points data) in
  let redeemed := default "" (body_item_name data) in
  if Z.leb points_to_redeem 0 then Ret (ApiError "Invalid points amount", 400)
  else
    r <- redeem_points customer points_to_redeem redeemed ;;
    if fst (fst r)
    then Ret (ApiRedeemed (snd (fst r)) (snd r) redeemed, 200)
    else Ret (ApiError (snd (fst r)), 400).

Definition create_transaction (data : transaction_body) : prog (api_body * Z) :=
  let order_items := default [] (items data) in
  let order_channel := default "dine-in" (channel data) in
  let store_info := default ∅ (store data) in
  let paid_with := default "cash" (payment_method data) in
  match customer_id data, order_items with
  | None, _ | Some "", _ | _, [] => Ret (ApiError "Missing required fields", 400)
  | Some customer, _ :: _ =>
      r <- create_transaction customer order_items order_channel store_info paid_with ;;
      if fst (fst r)
      then Ret (ApiTransaction (snd (fst r)) (snd r), 200)
      else Ret (ApiError (snd (fst r)), 500)
  end.

End app.

(** ** Definitions that follow the words of the specification *)









(** The status thresholds in the words of the specification: Critical
    up to half the reorder point, Low up to the reorder point, Adequate
    up to twice the reorder point, Good above. *)
Definition spec_stock_status (stock reorder : Z) : string :=
  if Z.leb (2 * stock) reorder then "Critical"
  else if Z.leb stock reorder then "Low"
  else if Z.leb stock (2 * reorder) then "Adequate"
  else "Good".

(** ** Reading a trace *)

(** The document a [GET] reply yields to [get_document]. *)
Definition fetched {i : es_index} (reply : option (response (source_of i)))
  : option (source_of i) :=
  match reply with
  | Some r => if Z.eqb (status_code r) 200 then Some (json r) else None
  | None => None
  end.

(** The hits a search reply yields to [aggregation_search]. *)
Definition hits_of {i : es_index} (reply : option (response (list (hit (source_of i)))))
  : list (hit (source_of i)) :=
  match reply with
  | Some r => if Z.eqb (status_code r) 200 then json r else []
  | None => []
  end.

(** The verdict of the bulk writers on a reply to a body that stands
    for [n] entries. *)
Definition bulk_verdict (n : nat) (reply : bulk_reply) : bool :=
  match reply with
  | BulkRaised => false
  | BulkResponse response =>
      if Z.eqb (status_code response) 200 then
        match bulk_errors (json response) with
        | _ :: _ => below_tolerance (length (bulk_errors (json response))) n
        | [] => true
        end
      else false
  end.

(** The documents of a bulk body, by kind. *)
Definition customer_docs (lines : list bulk_line) : list customer :=
  flat_map (fun l => match l with Source (DocCustomer c) => [c] | _ => [] end) lines.

Definition transaction_docs (lines : list bulk_line) : list transaction :=
  flat_map (fun l => match l with Source (DocTransaction t) => [t] | _ => [] end) lines.

Definition inventory_docs (lines : list bulk_line) : list inventory_item :=
  flat_map (fun l => match l with Source (DocInventory i) => [i] | _ => [] end) lines.

(** [d] is what the inventory loop writes for order line [it] when the
    search returned [h] first. *)
Definition decremented (it : item) (h : hit inventory_item) (d : inventory_item) : Prop :=
  let old := _source h in
  let consumption := default 10%Q (daily_consumption old) in
  current_stock d = Z.max 0 (current_stock old - quantity it) /\
  reorder_point d = reorder_point old /\
  daily_consumption d = daily_consumption old /\
  status d = stock_status (current_stock d) (reorder_point old) /\
  if Qltb 0 consumption
  then exists now : datetime,
         predicted_stockout_date d =
         add_days now (py_max0 (inject_Z (current_stock d - reorder_point old) / consumption))
  else predicted_stockout_date d = predicted_stockout_date old.

(** The search the inventory loop issues for an order line. *)
Definition inventory_query (store_id : string) (it : item) : request :=
  Search Inventory (StoreItemMatch store_id (name it) 1).

(** [d] was written for some line of [items], from the first hit of the
    search that [tr] records for that line. *)
Definition from_order_line (store_id : string) (items : list item) (tr : list event)
    (d : inventory_item) : Prop :=
  exists (it : item) (reply : reply_of (inventory_query store_id it))
         (h : hit inventory_item) (rest : list (hit inventory_item)),
    In it items /\ In (Ev (inventory_query store_id it) reply) tr /\
    hits_of (i := Inventory) reply = h :: rest /\ decremented it h d.

(** Requests that cannot change a stored document. *)
Definition read_only (e : event) : Prop :=
  match e with
  | Ev (PutDoc _ _ _) _ | Ev (PostBulk _) _ => False
  | _ => True
  end.

(** The bodies of the bulk writes of a trace, in order. *)
Definition bulk_bodies (tr : list event) : list (list bulk_line) :=
  flat_map (fun e => match e with
                     | Ev (PostBulk lines) _ => [lines]
                     | Ev _ _ => []
                     end) tr.

(** ** The bulk simulation in the words of the specification *)

(** Two customer documents that differ at most in [last_activity]. *)
Definition same_account (c1 c2 : customer) : Prop :=
  personal_name c1 = personal_name c2 /\
  tier (loyalty c1) = tier (loyalty c2) /\
  total_points (loyalty c1) = total_points (loyalty c2) /\
  points_earned_ytd (loyalty c1) = points_earned_ytd (loyalty c2) /\
  points_redeemed_ytd (loyalty c1) = points_redeemed_ytd (loyalty c2) /\
  annual_spending (loyalty c1) = annual_spending (loyalty c2) /\
  purchase c1 = purchase c2 /\
  ml c1 = ml c2.

(** One order applied to an account: points at the account's current
    tier, then the account mutation. *)
Definition apply_order (c : customer) (req : transaction_request) : customer :=
  let total := order_total (req_items req) in
  earn c total (calculate_points total (req_channel req) (tier (loyalty c)))
       (last_activity (loyalty c)).

(** The requests of one customer, in request-array order. *)
Definition orders_of (customer_id : string) (reqs : list transaction_request)
  : list transaction_request :=
  List.filter (fun req => String.eqb (req_customer_id req) customer_id) reqs.

(** The requests whose customer the batch fetch returned. *)
Definition served (known : gmap string customer) (reqs : list transaction_request)
  : list transaction_request :=
  List.filter (fun req => bool_decide (is_Some (known !! req_customer_id req))) reqs.

(** The sum of the order totals of a list of requests. *)
Fixpoint spec_revenue (reqs : list transaction_request) : Q :=
  match reqs with
  | [] => 0%Q
  | req :: rest => (order_total (req_items req) + spec_revenue rest)%Q
  end.

(** One turn of the request loop, as a relation between accumulators. *)
Definition process_step (st : bulk_state) (req : transaction_request) (st' : bulk_state)
  : Prop :=
  match customers_data st !! req_customer_id req with
  | None => st' = st
  | Some cust =>
      let total := order_total (req_items req) in
      let points_earned := calculate_points total (req_channel req) (tier (loyalty cust)) in
      exists txn now inventory_updates,
        txn_customer_id txn = req_customer_id req /\
        order_total_of txn = total /\ points_earned_of txn = points_earned /\
        customer_docs inventory_updates = [] /\ transaction_docs inventory_updates = [] /\
        st' = {| all_transactions := (all_transactions st ++ [(transaction_id txn, txn)])%list;
                 all_customers :=
                   dict_set (req_customer_id req) (earn cust total points_earned now)
                            (all_customers st);
                 all_inventory_updates := (all_inventory_updates st ++ inventory_updates)%list;
                 revenue := (revenue st + total)%Q;
                 customers_data :=
                   <[req_customer_id req := earn cust total points_earned now]>
                     (customers_data st) |}
  end.

Fixpoint process_steps (st : bulk_state) (reqs : list transaction_request) (st' : bulk_state)
  : Prop :=
  match reqs with
  | [] => st' = st
  | req :: rest => exists st1, process_step st req st1 /\ process_steps st1 rest st'
  end.

(** Every entry of [all_customers] is the object [customers_data] holds
    under the same id. *)
Definition aliased (st : bulk_state) : Prop :=
  forall id c, dict_get id (all_customers st) = Some c -> customers_data st !! id = Some c.

(** ** The customers index behind a trace *)

(** The customer documents of a bulk body with the id of their action
    line; [pending] is the action line read last. *)
Fixpoint writes_from (pending : option (string * string)) (lines : list bulk_line)
  : list (string * customer) :=
  match lines with
  | [] => []
  | Action index doc_id :: rest => writes_from (Some (index, doc_id)) rest
  | Source d :: rest =>
      match pending, d with
      | Some (index, doc_id), DocCustomer c =>
          if String.eqb index INDEX_CUSTOMERS
          then (doc_id, c) :: writes_from None rest
          else writes_from None rest
      | _, _ => writes_from None rest
      end
  end.

Definition customer_writes (lines : list bulk_line) : list (string * customer) :=
  writes_from None lines.

(** How one request and its reply relate the customers index before and
    after. A read that succeeds returns the stored document; an
    acknowledged [PUT] replaces the document, a refused one does not, a
    lost reply leaves both open; after a bulk write every document is
    either as before or one of the customer documents the body sent
    under its id; nothing else touches the index. *)
Definition store_step (m : gmap string customer) (e : event) (m' : gmap string customer)
  : Prop :=
  match e with
  | Ev r x =>
      match r as r0 return reply_of r0 -> Prop with
      | GetDoc i doc_id =>
          match i as i0 return option (response (source_of i0)) -> Prop with
          | Customers => fun reply =>
              m' = m /\ forall c, fetched (i := Customers) reply = Some c -> m !! doc_id = Some c
          | Transactions | Inventory => fun _ => m' = m
          end
      | PutDoc i doc_id d =>
          match i as i0 return source_of i0 -> option (response unit) -> Prop with
          | Customers => fun c reply =>
              match reply with
              | Some resp =>
                  if Z.eqb (status_code resp) 200 || Z.eqb (status_code resp) 201
                  then m' = <[doc_id := c]> m
                  else m' = m
              | None => m' = m \/ m' = <[doc_id := c]> m
              end
          | Transactions | Inventory => fun _ _ => m' = m
          end d
      | Search i _ =>
          match i as i0 return option (response (list (hit (source_of i0)))) -> Prop with
          | Customers => fun reply =>
              m' = m /\
              forall h, In h (hits_of (i := Customers) reply) -> m !! _id h = Some (_source h)
          | Transactions | Inventory => fun _ => m' = m
          end
      | PostBulk lines => fun _ =>
          forall id, m' !! id = m !! id \/
                     exists c, In (id, c) (customer_writes lines) /\ m' !! id = Some c
      | Refresh _ => fun _ => m' = m
      | Now => fun _ => m' = m
      | Uuid4 => fun _ => m' = m
      end x
  end.

Fixpoint store_trace (m : gmap string customer) (tr : list event) (m' : gmap string customer)
  : Prop :=
  match tr with
  | [] => m' = m
  | e :: rest => exists m1, store_step m e m1 /\ store_trace m1 rest m'
  end.

(** The entry points that earn or redeem points. *)
Inductive operation : Type :=
| Order (customer_id : string) (items : list item) (channel : string)
        (store_info : gmap string string) (payment_method : string)
| BulkOrders (reqs : list transaction_request)
| Redeem (customer_id : string) (points_to_redeem : Z) (redeemed_item : string).

(** [tr] is the trace of some execution of the operation. *)
Definition operation_trace (op : operation) (tr : list event) : Prop :=
  match op with
  | Order customer_id items channel store_info payment_method =>
      exists r, exec (create_transaction customer_id items channel store_info payment_method) tr r
  | BulkOrders reqs => exists r, exec (create_bulk_transactions reqs) tr r
  | Redeem customer_id points_to_redeem redeemed_item =>
      exists r, exec (redeem_points customer_id points_to_redeem redeemed_item) tr r
  end.

(** The index after a sequence of operations run one after the other. *)
Fixpoint history (ops : list operation) (m m' : gmap string customer) : Prop :=
  match ops with
  | [] => m' = m
  | op :: rest =>
      exists tr m1, operation_trace op tr /\ store_trace m tr m1 /\ history rest m1 m'
  end.

Definition balances_nonneg (m : gmap string customer) : Prop :=
  forall id c, m !! id = Some c -> 0 <= total_points (loyalty c).

(** The orders of the operation have non-negative totals. *)
Definition orders_nonneg (op : operation) : Prop :=
  match op with
  | Order _ items _ _ _ => (0 <= order_total items)%Q
  | BulkOrders reqs => Forall (fun req => (0 <= order_total (req_items req))%Q) reqs
  | Redeem _ _ _ => True
  end.

(** ** A scripted environment for worked examples *)

(** Every customer read finds [cust], every customer search returns
    [batch], every inventory search returns [stock], every bulk write is
    answered by [bulk], single writes and refreshes succeed, the clock
    stands at [clock]. *)
Definition scripted (cust : option customer) (batch : list (hit customer))
    (stock : list (hit inventory_item)) (bulk : bulk_reply) (clock : datetime)
  : environment :=
  fun _ r =>
    match r as r0 return reply_of r0 with
    | GetDoc i _ =>
        match i as i0 return option (response (source_of i0)) with
        | Customers => option_map (Response 200) cust
        | Transactions => None
        | Inventory => None
        end
    | PutDoc _ _ _ => Some (Response 200 tt)
    | Search i _ =>
        match i as i0 return option (response (list (hit (source_of i0)))) with
        | Customers => Some (Response 200 batch)
        | Transactions => None
        | Inventory => Some (Response 200 stock)
        end
    | PostBulk _ => bulk
    | Refresh _ => Some (Response 200 tt)
    | Now => clock
    | Uuid4 => "1b4e28ba-2fa1-11d2-883f-0016d3cca427"
    end.

(** A bulk reply with status 200 whose first [failed] items carry an
    error and whose next [passed] items do not. *)
Definition bulk_ok (failed passed : nat) : bulk_reply :=
  BulkResponse (Response 200
    (Some (repeat (Some (IndexResult (Some "mapper_parsing_exception"))) failed
           ++ repeat (Some (IndexResult None)) passed)%list)).

Definition sample_customer (customer_tier : string) (balance : Z) (annual : Q) : customer :=
  {| personal_name := "Mike";
     loyalty := {| tier := customer_tier; total_points := balance;
                   points_earned_ytd := balance; points_redeemed_ytd := 0;
                   annual_spending := annual; last_activity := 19000%Q |};
     purchase := {| total_orders := 3 |};
     ml := Some "tokens" |}.

Definition sample_stock (stock reorder : Z) (consumption : option Q)
  : hit inventory_item :=
  Hit "inv_store_001_regular_fries"
    {| inv_store_id := "store_001"; item_name := "Regular Fries";
       current_stock := stock; reorder_point := reorder;
       daily_consumption := consumption; status := "Good";
       predicted_stockout_date := 19003%Q; inv_timestamp := 19000%Q |}.



Definition sample_request (customer_id : string) (unit_price : Q) : transaction_request :=
  {| req_customer_id := customer_id;
     req_items := [Item "Yumburger Solo" unit_price 1];
     req_channel := "dine-in";
     req_store_info := {["store_id" := "store_001"]};
     req_payment_method := None |}.

(** ** Orders on tiers and stock statuses *)

(** BeeBuddy below BeeFan below BeeElite; any other string counts as the
    lowest tier. *)
Definition tier_rank (customer_tier : string) : Z :=
  if String.eqb customer_tier "BeeElite" then 2
  else if String.eqb customer_tier "BeeFan" then 1
  else 0.

(** Critical below Low below Adequate below Good. *)
Definition status_rank (s : string) : Z :=
  if String.eqb s "Critical" then 0
  else if String.eqb s "Low" then 1
  else if String.eqb s "Adequate" then 2
  else 3.

(** ** Requests of a trace *)

Definition requests_of (tr : list event) : list request :=
  map (fun e => match e with Ev r _ => r end) tr.

Definition is_search (r : request) : bool :=
  match r with Search _ _ => true | _ => false end.

Definition is_refresh (r : request) : bool :=
  match r with Refresh _ => true | _ => false end.

(** The clock readings of a trace, in order. *)
Definition clock_readings (tr : list event) : list datetime :=
  flat_map (fun e => match e with
                     | Ev Now t => [t]
                     | Ev _ _ => []
                     end) tr.

(** ** Reading [_determine_document_id] and [bulk_index] *)

(** The priority list [_determine_document_id] uses for an index. *)
Definition priority_fields_of (index : string) : list string :=
  match dict_get index id_priorities with
  | Some fields => fields
  | None => default_priority
  end.

(** [bulk_index] has to generate an id for the document. *)
Definition needs_uuid (index : string) (doc : pydict) : bool :=
  match _determine_document_id index doc with
  | Some _ => false
  | None => true
  end.

(** The body [bulk_index] builds from the ids it settled on. *)
Definition index_body (index : string) (ids : list string) (documents : list pydict)
  : list bulk_line :=
  flat_map (fun p => [Action index (fst p); Source (DocRaw (snd p))])
           (List.combine ids documents).

(** The events of drawing the ids [generated] from [uuid.uuid4()]. *)
Definition uuid_draws (generated : list string) : list event :=
  map (fun g : string => Ev Uuid4 g) generated.

(** The id chosen for a document is the one [_determine_document_id]
    finds, when it finds one. *)
Definition keeps_found_id (index : string) (id : string) (doc : pydict) : Prop :=
  forall s, _determine_document_id index doc = Some s -> id = s.

(** The reply an event records, when it is a bulk write. *)
Definition bulk_reply_of (e : event) : option bulk_reply :=
  match e with
  | Ev r x =>
      match r as r0 return reply_of r0 -> option bulk_reply with
      | PostBulk _ => fun reply => Some reply
      | _ => fun _ => None
      end x
  end.

(** ** Requests that write nothing *)

(** A search, a clock reading or a fresh uuid. *)
Definition passive (e : event) : Prop :=
  match e with
  | Ev (Search _ _) _ | Ev Now _ | Ev Uuid4 _ => True
  | _ => False
  end.

(** The environment [env], except that every refresh is lost. *)
Definition refresh_fails (env : environment) : environment :=
  fun n r =>
    match r as r0 return reply_of r0 with
    | Refresh _ => None
    | r0 => env n r0
    end.

(** What [update_document] makes of the reply to its [PUT]. *)
Definition put_verdict (reply : option (response unit)) : bool :=
  match reply with
  | Some r => Z.eqb (status_code r) 200 || Z.eqb (status_code r) 201
  | None => false
  end.

(** The verdicts on the single writes of a trace, in order. *)
Definition put_verdicts (tr : list event) : list bool :=
  flat_map (fun e =>
    match e with
    | Ev r x =>
        match r as r0 return reply_of r0 -> list bool with
        | PutDoc _ _ _ => fun reply => [put_verdict reply]
        | _ => fun _ => []
        end x
    end) tr.

(** The verdicts of [_execute_bulk_update] on the bulk writes of a
    trace, in order. *)
Definition bulk_verdicts (tr : list event) : list bool :=
  flat_map (fun e =>
    match e with
    | Ev r x =>
        match r as r0 return reply_of r0 -> list bool with
        | PostBulk lines => fun reply => [bulk_verdict (length lines) reply]
        | _ => fun _ => []
        end x
    end) tr.

(** What a customer's points add up to: the balance, less what was
    earned, plus what was redeemed. *)
Definition ledger (c : customer) : Z :=
  total_points (loyalty c) - points_earned_ytd (loyalty c) + points_redeemed_ytd (loyalty c).

(** The reply an event records, when it is a read of a customer. *)
Definition get_reply_of (e : event) : option (option (response customer)) :=
  match e with
  | Ev r x =>
      match r as r0 return reply_of r0 -> option (option (response customer)) with
      | GetDoc i _ =>
          match i as i0 return option (response (source_of i0))
                               -> option (option (response customer)) with
          | Customers => fun reply => Some reply
          | _ => fun _ => None
          end
      | _ => fun _ => None
      end x
  end.

(** [c] continues the account [c0]: the same name, the same ledger, and
    no fewer orders. *)
Definition follows (c0 c : customer) : Prop :=
  personal_name c = personal_name c0 /\
  ledger c = ledger c0 /\
  total_orders (purchase c0) <= total_orders (purchase c).

(** Every document of [m'] is the one [m] holds under the same id or
    continues it. *)
Definition evolved (m m' : gmap string customer) : Prop :=
  forall id, m' !! id = m !! id \/
             exists c0 c, m !! id = Some c0 /\ m' !! id = Some c /\ follows c0 c.

(** The customer hits the searches of a trace returned, in order. *)
Definition customer_hits (tr : list event) : list (hit customer) :=
  flat_map (fun e =>
    match e with
    | Ev r x =>
        match r as r0 return reply_of r0 -> list (hit customer) with
        | Search i _ =>
            match i as i0 return option (response (list (hit (source_of i0))))
                                 -> list (hit customer) with
            | Customers => fun reply => hits_of (i := Customers) reply
            | _ => fun _ => []
            end
        | _ => fun _ => []
        end x
    end) tr.

(** ** The insights of [get_inventory_analytics] *)

Record recommendation : Type := Recommendation {
  rec_item : string;
  action : string;
  rec_current_stock : Z;
  rec_reorder_point : Z;
  predicted_stockout : datetime;
  priority : string
}.

Record inventory_summary : Type := InventorySummary {
  total_items : nat;
  critical_items : nat;
  low_items : nat;
  adequate_items : nat
}.

(** [item['status'] == s]. *)
Definition has_status (s : string) (d : inventory_item) : bool := String.eqb (status d) s.

(** One turn of the loop that builds the recommendations. *)
Definition recommend (d : inventory_item) : recommendation :=
  {| rec_item := item_name d;
     action := if has_status "Critical" d then "CRITICAL: Immediate reorder required!"
               else "WARNING: Schedule reorder soon";
     rec_current_stock := current_stock d;
     rec_reorder_point := reorder_point d;
     predicted_stockout := predicted_stockout_date d;
     priority := if has_status "Critical" d then "high" else "medium" |}.

(** What [get_inventory_analytics] computes from the records its search
    returned ("Calculate insights" and "Generate recommendations"): the
    summary counts and the recommendations. *)
Definition inventory_insights (items : list inventory_item)
  : inventory_summary * list recommendation :=
  let critical := List.filter (has_status "Critical") items in
  let low := List.filter (has_status "Low") items in
  ({| total_items := length items;
      critical_items := length critical;
      low_items := length low;
      adequate_items :=
        length (List.filter (fun d => has_status "Adequate" d || has_status "Good" d) items) |},
   map recommend (critical ++ low)%list).

(** * Properties *)

(** ** Numerics *)

Lemma py_int_nonneg_floor (x : Q) : (0 <= x)%Q -> py_int x = Qfloor x.
Proof.
  destruct x as [n d]. unfold Qle, py_int, Qfloor. simpl. intros H.
  apply Z.quot_div_nonneg; lia.
Qed.

Lemma py_int_inject_Z (z : Z) : py_int (inject_Z z) = z.
Proof. unfold py_int. simpl. apply Z.quot_1_r. Qed.

Lemma Qltb_lt (a b : Q) : Qltb a b = true <-> (a < b)%Q.
Proof.
  unfold Qltb. rewrite negb_true_iff. split; intros H.
  - apply Qnot_le_lt. intros Hle. apply Qle_bool_iff in Hle. congruence.
  - destruct (Qle_bool b a) eqn:E; [|reflexivity].
    apply Qle_bool_iff in E. exfalso. exact (Qlt_not_le _ _ H E).
Qed.



(** ** Executions *)

Lemma exec_bind {A B : Type} (p : prog A) (f : A -> prog B) (tr : list event) (b : B) :
  exec (bind p f) tr b <->
  exists tr1 tr2 a, tr = (tr1 ++ tr2)%list /\ exec p tr1 a /\ exec (f a) tr2 b.
Proof.
  revert tr. induction p as [a|r k IH]; intros tr; simpl.
  - split.
    + intros H. exists [], tr, a. auto.
    + intros (tr1 & tr2 & a' & -> & [-> ->] & H). exact H.
  - split.
    + intros (x & tr' & -> & H). apply IH in H.
      destruct H as (tr1 & tr2 & a & -> & H1 & H2).
      exists (Ev r x :: tr1), tr2, a. repeat split; eauto.
    + intros (tr1 & tr2 & a & -> & (x & tr' & -> & H1) & H2).
      exists x, (tr' ++ tr2)%list. split; [reflexivity|].
      apply IH. eauto 6.
Qed.

Lemma exec_call (r : request) (tr : list event) (x : reply_of r) :
  exec (call r) tr x <-> tr = [Ev r x].
Proof.
  unfold call. simpl. split.
  - intros (y & tr' & -> & -> & ->). reflexivity.
  - intros ->. eauto.
Qed.

(** Every environment yields an execution: programs always return. *)
Lemma run_exec {A : Type} (env : environment) (p : prog A) (n : nat) :
  exec p (snd (run env n p)) (fst (run env n p)).
Proof.
  revert n. induction p as [a|r k IH]; intros n; simpl.
  - auto.
  - specialize (IH (env n r) (S n)).
    destruct (run env (S n) (k (env n r))) as [a tr]. simpl in *. eauto.
Qed.

Lemma exec_get_document (i : es_index) (doc_id : string) tr (o : option (source_of i)) :
  exec (get_document i doc_id) tr o <->
  exists reply, tr = [Ev (GetDoc i doc_id) reply] /\ o = fetched reply.
Proof.
  unfold get_document, call. simpl. split.
  - intros (reply & tr' & -> & H). exists reply.
    destruct reply as [r|]; simpl in *; [destruct (Z.eqb (status_code r) 200)|];
      simpl in H; destruct H as [-> ->]; auto.
  - intros (reply & -> & ->). exists reply, []. split; [reflexivity|].
    destruct reply as [r|]; simpl; [destruct (Z.eqb (status_code r) 200)|]; simpl; auto.
Qed.

Lemma exec_aggregation_search (i : es_index) (q : query) tr (hs : list (hit (source_of i))) :
  exec (aggregation_search i q) tr hs <->
  exists reply, tr = [Ev (Search i q) reply] /\ hs = hits_of reply.
Proof.
  unfold aggregation_search, call. simpl. split.
  - intros (reply & tr' & -> & H). exists reply.
    destruct reply as [r|]; simpl in *; [destruct (Z.eqb (status_code r) 200)|];
      simpl in H; destruct H as [-> ->]; auto.
  - intros (reply & -> & ->). exists reply, []. split; [reflexivity|].
    destruct reply as [r|]; simpl; [destruct (Z.eqb (status_code r) 200)|]; simpl; auto.
Qed.

Lemma exec_execute_bulk_update (lines : list bulk_line) tr (ok : bool) :
  exec (_execute_bulk_update lines) tr ok <->
  exists reply, tr = [Ev (PostBulk lines) reply] /\ ok = bulk_verdict (length lines) reply.
Proof.
  unfold _execute_bulk_update, call. simpl. split.
  - intros (reply & tr' & -> & H). exists reply.
    destruct reply as [|r]; simpl in *.
    + destruct H as [-> ->]; auto.
    + destruct (Z.eqb (status_code r) 200); simpl in H.
      * destruct (bulk_errors (json r)); simpl in H; destruct H as [-> ->]; auto.
      * destruct H as [-> ->]; auto.
  - intros (reply & -> & ->). exists reply, []. split; [reflexivity|].
    destruct reply as [|r]; simpl; auto.
    destruct (Z.eqb (status_code r) 200); simpl; auto.
    destruct (bulk_errors (json r)); simpl; auto.
Qed.

(** ** The inventory loop *)

Ltac exec_vis H x tr :=
  simpl in H; destruct H as (x & tr & -> & H).

Lemma inventory_line_exec (store_id : string) (it : item) (acc : list bulk_line) tr acc' :
  exec (inventory_line store_id acc it) tr acc' ->
  exists reply tr',
    tr = Ev (inventory_query store_id it) reply :: tr' /\
    match hits_of (i := Inventory) reply with
    | [] => acc' = acc /\ tr' = []
    | h :: _ => exists d, acc' = (acc ++ [Action INDEX_INVENTORY (_id h); Source (DocInventory d)])%list
                          /\ decremented it h d
    end.
Proof.
  unfold inventory_line. intros H.
  apply exec_bind in H. destruct H as (tr1 & tr2 & hs & -> & H1 & H2).
  apply exec_aggregation_search in H1. destruct H1 as (reply & -> & ->).
  exists reply, tr2. split; [reflexivity|].
  destruct (hits_of reply) as [|h rest].
  - simpl in H2. destruct H2 as [-> ->]. auto.
  - exec_vis H2 now tr3. unfold decremented. cbv zeta. cbn [source_of] in *.
    destruct (Qltb 0 (default 10%Q (daily_consumption (_source h)))) eqn:E.
    + exec_vis H2 now' tr4. destruct H2 as [-> ->].
      eexists. split; [reflexivity|]. simpl. eauto 10.
    + simpl in H2. destruct H2 as [-> ->].
      eexists. split; [reflexivity|]. simpl. eauto 10.
Qed.

Lemma inventory_line_read_only (store_id : string) (it : item) (acc : list bulk_line) tr acc' :
  exec (inventory_line store_id acc it) tr acc' -> Forall read_only tr.
Proof.
  unfold inventory_line. intros H.
  apply exec_bind in H. destruct H as (tr1 & tr2 & hs & -> & H1 & H2).
  apply exec_aggregation_search in H1. destruct H1 as (reply & -> & ->).
  constructor; [exact I|].
  destruct (hits_of reply) as [|h rest].
  - simpl in H2. destruct H2 as [-> _]. constructor.
  - exec_vis H2 now tr3. constructor; [exact I|].
    cbn [source_of] in *.
    destruct (Qltb 0 (default 10%Q (daily_consumption (_source h)))).
    + exec_vis H2 now' tr4. destruct H2 as [-> _]. repeat constructor.
    + simpl in H2. destruct H2 as [-> _]. constructor.
Qed.

Lemma from_order_line_mono store_id items items' tr tr' d :
  (forall it, In it items -> In it items') ->
  (forall e, In e tr -> In e tr') ->
  from_order_line store_id items tr d -> from_order_line store_id items' tr' d.
Proof.
  intros Hi Ht (it & reply & h & rest & H1 & H2 & H3 & H4).
  exists it, reply, h, rest. auto.
Qed.

Lemma docs_app (l1 l2 : list bulk_line) :
  inventory_docs (l1 ++ l2) = (inventory_docs l1 ++ inventory_docs l2)%list /\
  customer_docs (l1 ++ l2) = (customer_docs l1 ++ customer_docs l2)%list /\
  transaction_docs (l1 ++ l2) = (transaction_docs l1 ++ transaction_docs l2)%list.
Proof.
  unfold inventory_docs, customer_docs, transaction_docs.
  rewrite !flat_map_app. auto.
Qed.

Lemma prepare_inventory_loop (store_id : string) (items : list item) :
  forall (acc : list bulk_line) tr lines,
    exec (for_each items acc (inventory_line store_id)) tr lines ->
    exists new,
      lines = (acc ++ new)%list /\
      Forall (from_order_line store_id items tr) (inventory_docs new) /\
      customer_docs new = [] /\ transaction_docs new = [] /\ Forall read_only tr.
Proof.
  induction items as [|it rest IH]; intros acc tr lines H.
  - simpl in H. destruct H as [-> ->]. exists []. rewrite app_nil_r. auto 6.
  - cbn [for_each] in H. apply exec_bind in H.
    destruct H as (tr1 & tr2 & acc1 & -> & H1 & H2).
    apply inventory_line_read_only in H1 as R1.
    apply IH in H2. destruct H2 as (new2 & -> & F2 & C2 & T2 & R2).
    assert (R : Forall read_only (tr1 ++ tr2)) by (apply Forall_app; auto).
    apply inventory_line_exec in H1. destruct H1 as (reply & tr1' & -> & H1).
    assert (F2' : Forall (from_order_line store_id (it :: rest)
                            ((Ev (inventory_query store_id it) reply :: tr1') ++ tr2))
                         (inventory_docs new2)).
    { eapply Forall_impl; [exact F2|]. intros d.
      apply from_order_line_mono; intros x Hx.
      - right; exact Hx.
      - apply in_or_app; right; exact Hx. }
    destruct (hits_of reply) as [|h hs] eqn:Eh.
    + destruct H1 as [-> ->]. exists new2. auto 6.
    + destruct H1 as (d & -> & Hd).
      exists ([Action INDEX_INVENTORY (_id h); Source (DocInventory d)] ++ new2)%list.
      split; [now rewrite <- app_assoc|].
      destruct (docs_app [Action INDEX_INVENTORY (_id h); Source (DocInventory d)] new2)
        as (-> & -> & ->).
      rewrite C2, T2. simpl. split; [|auto].
      constructor; [|exact F2'].
      exists it, reply, h, hs.
      split; [left; reflexivity|]. split; [left; reflexivity|].
      split; [exact Eh | exact Hd].
Qed.

Lemma exec_prepare_inventory_updates (store_id : string) (items : list item) tr lines :
  exec (_prepare_inventory_updates store_id items) tr lines ->
  Forall (from_order_line store_id items tr) (inventory_docs lines) /\
  customer_docs lines = [] /\ transaction_docs lines = [] /\ Forall read_only tr.
Proof.
  intros H. apply prepare_inventory_loop in H.
  destruct H as (new & -> & H). exact H.
Qed.

(** ** The single-order path *)

Lemma exec_refresh_index (indices : list string) tr (ok : bool) :
  exec (refresh_index indices) tr ok -> exists reply, tr = [Ev (Refresh indices) reply].
Proof.
  unfold refresh_index, call. simpl. intros (reply & tr' & -> & H). exists reply.
  destruct reply as [r|]; simpl in H; destruct H as [-> _]; reflexivity.
Qed.

Lemma exec_build_transaction customer_id items channel store_info payment_method points tr r :
  exec (build_transaction customer_id items channel store_info payment_method points) tr r ->
  (exists uuid t1 t2 t3 t4,
     tr = [Ev Uuid4 uuid; Ev Now t1; Ev Now t2; Ev Now t3; Ev Now t4] /\
     fst r = make_transaction_id customer_id uuid) /\
  transaction_id (snd r) = fst r /\
  txn_customer_id (snd r) = customer_id /\
  order_total_of (snd r) = order_total items /\
  points_earned_of (snd r) = points.
Proof.
  unfold build_transaction, call. intros H.
  exec_vis H uuid tr0. exec_vis H t1 tr1. exec_vis H t2 tr2.
  exec_vis H t3 tr3. exec_vis H t4 tr4. destruct H as [-> ->]. simpl.
  split; [|auto]. exists uuid, t1, t2, t3, t4. auto.
Qed.

Lemma exec_batch_transaction_updates txn_id txn customer_id cust store_id items tr ok :
  exec (_batch_transaction_updates txn_id txn customer_id cust store_id items) tr ok ->
  exists pre inventory_updates reply post,
    let lines :=
      ([ Action INDEX_TRANSACTIONS txn_id; Source (DocTransaction txn);
         Action INDEX_CUSTOMERS customer_id; Source (DocCustomer cust) ]
       ++ inventory_updates)%list in
    tr = (pre ++ Ev (PostBulk lines) reply :: post)%list /\
    exec (_prepare_inventory_updates store_id items) pre inventory_updates /\
    ok = bulk_verdict (length lines) reply /\
    Forall read_only post.
Proof.
  unfold _batch_transaction_updates. intros H.
  apply exec_bind in H. destruct H as (pre & tr2 & inv & -> & H1 & H2).
  cbn [app] in H2. apply exec_bind in H2.
  destruct H2 as (tr3 & post & success & -> & H2 & H3).
  apply exec_execute_bulk_update in H2. destruct H2 as (reply & -> & ->).
  exists pre, inv, reply, post. cbv zeta. cbn [app].
  split; [reflexivity|]. split; [exact H1|].
  destruct (bulk_verdict _ reply).
  - apply exec_bind in H3. destruct H3 as (tr4 & tr5 & b & -> & H3 & H4).
    apply exec_refresh_index in H3. destruct H3 as (r & ->).
    simpl in H4. destruct H4 as [-> ->].
    split; [reflexivity|]. constructor; [exact I | constructor].
  - simpl in H3. destruct H3 as [-> ->]. split; [reflexivity|]. constructor.
Qed.

(** What any execution of [create_transaction] looks like: the read of
    the customer, then requests that write nothing, then one bulk write
    carrying the transaction, the mutated customer and the inventory
    documents, then at most a refresh. *)
Lemma exec_create_transaction customer_id items channel store_info payment_method tr r :
  exec (create_transaction customer_id items channel store_info payment_method) tr r ->
  exists reply tr',
    tr = Ev (GetDoc Customers customer_id) reply :: tr' /\
    match fetched (i := Customers) reply with
    | None => tr' = [] /\ r = (false, "Customer not found", None)
    | Some cust =>
        let total := order_total items in
        let old_tier := tier (loyalty cust) in
        let points_earned := calculate_points total channel old_tier in
        let fresh_tier := check_tier_upgrade (annual_spending (loyalty cust) + total)%Q in
        let upgraded := negb (String.eqb fresh_tier old_tier) in
        exists txn now pre lines bulk_reply post,
          tr' = (pre ++ Ev (PostBulk lines) bulk_reply :: post)%list /\
          Forall read_only pre /\ Forall read_only post /\
          customer_docs lines = [earn cust total points_earned now] /\
          transaction_docs lines = [txn] /\
          In (Action INDEX_CUSTOMERS customer_id) lines /\
          order_total_of txn = total /\ points_earned_of txn = points_earned /\
          r = if bulk_verdict (length lines) bulk_reply
              then (true,
                    "Transaction successful! Earned " ++ pretty points_earned ++ " BeePoints.",
                    Some {| res_transaction_id := transaction_id txn;
                            res_order_total := total;
                            res_points_earned := points_earned;
                            tier_upgraded := upgraded;
                            new_tier := if upgraded then fresh_tier else old_tier;
                            inventory_updated := true |})
              else (false, "Failed to process transaction", None)
    end.
Proof.
  unfold create_transaction, get_customer. intros H.
  apply exec_bind in H. destruct H as (tr1 & tr' & found & -> & H1 & H2).
  apply exec_get_document in H1. destruct H1 as (reply & -> & ->).
  exists reply, tr'. split; [reflexivity|].
  destruct (fetched reply) as [cust|].
  2:{ simpl in H2. destruct H2 as [-> ->]. auto. }
  cbv zeta in H2 |- *.
  apply exec_bind in H2. destruct H2 as (trb & tr2 & built & -> & Hb & H2).
  apply exec_build_transaction in Hb.
  destruct Hb as ((uuid & t1 & t2 & t3 & t4 & -> & Hid) & Htid & Hcid & Htot & Hpts).
  exec_vis H2 now tr3.
  apply exec_bind in H2. destruct H2 as (trw & tr4 & ok & -> & Hw & H2).
  apply exec_batch_transaction_updates in Hw.
  destruct Hw as (pre & inv & bulk_reply & post & -> & Hinv & -> & Hpost).
  apply exec_prepare_inventory_updates in Hinv.
  destruct Hinv as (Finv & Cinv & Tinv & Rinv).
  eexists (snd built), now,
    ([Ev Uuid4 uuid; Ev Now t1; Ev Now t2; Ev Now t3; Ev Now t4; Ev Now now] ++ pre)%list,
    _, bulk_reply, post.
  split.
  { cbn [app]. rewrite <- !app_assoc. cbn [app].
    destruct (bulk_verdict _ bulk_reply); simpl in H2; destruct H2 as [-> _];
      rewrite ?app_nil_r; reflexivity. }
  split. { apply Forall_app. split; [repeat (constructor; [exact I|]); constructor | exact Rinv]. }
  split. { exact Hpost. }
  cbn [customer_docs transaction_docs flat_map app].
  fold (customer_docs inv) (transaction_docs inv). rewrite Cinv, Tinv.
  split; [reflexivity|]. split; [reflexivity|].
  split. { right; right; left; reflexivity. }
  split; [exact Htot|]. split; [exact Hpts|].
  destruct (bulk_verdict _ bulk_reply); simpl in H2; destruct H2 as [_ ->];
    rewrite ?Htid; reflexivity.
Qed.

(** ** Pricing and points (C3, C10) *)


Lemma hundredth_nonneg (total : Q) : (0 <= total)%Q -> (0 <= total / 100)%Q.
Proof.
  intros H. unfold Qdiv. apply Qmult_le_0_compat; [exact H|]. discriminate.
Qed.


Lemma base_points_nonneg (total : Q) (channel : string) :
  (0 <= total)%Q -> 0 <= base_points total channel.
Proof.
  intros H. unfold base_points.
  rewrite (py_int_nonneg_floor _ (hundredth_nonneg _ H)).
  pose proof (Qfloor_resp_le _ _ (hundredth_nonneg _ H)) as F.
  change (Qfloor 0) with 0 in F.
  destruct (String.eqb channel "dine-in"); [lia|].
  destruct (String.eqb channel "app" || String.eqb channel "delivery"); lia.
Qed.

Lemma multiplier_nonneg (customer_tier : string) : (0 <= multiplier customer_tier)%Q.
Proof.
  unfold multiplier.
  repeat match goal with |- context [if ?b then _ else _] => destruct b end; discriminate.
Qed.

Lemma scaled_points_nonneg (b : Z) (customer_tier : string) :
  0 <= b -> (0 <= inject_Z b * multiplier customer_tier)%Q.
Proof.
  intros H. apply Qmult_le_0_compat; [|apply multiplier_nonneg].
  change 0%Q with (inject_Z 0). rewrite <- Zle_Qle. exact H.
Qed.

Lemma calculate_points_nonneg (total : Q) (channel customer_tier : string) :
  (0 <= total)%Q -> 0 <= calculate_points total channel customer_tier.
Proof.
  intros H. unfold calculate_points.
  pose proof (scaled_points_nonneg _ customer_tier (base_points_nonneg total channel H)) as S.
  rewrite (py_int_nonneg_floor _ S).
  apply Qfloor_resp_le in S. exact S.
Qed.




(** ** Tier after a transaction (C4) *)



(** ** Unrecognised channels and tiers (C10) *)

Lemma py_int_zero_scaled (m : Q) : py_int (inject_Z 0 * m) = 0.
Proof. destruct m as [n d]. reflexivity. Qed.




(** ** The tolerance of the bulk writers (C1) *)

Lemma below_tolerance_iff (n_errors n : nat) :
  below_tolerance n_errors n = true <-> (10 * n_errors < n)%nat.
Proof.
  unfold below_tolerance. rewrite Qltb_lt. unfold Qlt. simpl. lia.
Qed.

(** What [_execute_bulk_update] answers on a status 200 reply: the body
    it sent has two lines per document, and it is the number of lines
    that the error count is compared with. *)
Lemma execute_bulk_update_threshold (docs : list (string * customer)) (items : list bulk_item) :
  bulk_verdict (length (customer_lines docs)) (BulkResponse (Response 200 (Some items))) = true
  <-> (length (List.filter has_error items) = 0
       \/ 10 * length (List.filter has_error items) < 2 * length docs)%nat.
Proof.
  assert (L : length (customer_lines docs) = (2 * length docs)%nat).
  { unfold customer_lines. induction docs as [|[k v] rest IH]; simpl in *; lia. }
  unfold bulk_verdict, bulk_errors. rewrite L. simpl.
  destruct (List.filter has_error items) as [|e es].
  - split; auto.
  - rewrite below_tolerance_iff. simpl.
    split; [auto|]. intros [H|H]; [discriminate H|exact H].
Qed.

(** C1, at the failing input: a batch of ten documents of which one
    fails (10 percent) is answered with status 200. [_execute_bulk_update]
    reports success, because it compares the error count with a tenth of
    the twenty lines of the body; [bulk_index], which compares with a tenth
    of the ten documents, reports failure on the same reply. *)
Theorem bulk_update_accepts_ten_percent_failures :
  let batch := customer_lines (repeat ("mike001", sample_customer "BeeBuddy" 120 1800) 10) in
  let documents := repeat [("inventory_id", PyStr "inv_store_001_00")] 10 in
  exec (_execute_bulk_update batch) [Ev (PostBulk batch) (bulk_ok 1 9)] true /\
  fst (run (scripted None [] [] (bulk_ok 1 9) 19000%Q) 0 (bulk_index INDEX_INVENTORY documents))
    = Some false.
Proof.
  cbv zeta. split.
  - apply exec_execute_bulk_update. eexists. split; reflexivity.
  - vm_compute. reflexivity.
Qed.

(** ** Document ids of the inventory index (C8) *)






(** ** Validation in the routes (C9) *)

(** C9: a redemption whose points amount is missing, zero or negative,
    and a transaction request without items, end in the validation
    error with status 400 without a single request to the store, the
    clock or the service: the only execution has an empty trace. *)
Theorem validation_rejects_before_any_request :
  (forall customer (data : app.redeem_body) tr r,
     default 0 (app.points data) <= 0 ->
     exec (app.redeem_points customer data) tr r <->
     tr = [] /\ r = (app.ApiError "Invalid points amount", 400)) /\
  (forall (data : app.transaction_body) tr r,
     default [] (app.items data) = [] ->
     exec (app.create_transaction data) tr r <->
     tr = [] /\ r = (app.ApiError "Missing required fields", 400)).
Proof.
  split.
  - intros customer data tr r H. unfold app.redeem_points.
    apply Z.leb_le in H. rewrite H. reflexivity.
  - intros data tr r H. unfold app.create_transaction. rewrite H.
    destruct (app.customer_id data) as [[|a s]|]; reflexivity.
Qed.

Lemma validation_rejects_before_any_request_witness :
  exec (app.redeem_points "mike001" (app.RedeemBody (Some (-5)) (Some "Peach Mango Pie")))
       [] (app.ApiError "Invalid points amount", 400) /\
  exec (app.create_transaction (app.TransactionBody (Some "mike001") (Some []) None None None))
       [] (app.ApiError "Missing required fields", 400).
Proof.
  split.
  - apply (proj1 validation_rejects_before_any_request); [simpl; lia | auto].
  - apply (proj2 validation_rejects_before_any_request); [reflexivity | auto].
Defined.

(** ** Inventory decrement (C5, C7) *)

Lemma stock_status_spec (stock reorder : Z) :
  stock_status stock reorder = spec_stock_status stock reorder.
Proof.
  unfold stock_status, spec_stock_status.
  assert (H : Qle_bool (inject_Z stock) (inject_Z reorder * (1 # 2)) = Z.leb (2 * stock) reorder).
  { apply eq_true_iff_eq. rewrite Qle_bool_iff, Z.leb_le. unfold Qle. simpl. lia. }
  rewrite H. replace (reorder * 2) with (2 * reorder) by lia. reflexivity.
Qed.

(** C5: every inventory document the decrement loop writes comes from
    an order line and the first hit of its search, holds the stock
    max(0, old stock - quantity), which is never negative, keeps the
    reorder point, and has as status the threshold classification of the
    new stock against the reorder point; stock 20 at reorder point 30 is
    Low, and consuming 25 units from it leaves stock 0 with status
    Critical. *)
Theorem stock_floor_and_status (store_id : string) (items : list item) tr lines :
  exec (_prepare_inventory_updates store_id items) tr lines ->
  Forall (fun d =>
            exists (it : item) (reply : reply_of (inventory_query store_id it))
                   (h : hit inventory_item) (rest : list (hit inventory_item)),
              In it items /\ In (Ev (inventory_query store_id it) reply) tr /\
              hits_of (i := Inventory) reply = h :: rest /\
              current_stock d = Z.max 0 (current_stock (_source h) - quantity it) /\
              0 <= current_stock d /\
              reorder_point d = reorder_point (_source h) /\
              status d = spec_stock_status (current_stock d) (reorder_point d))
         (inventory_docs lines) /\
  spec_stock_status 20 30 = "Low" /\
  map (fun d => (current_stock d, status d))
      (inventory_docs
         (fst (run (scripted None [] [sample_stock 20 30 (Some 10%Q)] BulkRaised 19000%Q) 0
                   (_prepare_inventory_updates "store_001" [Item "Regular Fries" 50 25]))))
  = [(0, "Critical")].
Proof.
  intros E. apply exec_prepare_inventory_updates in E. destruct E as (F & _).
  split; [|split; [reflexivity | vm_compute; reflexivity]].
  eapply Forall_impl; [exact F|]. intros d (it & reply & h & rest & Hi & He & Hh & Hd).
  destruct Hd as (Hs & Hr & _ & Hst & _).
  exists it, reply, h, rest. repeat (split; [assumption|]).
  split; [rewrite Hs; lia|]. split; [exact Hr|].
  rewrite Hst, Hr. apply stock_status_spec.
Qed.

Lemma stock_floor_and_status_witness :
  Forall (fun d => 0 <= current_stock d)
    (inventory_docs
       (fst (run (scripted None [] [sample_stock 20 30 (Some 10%Q)] BulkRaised 19000%Q) 0
                 (_prepare_inventory_updates "store_001" [Item "Regular Fries" 50 25])))).
Proof.
  eapply Forall_impl.
  - exact (proj1 (stock_floor_and_status "store_001" [Item "Regular Fries" 50 25] _ _
                    (run_exec (scripted None [] [sample_stock 20 30 (Some 10%Q)] BulkRaised 19000%Q)
                              (_prepare_inventory_updates "store_001" [Item "Regular Fries" 50 25])
                              0))).
  - intros d (it & reply & h & rest & _ & _ & _ & _ & H & _). exact H.
Defined.

(** What the loop does with the predicted stock-out date. *)
Lemma stockout_date_rule (store_id : string) (items : list item) tr lines :
  exec (_prepare_inventory_updates store_id items) tr lines ->
  Forall (fun d =>
            exists (it : item) (reply : reply_of (inventory_query store_id it))
                   (h : hit inventory_item) (rest : list (hit inventory_item)),
              In it items /\ hits_of (i := Inventory) reply = h :: rest /\
              let consumption := default 10%Q (daily_consumption (_source h)) in
              ((0 < consumption)%Q ->
               exists now : datetime,
                 predicted_stockout_date d =
                 add_days now
                   (py_max0 (inject_Z (current_stock d - reorder_point (_source h)) / consumption))) /\
              (~ (0 < consumption)%Q ->
               predicted_stockout_date d = predicted_stockout_date (_source h)))
         (inventory_docs lines).
Proof.
  intros E. apply exec_prepare_inventory_updates in E. destruct E as (F & _).
  eapply Forall_impl; [exact F|]. intros d (it & reply & h & rest & Hi & He & Hh & Hd).
  destruct Hd as (_ & _ & _ & _ & Hp).
  exists it, reply, h, rest. split; [exact Hi|]. split; [exact Hh|]. cbv zeta.
  destruct (Qltb 0 (default 10%Q (daily_consumption (_source h)))) eqn:Q.
  - split; [intros _; exact Hp|]. intros N. apply Qltb_lt in Q. contradiction.
  - split; [|intros _; exact Hp]. intros P. apply Qltb_lt in P. congruence.
Qed.


(** ** The bulk simulation (C6) *)

Lemma read_only_no_bulk (tr : list event) : Forall read_only tr -> bulk_bodies tr = [].
Proof.
  induction 1 as [|e tr He _ IH]; [reflexivity|].
  unfold bulk_bodies in *. cbn [flat_map]. rewrite IH.
  destruct e as [[] x]; simpl in *; try reflexivity; contradiction.
Qed.

Lemma bulk_bodies_app (tr1 tr2 : list event) :
  bulk_bodies (tr1 ++ tr2) = (bulk_bodies tr1 ++ bulk_bodies tr2)%list.
Proof. unfold bulk_bodies. apply flat_map_app. Qed.

Lemma exec_process_request (st : bulk_state) (req : transaction_request) tr st' :
  exec (process_request st req) tr st' ->
  process_step st req st' /\ Forall read_only tr.
Proof.
  unfold process_request, process_step. intros H.
  destruct (customers_data st !! req_customer_id req) as [cust|].
  2:{ simpl in H. destruct H as [-> ->]. split; [reflexivity|constructor]. }
  cbv zeta in H |- *.
  apply exec_bind in H. destruct H as (trb & tr2 & built & -> & Hb & H).
  apply exec_build_transaction in Hb.
  destruct Hb as ((uuid & t1 & t2 & t3 & t4 & -> & Hid) & Htid & Hcid & Htot & Hpts).
  exec_vis H now tr3.
  apply exec_bind in H. destruct H as (tri & tr4 & inv & -> & Hi & H).
  apply exec_prepare_inventory_updates in Hi. destruct Hi as (_ & Ci & Ti & Ri).
  simpl in H. destruct H as [-> ->]. split.
  - exists (snd built), now, inv. rewrite Htid. repeat (split; [assumption|]). reflexivity.
  - repeat (constructor; [exact I|]). rewrite app_nil_r. exact Ri.
Qed.

Lemma exec_request_loop (reqs : list transaction_request) :
  forall st tr st',
    exec (for_each reqs st process_request) tr st' ->
    process_steps st reqs st' /\ Forall read_only tr.
Proof.
  induction reqs as [|req rest IH]; intros st tr st' H.
  - simpl in H. destruct H as [-> ->]. split; [reflexivity|constructor].
  - cbn [for_each] in H. apply exec_bind in H.
    destruct H as (tr1 & tr2 & st1 & -> & H1 & H2).
    apply exec_process_request in H1. destruct H1 as [S1 R1].
    apply IH in H2. destruct H2 as [S2 R2].
    split; [exists st1; auto | apply Forall_app; auto].
Qed.

(** Insertion-ordered dicts. *)

Lemma dict_get_set {V : Type} (k k' : string) (v : V) (d : list (string * V)) :
  dict_get k (dict_set k' v d) = if String.eqb k' k then Some v else dict_get k d.
Proof.
  induction d as [|[k0 v0] rest IH]; simpl.
  - reflexivity.
  - destruct (String.eqb_spec k0 k') as [->|Hne]; simpl.
    + destruct (String.eqb k' k); reflexivity.
    + rewrite IH. destruct (String.eqb_spec k' k) as [->|Hne'].
      * apply String.eqb_neq in Hne. rewrite Hne. reflexivity.
      * reflexivity.
Qed.

Lemma dict_keys {V : Type} (k : string) (d : list (string * V)) :
  In k (map fst d) <-> is_Some (dict_get k d).
Proof.
  induction d as [|[k0 v0] rest IH]; simpl.
  - split; [contradiction | intros [x Hx]; discriminate Hx].
  - destruct (String.eqb_spec k0 k) as [->|Hne].
    + split; eauto.
    + rewrite <- IH. split; [intros [H|H]; [contradiction | exact H] | auto].
Qed.

Lemma dict_set_NoDup {V : Type} (k : string) (v : V) (d : list (string * V)) :
  NoDup (map fst d) -> NoDup (map fst (dict_set k v d)).
Proof.
  induction d as [|[k0 v0] rest IH]; simpl; intros N.
  - repeat constructor. intros H; inversion H.
  - inversion N as [|? ? Hn Nrest]; subst.
    destruct (String.eqb_spec k0 k) as [->|Hne]; simpl.
    + constructor; assumption.
    + constructor; [|auto]. rewrite list_elem_of_In, dict_keys, dict_get_set.
      apply String.eqb_neq in Hne. rewrite String.eqb_sym, Hne.
      rewrite <- dict_keys, <- list_elem_of_In. exact Hn.
Qed.

Lemma dict_get_In {V : Type} (k : string) (v : V) (d : list (string * V)) :
  NoDup (map fst d) -> In (k, v) d -> dict_get k d = Some v.
Proof.
  induction d as [|[k0 v0] rest IH]; simpl; intros N H; [contradiction|].
  inversion N as [|? ? Hn Nrest]; subst.
  destruct H as [H|H].
  - injection H as -> ->. rewrite String.eqb_refl. reflexivity.
  - destruct (String.eqb_spec k0 k) as [->|Hne]; [|auto].
    exfalso. apply Hn. rewrite list_elem_of_In. apply in_map_iff. exists (k, v). auto.
Qed.

(** The documents of the three parts of the combined batch. *)

Lemma transaction_lines_docs (txns : list (string * transaction)) :
  transaction_docs (transaction_lines txns) = map snd txns /\
  customer_docs (transaction_lines txns) = [].
Proof.
  unfold transaction_docs, customer_docs, transaction_lines.
  induction txns as [|[k v] rest [IH1 IH2]]; simpl in *; [auto|].
  rewrite IH1, IH2. auto.
Qed.

Lemma customer_lines_docs (custs : list (string * customer)) :
  customer_docs (customer_lines custs) = map snd custs /\
  transaction_docs (customer_lines custs) = [].
Proof.
  unfold transaction_docs, customer_docs, customer_lines.
  induction custs as [|[k v] rest [IH1 IH2]]; simpl in *; [auto|].
  rewrite IH1, IH2. auto.
Qed.

(** Accounts up to the time of the last activity. *)

Lemma same_account_refl (c : customer) : same_account c c.
Proof. unfold same_account. auto 10. Qed.

Lemma same_account_earn (c1 c2 : customer) (req : transaction_request) (now : datetime) :
  same_account c1 c2 ->
  same_account
    (earn c1 (order_total (req_items req))
          (calculate_points (order_total (req_items req)) (req_channel req) (tier (loyalty c1)))
          now)
    (apply_order c2 req).
Proof.
  unfold same_account, apply_order, earn. simpl.
  intros (Hn & Ht & Hp & He & Hr & Ha & Hb & Hm).
  rewrite Hn, Ht, Hp, He, Hr, Ha, Hb. auto 10.
Qed.

(** Invariants of the request loop. *)

Lemma process_step_domain st req st' :
  process_step st req st' ->
  forall id, is_Some (customers_data st' !! id) <-> is_Some (customers_data st !! id).
Proof.
  unfold process_step. intros H id.
  destruct (customers_data st !! req_customer_id req) as [cust|] eqn:E.
  - cbv zeta in H. destruct H as (txn & now & inv & _ & _ & _ & _ & _ & ->). simpl.
    destruct (decide (req_customer_id req = id)) as [<-|Hne].
    + rewrite lookup_insert_eq, E. split; eauto.
    + rewrite lookup_insert_ne by exact Hne. reflexivity.
  - subst st'. reflexivity.
Qed.

Lemma served_ext (m1 m2 : gmap string customer) (reqs : list transaction_request) :
  (forall id, is_Some (m1 !! id) <-> is_Some (m2 !! id)) -> served m1 reqs = served m2 reqs.
Proof.
  intros H. unfold served. induction reqs as [|req rest IH]; simpl; [reflexivity|].
  rewrite IH. rewrite (bool_decide_ext _ _ (H (req_customer_id req))). reflexivity.
Qed.

Lemma served_cons (m : gmap string customer) req (rest : list transaction_request) :
  served m (req :: rest)
  = if bool_decide (is_Some (m !! req_customer_id req))
    then req :: served m rest else served m rest.
Proof. reflexivity. Qed.

Lemma process_steps_totals (reqs : list transaction_request) :
  forall st st',
    process_steps st reqs st' ->
    length (all_transactions st')
      = (length (all_transactions st) + length (served (customers_data st) reqs))%nat /\
    (revenue st' == revenue st + spec_revenue (served (customers_data st) reqs))%Q /\
    customer_docs (all_inventory_updates st') = customer_docs (all_inventory_updates st) /\
    transaction_docs (all_inventory_updates st') = transaction_docs (all_inventory_updates st).
Proof.
  induction reqs as [|req rest IH]; intros st st' H.
  - simpl in H. subst st'. simpl. repeat split; [lia | ring].
  - destruct H as (st1 & S1 & S2).
    destruct (IH _ _ S2) as (L & R & C & T).
    rewrite (served_ext _ _ rest (process_step_domain _ _ _ S1)) in L, R.
    rewrite L, R, C, T. clear L R C T IH S2.
    rewrite served_cons. unfold process_step in S1.
    destruct (customers_data st !! req_customer_id req) as [cust|] eqn:E.
    + cbv zeta in S1. destruct S1 as (txn & now & inv & _ & _ & _ & Ci & Ti & ->).
      rewrite bool_decide_eq_true_2 by eauto. cbn [all_transactions revenue
        all_inventory_updates spec_revenue length].
      destruct (docs_app (all_inventory_updates st) inv) as (_ & -> & ->).
      rewrite Ci, Ti, !app_nil_r, length_app. simpl. repeat split; [lia | ring].
    + subst st1. rewrite bool_decide_eq_false_2 by (intros [x Hx]; discriminate Hx).
      repeat split; reflexivity.
Qed.

Lemma process_steps_domain (reqs : list transaction_request) :
  forall st st',
    process_steps st reqs st' ->
    forall id, is_Some (customers_data st' !! id) <-> is_Some (customers_data st !! id).
Proof.
  induction reqs as [|req rest IH]; intros st st' H id.
  - simpl in H. subst st'. reflexivity.
  - destruct H as (st1 & S1 & S2).
    rewrite (IH _ _ S2 id). apply (process_step_domain _ _ _ S1).
Qed.

Lemma process_steps_accounts (reqs : list transaction_request) :
  forall st st' id c0 c0',
    process_steps st reqs st' ->
    customers_data st !! id = Some c0' -> same_account c0' c0 ->
    exists c, customers_data st' !! id = Some c /\
              same_account c (fold_left apply_order (orders_of id reqs) c0).
Proof.
  induction reqs as [|req rest IH]; intros st st' id c0 c0' H L A.
  - simpl in H. subst st'. exists c0'. auto.
  - destruct H as (st1 & S1 & S2). unfold orders_of. cbn [List.filter].
    fold (orders_of id rest). unfold process_step in S1.
    destruct (String.eqb_spec (req_customer_id req) id) as [Heq|Hne].
    + rewrite Heq, L in S1. cbv zeta in S1.
      destruct S1 as (txn & now & inv & _ & _ & _ & _ & _ & ->).
      cbn [fold_left]. eapply IH; [exact S2 | simpl; apply lookup_insert_eq |].
      apply same_account_earn. exact A.
    + destruct (customers_data st !! req_customer_id req) as [cust|].
      * cbv zeta in S1. destruct S1 as (txn & now & inv & _ & _ & _ & _ & _ & ->).
        eapply IH; [exact S2 | simpl; rewrite lookup_insert_ne by exact Hne; exact L | exact A].
      * subst st1. eapply IH; eauto.
Qed.

Lemma process_steps_customers (reqs : list transaction_request) :
  forall st st',
    process_steps st reqs st' ->
    NoDup (map fst (all_customers st)) -> aliased st ->
    NoDup (map fst (all_customers st')) /\ aliased st' /\
    forall id, In id (map fst (all_customers st'))
               <-> In id (map fst (all_customers st))
                   \/ In id (map req_customer_id (served (customers_data st) reqs)).
Proof.
  induction reqs as [|req rest IH]; intros st st' H N A.
  - simpl in H. subst st'. repeat split; auto. intros [H|H]; [exact H | inversion H].
  - destruct H as (st1 & S1 & S2).
    pose proof (served_ext _ _ rest (process_step_domain _ _ _ S1)) as D.
    rewrite served_cons. unfold process_step in S1.
    destruct (customers_data st !! req_customer_id req) as [cust|] eqn:E.
    + cbv zeta in S1. destruct S1 as (txn & now & inv & _ & _ & _ & _ & _ & ->).
      simpl in D. rewrite bool_decide_eq_true_2 by eauto.
      destruct (IH _ _ S2) as (N' & A' & K').
      * simpl. apply dict_set_NoDup. exact N.
      * intros id c. simpl. rewrite dict_get_set.
        destruct (String.eqb_spec (req_customer_id req) id) as [<-|Hne].
        -- intros [= <-]. apply lookup_insert_eq.
        -- intros G. rewrite lookup_insert_ne by exact Hne. apply A. exact G.
      * split; [exact N'|]. split; [exact A'|]. intros id. rewrite K'.
        cbn [customers_data all_customers map In]. rewrite D.
        rewrite !dict_keys, dict_get_set.
        destruct (String.eqb_spec (req_customer_id req) id) as [<-|Hne].
        -- split; [auto | intros _; left; eauto].
        -- tauto.
    + subst st1. rewrite bool_decide_eq_false_2 by (intros [x Hx]; discriminate Hx).
      apply IH; assumption.
Qed.

Lemma exec_fetch_customers_batch (ids : list string) tr (m : gmap string customer) :
  exec (_fetch_customers_batch ids) tr m ->
  exists reply,
    tr = [Ev (Search Customers (TermsIds ids (length ids))) reply] /\
    m = fold_left (fun customers h => <[_id h := _source h]> customers)
                  (hits_of (i := Customers) reply) ∅.
Proof.
  unfold _fetch_customers_batch. intros H.
  apply exec_bind in H. destruct H as (tr1 & tr2 & hs & -> & H1 & H2).
  apply exec_aggregation_search in H1. destruct H1 as (reply & -> & ->).
  simpl in H2. destruct H2 as [-> ->]. exists reply. auto.
Qed.

Lemma served_all (known : gmap string customer) (reqs : list transaction_request) :
  (forall req, In req reqs -> is_Some (known !! req_customer_id req)) ->
  served known reqs = reqs.
Proof.
  induction reqs as [|req rest IH]; intros H; [reflexivity|].
  rewrite served_cons, bool_decide_eq_true_2 by (apply H; left; reflexivity).
  rewrite IH; [reflexivity|]. intros r Hr. apply H. right. exact Hr.
Qed.

(** What any execution of [create_bulk_transactions] looks like: a clock
    reading, the batch fetch, the request loop (which writes nothing),
    one bulk write, then at most a refresh and a clock reading. *)
Lemma exec_create_bulk_transactions (reqs : list transaction_request) tr r :
  reqs <> [] ->
  exec (create_bulk_transactions reqs) tr r ->
  exists start search_reply loop_tr st bulk_reply post,
    let ids := elements (list_to_set (C := gset string) (map req_customer_id reqs)) in
    let known := fold_left (fun customers h => <[_id h := _source h]> customers)
                           (hits_of (i := Customers) search_reply) ∅ in
    let lines := (transaction_lines (all_transactions st) ++ customer_lines (all_customers st)
                    ++ all_inventory_updates st)%list in
    tr = ([Ev Now start; Ev (Search Customers (TermsIds ids (length ids))) search_reply]
            ++ loop_tr ++ Ev (PostBulk lines) bulk_reply :: post)%list /\
    Forall read_only loop_tr /\ Forall read_only post /\
    process_steps {| all_transactions := []; all_customers := []; all_inventory_updates := [];
                     revenue := 0%Q; customers_data := known |} reqs st /\
    (forall n total seconds, r = BulkSuccess n total seconds ->
       n = length (all_transactions st) /\ total = revenue st).
Proof.
  intros Hne H. unfold create_bulk_transactions in H.
  destruct reqs as [|req0 rest]; [contradiction|].
  set (reqs := req0 :: rest) in *. clearbody reqs. clear Hne req0 rest.
  apply exec_bind in H. destruct H as (tr0 & tr0' & start & -> & H0 & H).
  apply exec_call in H0. subst tr0.
  apply exec_bind in H. destruct H as (tr1 & tr2 & known & -> & H1 & H).
  apply exec_fetch_customers_batch in H1. destruct H1 as (search_reply & -> & Hknown).
  apply exec_bind in H. destruct H as (tr3 & tr4 & st & -> & Hloop & H).
  apply exec_request_loop in Hloop. destruct Hloop as [Steps Rloop].
  apply exec_bind in H. destruct H as (tr5 & tr6 & ok & -> & Hbulk & H).
  apply exec_execute_bulk_update in Hbulk. destruct Hbulk as (bulk_reply & -> & ->).
  exists start, search_reply, tr3, st, bulk_reply, tr6. cbv zeta. rewrite <- Hknown.
  split; [reflexivity|]. split; [exact Rloop|].
  destruct (bulk_verdict _ bulk_reply).
  - apply exec_bind in H. destruct H as (tr7 & tr8 & b & -> & H7 & H8).
    apply exec_refresh_index in H7. destruct H7 as (rr & ->).
    apply exec_bind in H8. destruct H8 as (tr9 & tr10 & fin & -> & H9 & H10).
    apply exec_call in H9. subst tr9. simpl in H10. destruct H10 as [-> ->].
    split; [repeat (constructor; [exact I|]); constructor|].
    split; [exact Steps|]. intros n total seconds [= <- <- _]. auto.
  - simpl in H. destruct H as [-> ->].
    split; [constructor|]. split; [exact Steps|]. intros n total seconds Hr. discriminate Hr.
Qed.

(** C6, as amended: a bulk simulation issues one search for
    the distinct customer ids and one bulk write. With [done] the
    requests whose customer that search returned, the bulk body holds
    exactly one transaction record per request of [done] and one
    customer document per distinct customer of [done]; the document of a
    customer is the fetched account with that customer's requests
    applied one after the other in request order; a successful response
    reports the number of requests of [done] and the sum of their order
    totals; and [done] is the whole request array when every referenced
    customer was returned. *)
Theorem bulk_simulation_batch (reqs : list transaction_request) tr r :
  reqs <> [] ->
  exec (create_bulk_transactions reqs) tr r ->
  exists search_reply txns custs inventory_updates,
    let ids := elements (list_to_set (C := gset string) (map req_customer_id reqs)) in
    let known := fold_left (fun customers h => <[_id h := _source h]> customers)
                           (hits_of (i := Customers) search_reply) ∅ in
    let done := served known reqs in
    In (Ev (Search Customers (TermsIds ids (length ids))) search_reply) tr /\
    bulk_bodies tr
      = [(transaction_lines txns ++ customer_lines custs ++ inventory_updates)%list] /\
    customer_docs inventory_updates = [] /\ transaction_docs inventory_updates = [] /\
    length txns = length done /\
    NoDup (map fst custs) /\
    length custs = size (list_to_set (C := gset string) (map req_customer_id done)) /\
    (forall id c, In (id, c) custs ->
       exists c0, known !! id = Some c0 /\
                  same_account c (fold_left apply_order (orders_of id reqs) c0)) /\
    (forall n total seconds, r = BulkSuccess n total seconds ->
       n = length done /\ (total == spec_revenue done)%Q) /\
    ((forall req, In req reqs -> is_Some (known !! req_customer_id req)) -> done = reqs).
Proof.
  intros Hne H.
  destruct (exec_create_bulk_transactions reqs tr r Hne H)
    as (start & search_reply & tr3 & st & bulk_reply & tr6 & Htr & Rloop & R6 & Steps & Hr).
  cbv zeta in Htr, Steps.
  destruct (process_steps_totals _ _ _ Steps) as (Len & Rev & Cinv & Tinv).
  destruct (process_steps_customers _ _ _ Steps) as (Nd & Al & Keys);
    [constructor | intros id c G; discriminate G |].
  cbn [all_transactions revenue all_inventory_updates customers_data all_customers
       customer_docs transaction_docs flat_map length map In] in *.
  exists search_reply, (all_transactions st), (all_customers st), (all_inventory_updates st).
  cbv zeta. subst tr.
  split; [right; left; reflexivity|].
  split.
  { rewrite !bulk_bodies_app, (read_only_no_bulk tr3 Rloop).
    change (bulk_bodies (Ev (PostBulk (transaction_lines (all_transactions st)
                                         ++ customer_lines (all_customers st)
                                         ++ all_inventory_updates st)) bulk_reply :: tr6))
      with ((transaction_lines (all_transactions st) ++ customer_lines (all_customers st)
               ++ all_inventory_updates st)%list :: bulk_bodies tr6).
    rewrite (read_only_no_bulk tr6 R6). reflexivity. }
  split; [exact Cinv|]. split; [exact Tinv|]. split; [exact Len|]. split; [exact Nd|].
  split.
  { rewrite <- (length_map fst (all_customers st)).
    rewrite <- (size_list_to_set (C := gset string) _ Nd). f_equal.
    apply set_eq. intros id. rewrite !elem_of_list_to_set, !list_elem_of_In, Keys. tauto. }
  split.
  { intros id c Hin. pose proof (Al id c (dict_get_In _ _ _ Nd Hin)) as L.
    match type of Steps with process_steps ?st0 _ _ => set (init := st0) in * end.
    assert (S : is_Some (customers_data init !! id)).
    { apply (process_steps_domain _ _ _ Steps id). rewrite L. eauto. }
    destruct S as [c0 Hc0]. exists c0. split; [exact Hc0|].
    destruct (process_steps_accounts reqs _ _ id c0 c0 Steps Hc0 (same_account_refl c0))
      as (c' & L' & A').
    rewrite L in L'. injection L' as <-. exact A'. }
  split.
  { intros n total seconds E. destruct (Hr n total seconds E) as [-> ->].
    split; [exact Len|]. rewrite Rev. ring. }
  apply served_all.
Qed.


Lemma bulk_simulation_batch_witness :
  exists txns custs inventory_updates,
    bulk_bodies
      (snd (run (scripted None [Hit "mike001" (sample_customer "BeeBuddy" 120 1800)] []
                   (bulk_ok 0 3) 19000%Q) 0
                (create_bulk_transactions
                   [sample_request "mike001" 150; sample_request "mike001" 250])))
    = [(transaction_lines txns ++ customer_lines custs ++ inventory_updates)%list] /\
    NoDup (map fst custs).
Proof.
  destruct (bulk_simulation_batch
              [sample_request "mike001" 150; sample_request "mike001" 250] _ _
              ltac:(discriminate)
              (run_exec (scripted None [Hit "mike001" (sample_customer "BeeBuddy" 120 1800)] []
                           (bulk_ok 0 3) 19000%Q)
                        (create_bulk_transactions
                           [sample_request "mike001" 150; sample_request "mike001" 250]) 0))
    as (search_reply & txns & custs & inv & _ & Hb & _ & _ & _ & Hn & _).
  exists txns, custs, inv. split; [exact Hb | exact Hn].
Defined.

(** C6 as stated fails when a referenced customer is not returned by
    the batch fetch: of two requests for two distinct customer ids, one
    of them unknown, only one transaction record and one customer
    document reach the bulk write, and the response reports one
    transaction. *)
Lemma bulk_simulation_unknown_customer_counterexample :
  let reqs := [sample_request "mike001" 150; sample_request "ghost999" 250] in
  let out := run (scripted None [Hit "mike001" (sample_customer "BeeBuddy" 120 1800)] []
                    (bulk_ok 0 2) 19000%Q) 0
                 (create_bulk_transactions reqs) in
  length reqs = 2%nat /\
  size (list_to_set (C := gset string) (map req_customer_id reqs)) = 2%nat /\
  map (fun lines => (length (transaction_docs lines), length (customer_docs lines)))
      (bulk_bodies (snd out)) = [(1%nat, 1%nat)] /\
  exists total seconds, fst out = BulkSuccess 1 total seconds.
Proof.
  cbv zeta. split; [reflexivity|]. split; [vm_compute; reflexivity|].
  split; [vm_compute; reflexivity|]. eexists _, _. vm_compute. reflexivity.
Qed.

(** ** Redemption and the balance invariant (C2) *)

Lemma exec_update_document (i : es_index) (doc_id : string) (d : source_of i) tr (ok : bool) :
  exec (update_document i doc_id d) tr ok ->
  exists reply,
    tr = [Ev (PutDoc i doc_id d) reply] /\
    ok = match reply with
         | Some r => Z.eqb (status_code r) 200 || Z.eqb (status_code r) 201
         | None => false
         end.
Proof.
  unfold update_document, call. simpl. intros (reply & tr' & -> & H). exists reply.
  destruct reply as [r|]; simpl in H; destruct H as [-> ->]; auto.
Qed.

(** What any execution of [redeem_points] looks like. *)
Lemma exec_redeem_points customer_id points_to_redeem redeemed_item tr r :
  exec (redeem_points customer_id points_to_redeem redeemed_item) tr r ->
  exists reply tr',
    tr = Ev (GetDoc Customers customer_id) reply :: tr' /\
    match fetched (i := Customers) reply with
    | None => tr' = [] /\ r = (false, "Customer not found", None)
    | Some cust =>
        if Z.ltb (total_points (loyalty cust)) points_to_redeem
        then tr' = [] /\ fst (fst r) = false /\ snd r = None
        else exists now put_reply stored,
               tr' = [Ev Now now; Ev (PutDoc Customers customer_id stored) put_reply] /\
               total_points (loyalty stored)
                 = total_points (loyalty cust) - points_to_redeem /\
               points_redeemed_ytd (loyalty stored)
                 = points_redeemed_ytd (loyalty cust) + points_to_redeem /\
               points_earned_ytd (loyalty stored) = points_earned_ytd (loyalty cust) /\
               tier (loyalty stored) = tier (loyalty cust) /\
               annual_spending (loyalty stored) = annual_spending (loyalty cust) /\
               purchase stored = purchase cust /\
               ((exists resp, put_reply = Some resp /\
                   (Z.eqb (status_code resp) 200 || Z.eqb (status_code resp) 201) = true) /\
                  fst (fst r) = true /\
                  snd r = Some (total_points (loyalty cust) - points_to_redeem)
                \/ r = (false, "Failed to update customer points", None))
    end.
Proof.
  unfold redeem_points, get_customer. intros H.
  apply exec_bind in H. destruct H as (tr1 & tr' & found & -> & H1 & H).
  apply exec_get_document in H1. destruct H1 as (reply & -> & ->).
  exists reply, tr'. split; [reflexivity|].
  destruct (fetched reply) as [cust|].
  2:{ simpl in H. destruct H as [-> ->]. auto. }
  cbv zeta in H.
  destruct (Z.ltb (total_points (loyalty cust)) points_to_redeem).
  { simpl in H. destruct H as [-> ->]. auto. }
  apply exec_bind in H. destruct H as (tr2 & tr3 & now & -> & H2 & H).
  apply exec_call in H2. subst tr2.
  apply exec_bind in H. destruct H as (tr4 & tr5 & ok & -> & H4 & H).
  apply exec_update_document in H4. destruct H4 as (put_reply & -> & ->).
  exists now, put_reply. eexists. split.
  { destruct put_reply as [resp|]; [destruct (_ || _)|]; simpl in H;
      destruct H as [-> _]; reflexivity. }
  cbn [loyalty purchase total_points points_redeemed_ytd points_earned_ytd tier
       annual_spending].
  repeat (split; [reflexivity|]).
  destruct put_reply as [resp|].
  - destruct (Z.eqb (status_code resp) 200 || Z.eqb (status_code resp) 201) eqn:E;
      simpl in H; destruct H as [_ ->]; [left | right; reflexivity].
    split; [exists resp; auto | auto].
  - simpl in H. destruct H as [_ ->]. right. reflexivity.
Qed.

(** The store along a trace. *)

Lemma store_step_read_only m e m' : read_only e -> store_step m e m' -> m' = m.
Proof.
  destruct e as [r x]. destruct r as [i d|i d c|i q|lines|l| |]; simpl;
    try contradiction; intros _; try (destruct i; simpl); tauto.
Qed.

Lemma store_trace_read_only tr : forall m m',
  Forall read_only tr -> store_trace m tr m' -> m' = m.
Proof.
  induction tr as [|e rest IH]; intros m m' F H.
  - exact H.
  - inversion F as [|? ? He Frest]; subst. destruct H as (m1 & S & T).
    apply (store_step_read_only _ _ _ He) in S. subst m1. apply IH; assumption.
Qed.

Lemma store_trace_app tr1 tr2 : forall m m',
  store_trace m (tr1 ++ tr2) m' <-> exists m1, store_trace m tr1 m1 /\ store_trace m1 tr2 m'.
Proof.
  induction tr1 as [|e rest IH]; intros m m'; simpl.
  - split; [intros H; exists m; auto | intros (m1 & -> & H); exact H].
  - split.
    + intros (m1 & S & T). apply IH in T. destruct T as (m2 & T1 & T2). eauto.
    + intros (m2 & (m1 & S & T1) & T2). exists m1. split; [exact S|]. apply IH. eauto.
Qed.

Lemma writes_from_docs (lines : list bulk_line) : forall pending id c,
  In (id, c) (writes_from pending lines) -> In c (customer_docs lines).
Proof.
  unfold customer_docs.
  induction lines as [|l rest IH]; intros pending id c H; simpl in *; [exact H|].
  destruct l as [index doc_id|d].
  - simpl. eapply IH. exact H.
  - destruct pending as [[index doc_id]|]; destruct d; simpl;
      try (eapply IH; exact H); try (right; eapply IH; exact H).
    destruct (String.eqb index INDEX_CUSTOMERS).
    + destruct H as [[= _ ->]|H]; [left; reflexivity | right; eapply IH; exact H].
    + right. eapply IH. exact H.
Qed.

Lemma balances_nonneg_insert m id c :
  balances_nonneg m -> 0 <= total_points (loyalty c) -> balances_nonneg (<[id := c]> m).
Proof.
  intros B H id' c'. destruct (decide (id = id')) as [<-|Hne].
  - rewrite lookup_insert_eq. intros [= <-]. exact H.
  - rewrite lookup_insert_ne by exact Hne. apply B.
Qed.

Lemma balances_nonneg_bulk m lines reply m' :
  balances_nonneg m ->
  Forall (fun c => 0 <= total_points (loyalty c)) (customer_docs lines) ->
  store_step m (Ev (PostBulk lines) reply) m' ->
  balances_nonneg m'.
Proof.
  intros B F S id c L. simpl in S. destruct (S id) as [E|(c' & W & E)].
  - rewrite E in L. exact (B id c L).
  - rewrite E in L. injection L as <-.
    apply writes_from_docs in W. rewrite Forall_forall in F. apply F.
    apply list_elem_of_In. exact W.
Qed.

Lemma redeem_keeps_nonneg customer_id points_to_redeem redeemed_item tr r m m' :
  exec (redeem_points customer_id points_to_redeem redeemed_item) tr r ->
  store_trace m tr m' -> balances_nonneg m -> balances_nonneg m'.
Proof.
  intros E T B. apply exec_redeem_points in E. destruct E as (reply & tr' & -> & E).
  destruct T as (m1 & S & T). simpl in S. destruct S as [-> Hread].
  destruct (fetched reply) as [cust|].
  2:{ destruct E as [-> _]. simpl in T. subst m'. exact B. }
  destruct (Z.ltb (total_points (loyalty cust)) points_to_redeem) eqn:L.
  { destruct E as [-> _]. simpl in T. subst m'. exact B. }
  destruct E as (now & put_reply & stored & -> & Hp & _).
  destruct T as (m2 & S2 & m3 & S3 & ->). simpl in S2. subst m2.
  apply Z.ltb_ge in L.
  assert (Hs : balances_nonneg (<[customer_id := stored]> m)).
  { apply balances_nonneg_insert; [exact B | lia]. }
  simpl in S3. destruct put_reply as [resp|].
  - destruct (Z.eqb (status_code resp) 200 || Z.eqb (status_code resp) 201); subst m3; auto.
  - destruct S3 as [->| ->]; auto.
Qed.

Lemma order_keeps_nonneg customer_id items channel store_info payment_method tr r m m' :
  exec (create_transaction customer_id items channel store_info payment_method) tr r ->
  store_trace m tr m' -> balances_nonneg m -> (0 <= order_total items)%Q ->
  balances_nonneg m'.
Proof.
  intros E T B P. apply exec_create_transaction in E. destruct E as (reply & tr' & -> & E).
  destruct T as (m1 & S & T). simpl in S. destruct S as [-> Hread].
  destruct (fetched reply) as [cust|] eqn:F.
  2:{ destruct E as [-> _]. simpl in T. subst m'. exact B. }
  cbv zeta in E.
  destruct E as (txn & now & pre & lines & bulk_reply & post & -> & Rpre & Rpost & C & _).
  apply store_trace_app in T. destruct T as (m1 & T1 & m2 & S2 & T3).
  apply (store_trace_read_only _ _ _ Rpre) in T1. subst m1.
  apply (store_trace_read_only _ _ _ Rpost) in T3. subst m'.
  eapply balances_nonneg_bulk; [exact B | | exact S2].
  rewrite C. constructor; [|constructor]. cbn [earn loyalty total_points].
  pose proof (B _ _ (Hread cust eq_refl)).
  pose proof (calculate_points_nonneg _ channel (tier (loyalty cust)) P). lia.
Qed.

Lemma fetched_batch_lookup (hits : list (hit customer)) :
  forall (acc : gmap string customer) (id : string) (c : customer),
  fold_left (fun customers h => <[_id h := _source h]> customers) hits acc !! id = Some c ->
  acc !! id = Some c \/ exists h, In h hits /\ _id h = id /\ _source h = c.
Proof.
  induction hits as [|h rest IH]; intros acc id c H; simpl in H; [auto|].
  apply IH in H. destruct H as [H|(h' & Hin & H1 & H2)].
  - destruct (decide (_id h = id)) as [E|Hne].
    + rewrite E, lookup_insert_eq in H. injection H as H. right. exists h. simpl. auto.
    + rewrite lookup_insert_ne in H by exact Hne. auto.
  - right. exists h'. simpl. auto.
Qed.

Lemma apply_orders_nonneg (reqs : list transaction_request) : forall c,
  0 <= total_points (loyalty c) ->
  Forall (fun req => (0 <= order_total (req_items req))%Q) reqs ->
  0 <= total_points (loyalty (fold_left apply_order reqs c)).
Proof.
  induction reqs as [|req rest IH]; intros c H F; [exact H|].
  inversion F as [|? ? Hreq Frest]; subst. cbn [fold_left]. apply IH; [|exact Frest].
  unfold apply_order. cbn [earn loyalty total_points].
  pose proof (calculate_points_nonneg _ (req_channel req) (tier (loyalty c)) Hreq). lia.
Qed.

Lemma bulk_customers_accounts (reqs : list transaction_request) (known : gmap string customer) st :
  process_steps {| all_transactions := []; all_customers := []; all_inventory_updates := [];
                   revenue := 0%Q; customers_data := known |} reqs st ->
  customer_docs (all_inventory_updates st) = [] /\
  forall c, In c (map snd (all_customers st)) ->
    exists id c0, known !! id = Some c0 /\
                  same_account c (fold_left apply_order (orders_of id reqs) c0).
Proof.
  intros Steps.
  destruct (process_steps_totals _ _ _ Steps) as (_ & _ & Cinv & _).
  destruct (process_steps_customers _ _ _ Steps) as (Nd & Al & _);
    [constructor | intros id c G; discriminate G |].
  split; [exact Cinv|]. intros c Hc. apply in_map_iff in Hc.
  destruct Hc as ([id c'] & <- & Hin). simpl.
  pose proof (Al id c' (dict_get_In _ _ _ Nd Hin)) as L.
  assert (S : is_Some (known !! id)).
  { apply (process_steps_domain _ _ _ Steps id). rewrite L. eauto. }
  destruct S as [c0 Hc0]. exists id, c0. split; [exact Hc0|].
  destruct (process_steps_accounts reqs _ _ id c0 c0 Steps Hc0 (same_account_refl c0))
    as (c'' & L' & A').
  rewrite L in L'. injection L' as <-. exact A'.
Qed.

Lemma bulk_keeps_nonneg (reqs : list transaction_request) tr r m m' :
  exec (create_bulk_transactions reqs) tr r ->
  store_trace m tr m' -> balances_nonneg m ->
  Forall (fun req => (0 <= order_total (req_items req))%Q) reqs ->
  balances_nonneg m'.
Proof.
  intros E T B P. destruct reqs as [|req0 rest].
  { simpl in E. destruct E as [-> _]. simpl in T. subst m'. exact B. }
  apply exec_create_bulk_transactions in E; [|discriminate].
  destruct E as (start & search_reply & loop_tr & st & bulk_reply & post
                 & -> & Rloop & Rpost & Steps & _).
  cbv zeta in Steps. cbn [app] in T.
  destruct T as (m1 & S1 & m2 & S2 & T). simpl in S1. subst m1.
  simpl in S2. destruct S2 as [-> Hhits].
  apply store_trace_app in T. destruct T as (m1 & T1 & m2 & S3 & T3).
  apply (store_trace_read_only _ _ _ Rloop) in T1. subst m1.
  apply (store_trace_read_only _ _ _ Rpost) in T3. subst m'.
  eapply balances_nonneg_bulk; [exact B | | exact S3].
  destruct (bulk_customers_accounts _ _ _ Steps) as (Cinv & Acc).
  destruct (docs_app (transaction_lines (all_transactions st))
              (customer_lines (all_customers st) ++ all_inventory_updates st)) as (_ & -> & _).
  destruct (docs_app (customer_lines (all_customers st)) (all_inventory_updates st))
    as (_ & -> & _).
  rewrite (proj2 (transaction_lines_docs _)), (proj1 (customer_lines_docs _)), Cinv.
  rewrite app_nil_r. cbn [app]. apply Forall_forall. intros c Hc.
  apply list_elem_of_In in Hc. destruct (Acc c Hc) as (id & c0 & Hk & A).
  destruct A as (_ & _ & -> & _).
  apply apply_orders_nonneg.
  - apply fetched_batch_lookup in Hk. destruct Hk as [Hk|(h & Hin & <- & <-)].
    + rewrite lookup_empty in Hk. discriminate Hk.
    + exact (B _ _ (Hhits h Hin)).
  - apply Forall_forall. intros req Hreq. apply list_elem_of_In in Hreq.
    unfold orders_of in Hreq. apply filter_In in Hreq. destruct Hreq as [Hreq _].
    rewrite Forall_forall in P. apply P. apply list_elem_of_In. exact Hreq.
Qed.

Lemma operation_keeps_nonneg (op : operation) tr m m' :
  operation_trace op tr -> store_trace m tr m' ->
  balances_nonneg m -> orders_nonneg op -> balances_nonneg m'.
Proof.
  destruct op as [customer_id items channel store_info payment_method
                 | reqs | customer_id points_to_redeem redeemed_item];
    simpl; intros [r E] T B P.
  - exact (order_keeps_nonneg _ _ _ _ _ _ _ _ _ E T B P).
  - exact (bulk_keeps_nonneg _ _ _ _ _ E T B P).
  - exact (redeem_keeps_nonneg _ _ _ _ _ _ _ E T B).
Qed.

Lemma history_keeps_nonneg (ops : list operation) : forall m m',
  balances_nonneg m -> Forall orders_nonneg ops -> history ops m m' -> balances_nonneg m'.
Proof.
  induction ops as [|op rest IH]; intros m m' B F H.
  - simpl in H. subst m'. exact B.
  - inversion F as [|? ? Hop Frest]; subst. destruct H as (tr & m1 & O & T & H).
    eapply IH; [|exact Frest|exact H]. eapply operation_keeps_nonneg; eauto.
Qed.

(** C2, as amended: a redemption for more than the fetched
    balance fails after the read and issues no other request, so the
    stored customers are unchanged; otherwise the document sent to the
    store has the balance lowered and [points_redeemed_ytd] raised by
    exactly the redeemed amount, and when the request succeeds that
    document is the stored one and the new balance is reported; and
    after any sequence of redemptions, single orders and bulk
    simulations whose orders have non-negative totals, starting from
    non-negative balances, every stored balance is non-negative. *)
Theorem redemption_guard_and_balance :
  (forall customer_id points_to_redeem redeemed_item tr r,
     exec (redeem_points customer_id points_to_redeem redeemed_item) tr r ->
     exists reply tr',
       tr = Ev (GetDoc Customers customer_id) reply :: tr' /\
       forall cust, fetched (i := Customers) reply = Some cust ->
         (total_points (loyalty cust) < points_to_redeem ->
            fst (fst r) = false /\ tr' = [] /\
            forall m m', store_trace m tr m' -> m' = m) /\
         (points_to_redeem <= total_points (loyalty cust) ->
            exists now put_reply stored,
              tr' = [Ev Now now; Ev (PutDoc Customers customer_id stored) put_reply] /\
              total_points (loyalty stored)
                = total_points (loyalty cust) - points_to_redeem /\
              points_redeemed_ytd (loyalty stored)
                = points_redeemed_ytd (loyalty cust) + points_to_redeem /\
              (fst (fst r) = true ->
                 snd r = Some (total_points (loyalty cust) - points_to_redeem) /\
                 forall m m', store_trace m tr m' -> m' !! customer_id = Some stored))) /\
  (forall ops m m',
     balances_nonneg m -> Forall orders_nonneg ops -> history ops m m' ->
     balances_nonneg m').
Proof.
  split; [|intros ops m m'; apply history_keeps_nonneg].
  intros customer_id points_to_redeem redeemed_item tr r E.
  apply exec_redeem_points in E. destruct E as (reply & tr' & -> & E).
  exists reply, tr'. split; [reflexivity|]. intros cust F. rewrite F in E. split.
  - intros L. apply Z.ltb_lt in L. rewrite L in E. destruct E as (-> & Hr & _).
    split; [exact Hr|]. split; [reflexivity|]. intros m m' T.
    apply (store_trace_read_only [Ev (GetDoc Customers customer_id) reply]);
      [repeat constructor | exact T].
  - intros L. apply Z.ltb_ge in L. rewrite L in E.
    destruct E as (now & put_reply & stored & -> & Hp & Hy & _ & _ & _ & _ & Hres).
    exists now, put_reply, stored. repeat (split; [assumption || reflexivity|]).
    intros Hok. destruct Hres as [((resp & -> & Hst) & _ & Hsnd)|Hfail].
    + split; [exact Hsnd|]. intros m m' (m1 & S1 & m2 & S2 & m3 & S3 & ->).
      simpl in S3. rewrite Hst in S3. subst m3. apply lookup_insert_eq.
    + rewrite Hfail in Hok. discriminate Hok.
Qed.

(** Replaces the trace of a scripted run by its value. *)
Ltac compute_trace :=
  match goal with
  | |- context [snd (run ?e ?n ?p)] =>
      let t := eval vm_compute in (snd (run e n p)) in
      change (snd (run e n p)) with t
  end.

Lemma redemption_guard_and_balance_witness :
  balances_nonneg
    (<["mike001" :=
         {| personal_name := "Mike";
            loyalty := {| tier := "BeeBuddy"; total_points := 20; points_earned_ytd := 50;
                          points_redeemed_ytd := 30; annual_spending := 0%Q;
                          last_activity := 19000%Q |};
            purchase := {| total_orders := 3 |};
            ml := None |}]>
       ({["mike001" := sample_customer "BeeBuddy" 50 0]} : gmap string customer)).
Proof.
  refine (proj2 redemption_guard_and_balance
            [Redeem "mike001" 30 "Peach Mango Pie"]
            ({["mike001" := sample_customer "BeeBuddy" 50 0]} : gmap string customer) _ _ _ _).
  - intros id c H. apply lookup_singleton_Some in H. destruct H as [_ <-]. simpl. lia.
  - constructor; [exact I | constructor].
  - cbn [history].
    exists (snd (run (scripted (Some (sample_customer "BeeBuddy" 50 0)) [] [] BulkRaised 19000%Q)
                   0 (redeem_points "mike001" 30 "Peach Mango Pie"))).
    eexists. split; [eexists; apply run_exec|]. split; [|reflexivity].
    compute_trace. cbn [store_trace].
    eexists. split.
    { simpl. split; [reflexivity|]. intros c [= <-]. apply lookup_singleton_eq. }
    eexists. split; [simpl; reflexivity|].
    eexists. split; [simpl; reflexivity|]. reflexivity.
Defined.

(** C2 as stated fails on an order with a negative total: a customer
    with balance 0 who places a dine-in order priced -1000 earns -100
    points, and the stored balance becomes negative. *)
Lemma negative_order_breaks_balance_counterexample :
  let m : gmap string customer := {["mike001" := sample_customer "BeeBuddy" 0 0]} in
  let m' : gmap string customer :=
    {["mike001" := earn (sample_customer "BeeBuddy" 0 0)
                        (order_total [Item "Refund" (-1000) 1]) (-100) 19000%Q]} in
  balances_nonneg m /\
  history [Order "mike001" [Item "Refund" (-1000) 1] "dine-in" ∅ "cash"] m m' /\
  ~ balances_nonneg m'.
Proof.
  cbv zeta. split.
  { intros id c H. apply lookup_singleton_Some in H. destruct H as [_ <-]. simpl. lia. }
  split.
  2:{ intros B. specialize (B "mike001" _ (lookup_singleton_eq _ _)). simpl in B. lia. }
  cbn [history].
  exists (snd (run (scripted (Some (sample_customer "BeeBuddy" 0 0)) [] [] (bulk_ok 0 2) 19000%Q)
                 0 (create_transaction "mike001" [Item "Refund" (-1000) 1] "dine-in" ∅ "cash"))).
  eexists. split; [eexists; apply run_exec|]. split; [|reflexivity].
  compute_trace. cbn [store_trace].
  eexists. split.
  { simpl. split; [reflexivity|]. intros c [= <-]. apply lookup_singleton_eq. }
  do 7 (eexists; split; [simpl; reflexivity|]).
  eexists. split; [|eexists; split; [simpl; reflexivity | reflexivity]].
  intros id. destruct (decide (id = "mike001")) as [->|Hne].
  - right. eexists. split; [left; reflexivity|]. apply lookup_singleton_eq.
  - left. rewrite !lookup_singleton_ne by congruence. reflexivity.
Qed.

(** * Further properties of the code *)

(** ** Points and tiers *)

Lemma py_int_nonpos_ceiling (x : Q) : (x <= 0)%Q -> py_int x = Qceiling x.
Proof.
  destruct x as [n d]. unfold Qle, py_int, Qceiling, Qfloor, Qopp. simpl. intros H.
  assert (Hn : n <= 0) by lia.
  replace n with (- (- n)) at 1 by lia.
  rewrite Z.quot_opp_l by lia. rewrite Z.quot_div_nonneg by lia. reflexivity.
Qed.

Lemma py_int_mono (x y : Q) : (x <= y)%Q -> py_int x <= py_int y.
Proof.
  intros H. destruct (Qlt_le_dec x 0) as [Hx|Hx]; destruct (Qlt_le_dec y 0) as [Hy|Hy].
  - rewrite !py_int_nonpos_ceiling by (apply Qlt_le_weak; assumption).
    apply Qceiling_resp_le. exact H.
  - rewrite (py_int_nonpos_ceiling x) by (apply Qlt_le_weak; assumption).
    rewrite (py_int_nonneg_floor y) by assumption.
    pose proof (Qceiling_resp_le x 0 (Qlt_le_weak _ _ Hx)) as A.
    pose proof (Qfloor_resp_le 0 y Hy) as B.
    change (Qceiling 0) with 0 in A. change (Qfloor 0) with 0 in B. lia.
  - exfalso. lra.
  - rewrite !py_int_nonneg_floor by assumption. apply Qfloor_resp_le. exact H.
Qed.

Lemma hundredth_mono (t1 t2 : Q) : (t1 <= t2)%Q -> (t1 / 100 <= t2 / 100)%Q.
Proof. intros H. unfold Qdiv. apply Qmult_le_compat_r; [exact H | discriminate]. Qed.

Lemma base_points_mono (t1 t2 : Q) (channel : string) :
  (t1 <= t2)%Q -> base_points t1 channel <= base_points t2 channel.
Proof.
  intros H. unfold base_points.
  pose proof (py_int_mono _ _ (hundredth_mono _ _ H)).
  destruct (String.eqb channel "dine-in"); [lia|].
  destruct (String.eqb channel "app" || String.eqb channel "delivery"); lia.
Qed.

Lemma scaled_points_mono (b1 b2 : Z) (customer_tier : string) :
  b1 <= b2 ->
  py_int (inject_Z b1 * multiplier customer_tier)
  <= py_int (inject_Z b2 * multiplier customer_tier).
Proof.
  intros H. apply py_int_mono. apply Qmult_le_compat_r; [|apply multiplier_nonneg].
  rewrite <- Zle_Qle. exact H.
Qed.

(** A larger order never earns fewer points, on any channel and for any
    tier, negative totals included. *)
Theorem calculate_points_monotone (t1 t2 : Q) (channel customer_tier : string) :
  (t1 <= t2)%Q ->
  calculate_points t1 channel customer_tier <= calculate_points t2 channel customer_tier.
Proof.
  intros H. unfold calculate_points. apply scaled_points_mono.
  apply base_points_mono. exact H.
Qed.

Lemma calculate_points_monotone_witness :
  calculate_points 450 "app" "BeeFan" <= calculate_points 980 "app" "BeeFan".
Proof. apply calculate_points_monotone. unfold Qle. simpl. lia. Defined.

Lemma py_int_small (x : Q) : (-1 < x)%Q -> (x < 1)%Q -> py_int x = 0.
Proof.
  intros L U. destruct (Qlt_le_dec x 0) as [Hx|Hx].
  - rewrite py_int_nonpos_ceiling by (apply Qlt_le_weak; exact Hx).
    pose proof (Qceiling_resp_le x 0 (Qlt_le_weak _ _ Hx)) as A.
    change (Qceiling 0) with 0 in A.
    assert (D : (-1 < inject_Z (Qceiling x))%Q).
    { pose proof (Qle_ceiling x). lra. }
    change (-1)%Q with (inject_Z (-1)) in D. rewrite <- Zlt_Qlt in D. lia.
  - rewrite py_int_nonneg_floor by exact Hx.
    pose proof (Qfloor_resp_le 0 x Hx) as A. change (Qfloor 0) with 0 in A.
    pose proof (Qfloor_le x) as B.
    assert (D : (inject_Z (Qfloor x) < 1)%Q) by lra.
    change 1%Q with (inject_Z 1) in D. rewrite <- Zlt_Qlt in D. lia.
Qed.

(** An order whose total is strictly between -100 and 100 earns no
    points, whatever the channel and the tier. *)
Theorem small_orders_earn_nothing (total : Q) (channel customer_tier : string) :
  (-100 < total)%Q -> (total < 100)%Q ->
  calculate_points total channel customer_tier = 0.
Proof.
  intros L U. unfold calculate_points, base_points.
  assert (Z0 : py_int (total / 100) = 0).
  { apply py_int_small.
    - apply Qlt_shift_div_l; [reflexivity | lra].
    - apply Qlt_shift_div_r; [reflexivity | lra]. }
  rewrite Z0.
  destruct (String.eqb channel "dine-in"); [apply py_int_zero_scaled|].
  destruct (String.eqb channel "app" || String.eqb channel "delivery");
    apply py_int_zero_scaled.
Qed.

Lemma small_orders_earn_nothing_witness :
  calculate_points (order_total [Item "Yumburger Solo" 40 2]) "delivery" "BeeElite" = 0.
Proof.
  apply small_orders_earn_nothing; unfold Qlt; simpl; lia.
Defined.

Lemma points_scale_mono (b : Z) (m1 m2 : Q) :
  0 <= b -> (m1 <= m2)%Q -> py_int (inject_Z b * m1) <= py_int (inject_Z b * m2).
Proof.
  intros Hb Hm. apply py_int_mono. rewrite !(Qmult_comm (inject_Z b)).
  apply Qmult_le_compat_r; [exact Hm|].
  change 0%Q with (inject_Z 0). rewrite <- Zle_Qle. exact Hb.
Qed.

(** For an order that is not negative, app and delivery earn the same
    and at least as much as dine-in, and a higher tier never earns less:
    BeeBuddy at most BeeFan at most BeeElite. *)
Theorem richer_channels_and_tiers_earn_more (total : Q) :
  (0 <= total)%Q ->
  (forall customer_tier,
     calculate_points total "dine-in" customer_tier
       <= calculate_points total "app" customer_tier /\
     calculate_points total "app" customer_tier
       = calculate_points total "delivery" customer_tier) /\
  (forall channel,
     calculate_points total channel "BeeBuddy" <= calculate_points total channel "BeeFan" /\
     calculate_points total channel "BeeFan" <= calculate_points total channel "BeeElite").
Proof.
  intros H. split.
  - intros customer_tier. split; [|reflexivity].
    unfold calculate_points. apply scaled_points_mono.
    pose proof (base_points_nonneg total "dine-in" H) as B.
    unfold base_points in *. cbn [String.eqb Ascii.eqb Bool.eqb orb] in *. lia.
  - intros channel. pose proof (base_points_nonneg total channel H) as B.
    unfold calculate_points.
    split; apply points_scale_mono; try exact B; unfold multiplier, Qle; simpl; lia.
Qed.

Lemma richer_channels_and_tiers_earn_more_witness :
  calculate_points 450 "dine-in" "BeeFan" <= calculate_points 450 "app" "BeeFan".
Proof.
  refine (proj1 (proj1 (richer_channels_and_tiers_earn_more 450 _) "BeeFan")).
  unfold Qle. simpl. lia.
Defined.

Lemma multiplier_at_most (customer_tier : string) : (multiplier customer_tier <= 15 # 10)%Q.
Proof.
  unfold multiplier.
  repeat match goal with |- context [if ?b then _ else _] => destruct b end;
    unfold Qle; simpl; lia.
Qed.

Lemma base_points_at_most (total : Q) (channel : string) :
  (0 <= total)%Q -> base_points total channel <= Qfloor (total / 100) * 15.
Proof.
  intros H. unfold base_points.
  rewrite (py_int_nonneg_floor _ (hundredth_nonneg _ H)).
  pose proof (Qfloor_resp_le _ _ (hundredth_nonneg _ H)) as F.
  change (Qfloor 0) with 0 in F.
  destruct (String.eqb channel "dine-in"); [lia|].
  destruct (String.eqb channel "app" || String.eqb channel "delivery"); lia.
Qed.

(** The points earned by an order that is not negative are never
    negative and never more than 22.5 percent of the order total (15 per
    100 at the highest multiplier, 1.5). *)
Theorem points_at_most_a_fraction_of_total (total : Q) (channel customer_tier : string) :
  (0 <= total)%Q ->
  0 <= calculate_points total channel customer_tier /\
  (inject_Z (calculate_points total channel customer_tier) <= total * (9 # 40))%Q.
Proof.
  intros H. split; [apply calculate_points_nonneg; exact H|].
  unfold calculate_points.
  pose proof (base_points_nonneg total channel H) as B0.
  pose proof (base_points_at_most total channel H) as B1.
  rewrite (py_int_nonneg_floor _ (scaled_points_nonneg _ customer_tier B0)).
  pose proof (Qfloor_le (inject_Z (base_points total channel) * multiplier customer_tier)) as F.
  assert (M : (inject_Z (base_points total channel) * multiplier customer_tier
               <= inject_Z (base_points total channel) * (15 # 10))%Q).
  { rewrite !(Qmult_comm (inject_Z (base_points total channel))).
    apply Qmult_le_compat_r; [apply multiplier_at_most|].
    change 0%Q with (inject_Z 0). rewrite <- Zle_Qle. exact B0. }
  assert (B2 : (inject_Z (base_points total channel) <= inject_Z (Qfloor (total / 100)) * 15)%Q).
  { change 15%Q with (inject_Z 15). rewrite <- inject_Z_mult, <- Zle_Qle. exact B1. }
  pose proof (Qfloor_le (total / 100)) as G.
  assert (D : (total == total / 100 * 100)%Q) by (field).
  set (x := (total / 100)%Q) in *. lra.
Qed.

Lemma points_at_most_a_fraction_of_total_witness :
  (inject_Z (calculate_points 980 "delivery" "BeeElite") <= 980 * (9 # 40))%Q.
Proof.
  refine (proj2 (points_at_most_a_fraction_of_total 980 "delivery" "BeeElite" _)).
  unfold Qle. simpl. lia.
Defined.

Lemma tier_rank_mono (a b : Q) :
  (a <= b)%Q -> tier_rank (check_tier_upgrade a) <= tier_rank (check_tier_upgrade b).
Proof.
  intros H. unfold check_tier_upgrade.
  destruct (Qle_bool 5000 a) eqn:A5.
  - apply Qle_bool_iff in A5.
    assert (B5 : Qle_bool 5000 b = true) by (apply Qle_bool_iff; lra).
    rewrite B5. reflexivity.
  - destruct (Qle_bool 2000 a) eqn:A2.
    + apply Qle_bool_iff in A2.
      assert (B2 : Qle_bool 2000 b = true) by (apply Qle_bool_iff; lra).
      rewrite B2. destruct (Qle_bool 5000 b); vm_compute; discriminate.
    + destruct (Qle_bool 5000 b); [vm_compute; discriminate|].
      destruct (Qle_bool 2000 b); vm_compute; discriminate.
Qed.

(** The tier never drops when the annual spending grows, and it is the
    lowest tier below 2000 and the highest from 5000 on. *)
Theorem tier_monotone_in_spending (a b : Q) :
  (a <= b)%Q ->
  tier_rank (check_tier_upgrade a) <= tier_rank (check_tier_upgrade b) /\
  (tier_rank (check_tier_upgrade a) = 0 <-> (a < 2000)%Q) /\
  (tier_rank (check_tier_upgrade b) = 2 <-> (5000 <= b)%Q).
Proof.
  intros H. split; [apply tier_rank_mono; exact H|]. unfold check_tier_upgrade. split.
  - destruct (Qle_bool 5000 a) eqn:A5; [|destruct (Qle_bool 2000 a) eqn:A2].
    + apply Qle_bool_iff in A5. split; [vm_compute; discriminate | intros; exfalso; lra].
    + apply Qle_bool_iff in A2. split; [vm_compute; discriminate | intros; exfalso; lra].
    + split; [intros _ | reflexivity]. apply Qnot_le_lt. intros N.
      apply Qle_bool_iff in N. congruence.
  - destruct (Qle_bool 5000 b) eqn:B5.
    + apply Qle_bool_iff in B5. split; [intros _; exact B5 | reflexivity].
    + split.
      * destruct (Qle_bool 2000 b); vm_compute; discriminate.
      * intros N. apply Qle_bool_iff in N. congruence.
Qed.

Lemma tier_monotone_in_spending_witness :
  tier_rank (check_tier_upgrade 1800) <= tier_rank (check_tier_upgrade 2100).
Proof.
  refine (proj1 (tier_monotone_in_spending 1800 2100 _)). unfold Qle. simpl. lia.
Defined.




(** ** Order totals *)





(** ** Inventory statuses and stock-out dates *)

Lemma status_rank_mono (s1 s2 reorder : Z) :
  s1 <= s2 ->
  status_rank (stock_status s1 reorder) <= status_rank (stock_status s2 reorder).
Proof.
  intros H. rewrite !stock_status_spec. unfold spec_stock_status.
  destruct (Z.leb_spec (2 * s1) reorder), (Z.leb_spec s1 reorder),
           (Z.leb_spec s1 (2 * reorder)), (Z.leb_spec (2 * s2) reorder),
           (Z.leb_spec s2 reorder), (Z.leb_spec s2 (2 * reorder));
    try (vm_compute; discriminate); exfalso; lia.
Qed.

(** For a fixed reorder point the status never gets worse when the
    stock is higher, and an empty stock is Critical whenever the reorder
    point is not negative. *)
Theorem status_monotone_in_stock (s1 s2 reorder : Z) :
  s1 <= s2 ->
  status_rank (stock_status s1 reorder) <= status_rank (stock_status s2 reorder) /\
  (0 <= reorder -> stock_status 0 reorder = "Critical").
Proof.
  intros H. split; [apply status_rank_mono; exact H|]. intros R.
  rewrite stock_status_spec. unfold spec_stock_status.
  destruct (Z.leb_spec (2 * 0) reorder); [reflexivity | lia].
Qed.

Lemma status_monotone_in_stock_witness :
  status_rank (stock_status 10 30) <= status_rank (stock_status 45 30).
Proof. refine (proj1 (status_monotone_in_stock 10 45 30 _)). lia. Defined.

(** Serving an order line with a quantity that is not negative from a
    stock that is not negative never improves the status of the record:
    the status written ranks at most as the status of the stock that was
    read. *)
Theorem decrement_never_improves_status (store_id : string) (items : list item) tr lines :
  exec (_prepare_inventory_updates store_id items) tr lines ->
  Forall (fun d =>
            exists (it : item) (reply : reply_of (inventory_query store_id it))
                   (h : hit inventory_item) (rest : list (hit inventory_item)),
              In it items /\ In (Ev (inventory_query store_id it) reply) tr /\
              hits_of (i := Inventory) reply = h :: rest /\
              (0 <= quantity it -> 0 <= current_stock (_source h) ->
               current_stock d <= current_stock (_source h) /\
               status_rank (status d)
                 <= status_rank (stock_status (current_stock (_source h))
                                              (reorder_point (_source h)))))
         (inventory_docs lines).
Proof.
  intros E. apply exec_prepare_inventory_updates in E. destruct E as (F & _).
  eapply Forall_impl; [exact F|]. intros d (it & reply & h & rest & Hi & He & Hh & Hd).
  destruct Hd as (Hs & _ & _ & Hst & _).
  exists it, reply, h, rest. repeat (split; [assumption|]).
  intros Hq H0. assert (L : current_stock d <= current_stock (_source h)) by lia.
  split; [exact L|]. rewrite Hst. apply status_rank_mono. exact L.
Qed.

Lemma decrement_never_improves_status_witness :
  Forall (fun d => exists it : item, In it [Item "Regular Fries" 50 25])
    (inventory_docs
       (fst (run (scripted None [] [sample_stock 40 30 (Some 10%Q)] BulkRaised 19000%Q) 0
                 (_prepare_inventory_updates "store_001" [Item "Regular Fries" 50 25])))).
Proof.
  eapply Forall_impl.
  - exact (decrement_never_improves_status "store_001" [Item "Regular Fries" 50 25] _ _
             (run_exec (scripted None [] [sample_stock 40 30 (Some 10%Q)] BulkRaised 19000%Q)
                       (_prepare_inventory_updates "store_001" [Item "Regular Fries" 50 25])
                       0)).
  - intros d (it & reply & h & rest & Hi & _). exists it. exact Hi.
Defined.

(** One turn of the inventory loop with its trace: the search, then one
    clock reading for the timestamp and, when the daily consumption is
    positive, one more for the stock-out date. *)
Lemma inventory_line_trace (store_id : string) (it : item) (acc : list bulk_line) tr acc' :
  exec (inventory_line store_id acc it) tr acc' ->
  exists reply clock,
    tr = Ev (inventory_query store_id it) reply :: map (Ev Now) clock /\
    match hits_of (i := Inventory) reply with
    | [] => acc' = acc /\ clock = []
    | h :: _ =>
        exists d,
          acc' = (acc ++ [Action INDEX_INVENTORY (_id h); Source (DocInventory d)])%list /\
          In (inv_timestamp d) clock /\
          ((0 < default 10 (daily_consumption d))%Q ->
           exists now,
             In now clock /\
             predicted_stockout_date d =
             add_days now
               (py_max0 (inject_Z (current_stock d - reorder_point d)
                         / default 10%Q (daily_consumption d))))
    end.
Proof.
  unfold inventory_line. intros H.
  apply exec_bind in H. destruct H as (tr1 & tr2 & hs & -> & H1 & H2).
  apply exec_aggregation_search in H1. destruct H1 as (reply & -> & ->).
  exists reply. destruct (hits_of reply) as [|h rest].
  - simpl in H2. destruct H2 as [-> ->]. exists []. auto.
  - exec_vis H2 now tr3. cbn [source_of] in *.
    destruct (Qltb 0 (default 10%Q (daily_consumption (_source h)))) eqn:E.
    + exec_vis H2 now' tr4. destruct H2 as [-> ->]. exists [now; now'].
      split; [reflexivity|]. eexists. split; [reflexivity|]. simpl.
      split; [auto|]. intros _. exists now'. auto.
    + simpl in H2. destruct H2 as [-> ->]. exists [now].
      split; [reflexivity|]. eexists. split; [reflexivity|]. simpl.
      split; [auto|]. intros N. apply Qltb_lt in N. congruence.
Qed.

Lemma requests_of_app (tr1 tr2 : list event) :
  requests_of (tr1 ++ tr2) = (requests_of tr1 ++ requests_of tr2)%list.
Proof. unfold requests_of. apply map_app. Qed.

Lemma clock_readings_app (tr1 tr2 : list event) :
  clock_readings (tr1 ++ tr2) = (clock_readings tr1 ++ clock_readings tr2)%list.
Proof. unfold clock_readings. apply flat_map_app. Qed.

Lemma clock_only (clock : list datetime) :
  List.filter is_search (requests_of (map (Ev Now) clock)) = [] /\
  clock_readings (map (Ev Now) clock) = clock.
Proof.
  unfold requests_of, clock_readings.
  induction clock as [|t rest [IH1 IH2]]; simpl in *; [auto|]. rewrite IH1, IH2. auto.
Qed.

(** The stock-out date of [d] is a clock reading of [tr] plus the days
    the stock above the reorder point lasts. *)
Lemma stockout_mono (tr tr' : list event) (d : inventory_item) :
  (forall t, In t (clock_readings tr) -> In t (clock_readings tr')) ->
  (In (inv_timestamp d) (clock_readings tr) /\
   ((0 < default 10 (daily_consumption d))%Q ->
    exists now,
      In now (clock_readings tr) /\
      predicted_stockout_date d =
      add_days now (py_max0 (inject_Z (current_stock d - reorder_point d)
                             / default 10%Q (daily_consumption d))))) ->
  In (inv_timestamp d) (clock_readings tr') /\
  ((0 < default 10 (daily_consumption d))%Q ->
   exists now,
     In now (clock_readings tr') /\
     predicted_stockout_date d =
     add_days now (py_max0 (inject_Z (current_stock d - reorder_point d)
                            / default 10%Q (daily_consumption d)))).
Proof.
  intros M [T P]. split; [apply M; exact T|]. intros Hpos.
  destruct (P Hpos) as (now & Hn & Hp). exists now. auto.
Qed.

Lemma prepare_inventory_trace (store_id : string) (items : list item) :
  forall (acc : list bulk_line) tr lines,
    exec (for_each items acc (inventory_line store_id)) tr lines ->
    List.filter is_search (requests_of tr) = map (inventory_query store_id) items /\
    exists new,
      lines = (acc ++ new)%list /\
      length new = (2 * length (inventory_docs new))%nat /\
      (length (inventory_docs new) <= length items)%nat /\
      Forall (fun d =>
                In (inv_timestamp d) (clock_readings tr) /\
                ((0 < default 10 (daily_consumption d))%Q ->
                 exists now,
                   In now (clock_readings tr) /\
                   predicted_stockout_date d =
                   add_days now (py_max0 (inject_Z (current_stock d - reorder_point d)
                                          / default 10%Q (daily_consumption d)))))
             (inventory_docs new).
Proof.
  induction items as [|it rest IH]; intros acc tr lines H.
  - simpl in H. destruct H as [-> ->]. split; [reflexivity|].
    exists []. rewrite app_nil_r. simpl. repeat split; auto.
  - cbn [for_each] in H. apply exec_bind in H.
    destruct H as (tr1 & tr2 & acc1 & -> & H1 & H2).
    apply inventory_line_trace in H1. destruct H1 as (reply & clock & -> & H1).
    apply IH in H2. destruct H2 as (S2 & new2 & -> & L2 & C2 & F2).
    destruct (clock_only clock) as [K1 K2].
    assert (R : clock_readings ((Ev (inventory_query store_id it) reply
                                   :: map (Ev Now) clock) ++ tr2)
                = (clock ++ clock_readings tr2)%list).
    { rewrite clock_readings_app.
      change (clock_readings (Ev (inventory_query store_id it) reply :: map (Ev Now) clock))
        with (clock_readings (map (Ev Now) clock)).
      rewrite K2. reflexivity. }
    split.
    { rewrite requests_of_app, List.filter_app, S2.
      change (requests_of (Ev (inventory_query store_id it) reply :: map (Ev Now) clock))
        with (inventory_query store_id it :: requests_of (map (Ev Now) clock)).
      cbn [List.filter is_search inventory_query]. rewrite K1. reflexivity. }
    assert (F2' : Forall (fun d =>
                In (inv_timestamp d)
                   (clock_readings ((Ev (inventory_query store_id it) reply
                                       :: map (Ev Now) clock) ++ tr2)) /\
                ((0 < default 10 (daily_consumption d))%Q ->
                 exists now,
                   In now (clock_readings ((Ev (inventory_query store_id it) reply
                                              :: map (Ev Now) clock) ++ tr2)) /\
                   predicted_stockout_date d =
                   add_days now (py_max0 (inject_Z (current_stock d - reorder_point d)
                                          / default 10%Q (daily_consumption d)))))
             (inventory_docs new2)).
    { eapply Forall_impl; [exact F2|]. intros d. apply stockout_mono.
      intros t Ht. rewrite R. apply in_or_app. right. exact Ht. }
    set (whole := ((Ev (inventory_query store_id it) reply :: map (Ev Now) clock) ++ tr2)%list)
      in *. clearbody whole.
    destruct (hits_of reply) as [|h hs].
    + destruct H1 as [-> ->]. exists new2. simpl in *. repeat split; auto.
    + destruct H1 as (d & -> & Ht & Hp).
      exists ([Action INDEX_INVENTORY (_id h); Source (DocInventory d)] ++ new2)%list.
      split; [now rewrite <- app_assoc|].
      destruct (docs_app [Action INDEX_INVENTORY (_id h); Source (DocInventory d)] new2)
        as (-> & _ & _).
      cbn [inventory_docs flat_map app length]. fold (inventory_docs new2).
      split; [simpl; lia|]. split; [simpl; lia|].
      constructor; [|exact F2'].
      rewrite R. split; [apply in_or_app; left; exact Ht|].
      intros Hpos. destruct (Hp Hpos) as (now & Hn & Hd).
      exists now. split; [apply in_or_app; left; exact Hn | exact Hd].
Qed.



Lemma py_max0_nonneg (x : Q) : (0 <= py_max0 x)%Q.
Proof.
  unfold py_max0. destruct (Qltb 0 x) eqn:E; [|apply Qle_refl].
  apply Qltb_lt in E. apply Qlt_le_weak. exact E.
Qed.

Lemma py_max0_surplus (z : Z) (c : Q) :
  (0 < c)%Q ->
  (z <= 0 -> py_max0 (inject_Z z / c) = 0%Q) /\
  (0 < z -> py_max0 (inject_Z z / c) = (inject_Z z / c)%Q).
Proof.
  intros Hc. unfold py_max0. split; intros Hz.
  - destruct (Qltb 0 (inject_Z z / c)) eqn:E; [|reflexivity].
    apply Qltb_lt in E. exfalso.
    assert (N : (inject_Z z / c <= 0)%Q).
    { apply Qle_shift_div_r; [exact Hc|]. rewrite Qmult_0_l.
      change 0%Q with (inject_Z 0). rewrite <- Zle_Qle. exact Hz. }
    lra.
  - assert (P : (0 < inject_Z z / c)%Q).
    { apply Qlt_shift_div_l; [exact Hc|]. rewrite Qmult_0_l.
      change 0%Q with (inject_Z 0). rewrite <- Zlt_Qlt. exact Hz. }
    apply Qltb_lt in P. rewrite P. reflexivity.
Qed.

(** When the daily consumption of a record (10 when the field is
    missing) is positive, the stock-out date the loop writes is a clock
    reading of the call plus a number of days that is not negative: it is
    that reading itself when the new stock is at or below the reorder
    point, and otherwise lies (stock - reorder point) / consumption days
    later. The timestamp written is a clock reading of the call too. *)
Theorem stockout_date_never_in_the_past (store_id : string) (items : list item) tr lines :
  exec (_prepare_inventory_updates store_id items) tr lines ->
  Forall (fun d =>
            In (inv_timestamp d) (clock_readings tr) /\
            ((0 < default 10 (daily_consumption d))%Q ->
             exists now,
               In now (clock_readings tr) /\
               (now <= predicted_stockout_date d)%Q /\
               (current_stock d <= reorder_point d ->
                (predicted_stockout_date d == now)%Q) /\
               (reorder_point d < current_stock d ->
                (predicted_stockout_date d
                 == now + inject_Z (current_stock d - reorder_point d)
                          / default 10 (daily_consumption d))%Q)))
         (inventory_docs lines).
Proof.
  intros E. apply prepare_inventory_trace in E. destruct E as (_ & new & -> & _ & _ & F).
  cbn [app]. eapply Forall_impl; [exact F|]. intros d [T P]. split; [exact T|].
  intros Hpos. destruct (P Hpos) as (now & Hn & Hd). exists now. split; [exact Hn|].
  rewrite Hd. unfold add_days.
  destruct (py_max0_surplus (current_stock d - reorder_point d) _ Hpos) as [Z0 Z1].
  pose proof (py_max0_nonneg (inject_Z (current_stock d - reorder_point d)
                              / default 10%Q (daily_consumption d))) as N.
  split; [lra|]. split.
  - intros L. rewrite Z0 by lia. ring.
  - intros L. rewrite Z1 by lia. reflexivity.
Qed.

Lemma stockout_date_never_in_the_past_witness :
  Forall (fun d => In (inv_timestamp d) [19000%Q; 19000%Q])
    (inventory_docs
       (fst (run (scripted None [] [sample_stock 40 30 (Some 10%Q)] BulkRaised 19000%Q) 0
                 (_prepare_inventory_updates "store_001" [Item "Regular Fries" 50 2])))).
Proof.
  eapply Forall_impl.
  - exact (stockout_date_never_in_the_past "store_001" [Item "Regular Fries" 50 2] _ _
             (run_exec (scripted None [] [sample_stock 40 30 (Some 10%Q)] BulkRaised 19000%Q)
                       (_prepare_inventory_updates "store_001" [Item "Regular Fries" 50 2]) 0)).
  - intros d [T _]. exact T.
Defined.

(** ** Document ids *)

Lemma pretty_N_go_nonempty (x : N) : forall s, s <> "" -> pretty_N_go x s <> "".
Proof.
  induction (N.lt_wf_0 x) as [x _ IH]; intros s Hs.
  destruct (N.eq_dec x 0%N) as [->|Hx].
  - rewrite pretty_N_go_0. exact Hs.
  - rewrite pretty_N_go_step by lia. apply IH; [apply N.div_lt; lia | discriminate].
Qed.

Lemma pretty_Z_nonempty (z : Z) : pretty z <> "".
Proof.
  destruct z as [|p|p].
  - discriminate.
  - change (pretty (Z.pos p)) with (pretty_N_go (N.pos p) "").
    rewrite pretty_N_go_step by lia. apply pretty_N_go_nonempty. discriminate.
  - cbv [pretty pretty_Z String.app String.append]. discriminate.
Qed.

Lemma py_str_nonempty (v : pyvalue) : truthy v = true -> py_str v <> "".
Proof.
  destruct v as [|[|]|z|s]; simpl; try discriminate.
  - intros _. apply pretty_Z_nonempty.
  - intros H E. subst s. discriminate H.
Qed.

Lemma dict_get_In_entry {V : Type} (k : string) (v : V) (d : list (string * V)) :
  dict_get k d = Some v -> In (k, v) d.
Proof.
  induction d as [|[k0 v0] rest IH]; simpl; [discriminate|].
  destruct (String.eqb_spec k0 k) as [->|Hne].
  - intros [= ->]. left. reflexivity.
  - intros H. right. apply IH. exact H.
Qed.

Lemma first_priority_id_some (fields : list string) (doc : pydict) (s : string) :
  first_priority_id fields doc = Some s ->
  exists field v, In field fields /\ dict_get field doc = Some v /\
                  truthy v = true /\ s = py_str v.
Proof.
  induction fields as [|f rest IH]; simpl; [discriminate|].
  destruct (dict_get f doc) as [v|] eqn:E.
  - destruct (truthy v) eqn:T.
    + intros [= <-]. exists f, v. auto.
    + intros H. destruct (IH H) as (f' & v' & Hin & Hrest). exists f', v'. auto.
  - intros H. destruct (IH H) as (f' & v' & Hin & Hrest). exists f', v'. auto.
Qed.

Lemma first_priority_id_none (fields : list string) (doc : pydict) :
  first_priority_id fields doc = None <->
  forall field v, In field fields -> dict_get field doc = Some v -> truthy v = false.
Proof.
  induction fields as [|f rest IH]; simpl.
  - split; [intros _ field v [] | reflexivity].
  - destruct (dict_get f doc) as [v|] eqn:E.
    + destruct (truthy v) eqn:T.
      * split; [discriminate|]. intros H. specialize (H f v (or_introl eq_refl) E). congruence.
      * rewrite IH. split.
        -- intros H field w [<-|Hin] G; [congruence | eauto].
        -- intros H field w Hin G. apply (H field w); auto.
    + rewrite IH. split.
      * intros H field w [<-|Hin] G; [congruence | eauto].
      * intros H field w Hin G. apply (H field w); auto.
Qed.

Lemma fallback_id_some (entries : pydict) (s : string) :
  fallback_id entries = Some s ->
  exists key v, In (key, v) entries /\ endswith key "_id" = true /\
                truthy v = true /\ s = py_str v.
Proof.
  induction entries as [|[k v] rest IH]; simpl; [discriminate|].
  destruct (endswith k "_id" && truthy v) eqn:E.
  - apply andb_true_iff in E. destruct E as [E1 E2].
    intros [= <-]. exists k, v. auto.
  - intros H. destruct (IH H) as (k' & v' & Hin & Hrest). exists k', v'. auto.
Qed.

Lemma fallback_id_none (entries : pydict) :
  fallback_id entries = None <->
  forall key v, In (key, v) entries -> endswith key "_id" = true -> truthy v = false.
Proof.
  induction entries as [|[k v] rest IH]; simpl.
  - split; [intros _ key v [] | reflexivity].
  - destruct (endswith k "_id" && truthy v) eqn:E.
    + apply andb_true_iff in E. destruct E as [E1 E2].
      split; [discriminate|]. intros H.
      specialize (H k v (or_introl eq_refl) E1). congruence.
    + apply andb_false_iff in E. rewrite IH. split.
      * intros H key w [[= <- <-]|Hin] G; [destruct E; congruence | eauto].
      * intros H key w Hin G. apply (H key w); auto.
Qed.

(** An id that [_determine_document_id] returns is never empty and is
    always [str] of a truthy field of the document: a field of the
    priority list of the index, or a field whose name ends in [_id]. *)
Theorem document_id_comes_from_a_truthy_field (index : string) (doc : pydict) (s : string) :
  _determine_document_id index doc = Some s ->
  s <> "" /\
  exists key v,
    In (key, v) doc /\ truthy v = true /\ s = py_str v /\
    (In key (priority_fields_of index) \/ endswith key "_id" = true).
Proof.
  unfold _determine_document_id. fold (priority_fields_of index).
  destruct (first_priority_id (priority_fields_of index) doc) as [s'|] eqn:E.
  - intros [= <-]. apply first_priority_id_some in E.
    destruct E as (f & v & Hin & Hg & T & ->).
    split; [apply py_str_nonempty; exact T|].
    exists f, v. split; [apply dict_get_In_entry; exact Hg|]. auto.
  - intros H. apply fallback_id_some in H. destruct H as (k & v & Hin & He & T & ->).
    split; [apply py_str_nonempty; exact T|]. exists k, v. auto.
Qed.

Lemma document_id_comes_from_a_truthy_field_witness :
  exists key v,
    In (key, v) [("store_id", PyStr "store_001"); ("item_name", PyStr "Regular Fries")] /\
    truthy v = true /\ "store_001" = py_str v.
Proof.
  destruct (proj2 (document_id_comes_from_a_truthy_field INDEX_INVENTORY
                     [("store_id", PyStr "store_001"); ("item_name", PyStr "Regular Fries")]
                     "store_001" eq_refl))
    as (key & v & Hin & T & Hs & _).
  exists key, v. auto.
Defined.

(** [_determine_document_id] finds no id exactly when every field of
    the priority list of the index and every field whose name ends in
    [_id] is missing or falsy ([None], [False], [0] or the empty
    string). *)
Theorem document_id_missing_iff (index : string) (doc : pydict) :
  _determine_document_id index doc = None <->
  (forall field v, In field (priority_fields_of index) ->
                   dict_get field doc = Some v -> truthy v = false) /\
  (forall key v, In (key, v) doc -> endswith key "_id" = true -> truthy v = false).
Proof.
  unfold _determine_document_id. fold (priority_fields_of index).
  rewrite <- first_priority_id_none, <- fallback_id_none.
  destruct (first_priority_id (priority_fields_of index) doc) as [s|].
  - split; [discriminate | intros [H _]; discriminate H].
  - split; [auto | intros [_ H]; exact H].
Qed.

(** Each configured index has a primary field that decides the
    document id whenever it is truthy: [inventory_id], [customer_id],
    [transaction_id], [store_id] and [item_id] for the inventory,
    customers, transactions, stores and menu indices; for any other index
    a truthy [id] field decides. *)
Theorem primary_field_decides_document_id (index field : string) (doc : pydict) (v : pyvalue) :
  In (index, field)
     [ (INDEX_INVENTORY, "inventory_id"); (INDEX_CUSTOMERS, "customer_id");
       (INDEX_TRANSACTIONS, "transaction_id"); (INDEX_STORES, "store_id");
       (INDEX_MENU, "item_id") ]
  \/ (~ In index (map fst id_priorities) /\ field = "id") ->
  dict_get field doc = Some v -> truthy v = true ->
  _determine_document_id index doc = Some (py_str v).
Proof.
  intros H G T. unfold _determine_document_id.
  destruct H as [H|[H ->]].
  - simpl in H.
    repeat (destruct H as [H|H]; [injection H as <- <-; simpl; rewrite G, T; reflexivity|]).
    contradiction.
  - destruct (dict_get index id_priorities) as [fields|] eqn:E.
    + exfalso. apply H. apply dict_keys. rewrite E. eauto.
    + simpl. rewrite G, T. reflexivity.
Qed.

Lemma primary_field_decides_document_id_witness :
  _determine_document_id INDEX_CUSTOMERS
    [("name", PyStr "Mike"); ("store_id", PyStr "store_001"); ("customer_id", PyStr "mike001")]
  = Some "mike001".
Proof.
  refine (primary_field_decides_document_id INDEX_CUSTOMERS "customer_id" _
            (PyStr "mike001") _ _ _).
  - left. right. left. reflexivity.
  - reflexivity.
  - reflexivity.
Defined.

(** ** [bulk_index] *)

Lemma determine_document_id_nonempty (index : string) (doc : pydict) (s : string) :
  _determine_document_id index doc = Some s -> s <> "".
Proof.
  unfold _determine_document_id.
  destruct (first_priority_id _ doc) as [s'|] eqn:E.
  - intros [= <-]. apply first_priority_id_some in E.
    destruct E as (f & v & _ & _ & T & ->). apply py_str_nonempty. exact T.
  - intros H. apply fallback_id_some in H. destruct H as (k & v & _ & _ & T & ->).
    apply py_str_nonempty. exact T.
Qed.

Lemma index_body_length (index : string) (ids : list string) (documents : list pydict) :
  length ids = length documents ->
  length (index_body index ids documents) = (2 * length documents)%nat.
Proof.
  revert documents. induction ids as [|id ids IH]; intros [|doc rest] H;
    simpl in H; try discriminate; [reflexivity|].
  injection H as H. apply IH in H. unfold index_body in *. simpl in *. lia.
Qed.

Lemma exec_index_line (index : string) (acc : list bulk_line) (doc : pydict) tr acc' :
  exec (index_line index acc doc) tr acc' ->
  exists id,
    acc' = (acc ++ [Action index id; Source (DocRaw doc)])%list /\
    match _determine_document_id index doc with
    | Some s => id = s /\ tr = []
    | None => tr = [Ev Uuid4 id]
    end.
Proof.
  unfold index_line. intros H.
  destruct (_determine_document_id index doc) as [s|] eqn:E.
  - apply determine_document_id_nonempty in E. apply String.eqb_neq in E.
    rewrite E in H. simpl in H. destruct H as [-> ->]. exists s. auto.
  - simpl in H. destruct H as (id & tr' & -> & -> & ->). exists id. auto.
Qed.

Lemma index_loop (index : string) (documents : list pydict) :
  forall acc tr acc',
    exec (for_each documents acc (index_line index)) tr acc' ->
    exists ids generated,
      acc' = (acc ++ index_body index ids documents)%list /\
      tr = uuid_draws generated /\
      Forall2 (keeps_found_id index) ids documents /\
      length generated = length (List.filter (needs_uuid index) documents).
Proof.
  induction documents as [|doc rest IH]; intros acc tr acc' H.
  - simpl in H. destruct H as [-> ->]. exists [], []. simpl.
    rewrite app_nil_r. auto.
  - cbn [for_each] in H. apply exec_bind in H.
    destruct H as (tr1 & tr2 & mid & -> & H1 & H2).
    apply exec_index_line in H1. destruct H1 as (id & -> & Hid).
    apply IH in H2. destruct H2 as (ids & generated & -> & -> & F & L).
    unfold needs_uuid, keeps_found_id in *. cbn [List.filter].
    destruct (_determine_document_id index doc) as [s|] eqn:E.
    + destruct Hid as [-> ->]. exists (s :: ids), generated.
      unfold index_body. simpl. rewrite <- app_assoc. simpl.
      repeat split; auto. constructor; [|exact F]. intros s' Hs. congruence.
    + subst tr1. exists (id :: ids), (id :: generated).
      unfold index_body. simpl. rewrite <- app_assoc. simpl.
      repeat split; auto. constructor; [|exact F]. intros s' Hs. congruence.
Qed.

Lemma exec_bulk_index (index : string) (documents : list pydict) tr r :
  exec (bulk_index index documents) tr r ->
  exists ids generated reply,
    tr = (uuid_draws generated ++ [Ev (PostBulk (index_body index ids documents)) reply])%list /\
    Forall2 (keeps_found_id index) ids documents /\
    length generated = length (List.filter (needs_uuid index) documents) /\
    r = match reply with
        | BulkRaised => None
        | BulkResponse response =>
            if Z.eqb (status_code response) 200 then
              match bulk_errors (json response) with
              | _ :: _ => Some (below_tolerance (length (bulk_errors (json response)))
                                                (length documents))
              | [] => Some true
              end
            else Some false
        end.
Proof.
  unfold bulk_index. intros H.
  apply exec_bind in H. destruct H as (tr1 & tr2 & body & -> & H1 & H2).
  apply index_loop in H1. destruct H1 as (ids & generated & -> & -> & F & L).
  simpl in H2. destruct H2 as (reply & tr' & -> & H2).
  exists ids, generated, reply. repeat split; auto.
  - destruct reply as [|response]; simpl in H2.
    + destruct H2 as [-> _]. reflexivity.
    + destruct (Z.eqb (status_code response) 200).
      * destruct (bulk_errors (json response)); simpl in H2; destruct H2 as [-> _]; reflexivity.
      * simpl in H2. destruct H2 as [-> _]. reflexivity.
  - destruct reply as [|response]; simpl in H2.
    + destruct H2 as [_ ->]. reflexivity.
    + destruct (Z.eqb (status_code response) 200).
      * destruct (bulk_errors (json response)); simpl in H2; destruct H2 as [_ ->]; reflexivity.
      * simpl in H2. destruct H2 as [_ ->]. reflexivity.
Qed.

(** [bulk_index] sends the whole list in a single [_bulk] request, as
    its last step: the body holds an action line and the document itself
    for every document, in the order given; a document keeps the id
    [_determine_document_id] finds for it, and an id is drawn from
    [uuid4] exactly once for each document without one. *)
Theorem bulk_index_sends_one_body (index : string) (documents : list pydict) tr r :
  exec (bulk_index index documents) tr r ->
  exists ids generated reply,
    tr = (uuid_draws generated ++ [Ev (PostBulk (index_body index ids documents)) reply])%list /\
    Forall2 (keeps_found_id index) ids documents /\
    length generated = length (List.filter (needs_uuid index) documents) /\
    length (index_body index ids documents) = (2 * length documents)%nat.
Proof.
  intros H. apply exec_bulk_index in H.
  destruct H as (ids & generated & reply & -> & F & L & _).
  exists ids, generated, reply. repeat split; auto.
  apply index_body_length. exact (Forall2_length _ _ _ F).
Qed.

Lemma bulk_index_sends_one_body_witness :
  exists ids generated reply,
    snd (run (scripted None [] [] (bulk_ok 0 2) 19000%Q) 0
           (bulk_index INDEX_CUSTOMERS
              [[("customer_id", PyStr "mike001"); ("name", PyStr "Mike")];
               [("name", PyStr "Ana")]]))
    = (uuid_draws generated
       ++ [Ev (PostBulk (index_body INDEX_CUSTOMERS ids
                           [[("customer_id", PyStr "mike001"); ("name", PyStr "Mike")];
                            [("name", PyStr "Ana")]])) reply])%list /\
    Forall2 (keeps_found_id INDEX_CUSTOMERS) ids
      [[("customer_id", PyStr "mike001"); ("name", PyStr "Mike")]; [("name", PyStr "Ana")]] /\
    length generated = 1%nat.
Proof.
  destruct (bulk_index_sends_one_body INDEX_CUSTOMERS
              [[("customer_id", PyStr "mike001"); ("name", PyStr "Mike")];
               [("name", PyStr "Ana")]] _ _
              (run_exec (scripted None [] [] (bulk_ok 0 2) 19000%Q)
                 (bulk_index INDEX_CUSTOMERS
                    [[("customer_id", PyStr "mike001"); ("name", PyStr "Mike")];
                     [("name", PyStr "Ana")]]) 0))
    as (ids & generated & reply & Htr & F & L & _).
  exists ids, generated, reply. auto.
Defined.

(** [bulk_index] reports success exactly when the reply has status 200
    and either no item failed or the failed items are fewer than a
    tenth of the documents; it reports failure on any other reply, and
    raises only when the request itself raised. *)
Theorem bulk_index_tolerates_under_a_tenth (index : string) (documents : list pydict) tr r :
  exec (bulk_index index documents) tr r ->
  exists pre lines reply,
    tr = (pre ++ [Ev (PostBulk lines) reply])%list /\
    (r = None <-> reply = BulkRaised) /\
    (r = Some true <->
     exists response, reply = BulkResponse response /\ status_code response = 200 /\
       (length (bulk_errors (json response)) = 0
        \/ 10 * length (bulk_errors (json response)) < length documents)%nat).
Proof.
  intros H. apply exec_bulk_index in H.
  destruct H as (ids & generated & reply & -> & _ & _ & ->).
  exists (uuid_draws generated), (index_body index ids documents), reply.
  split; [reflexivity|].
  destruct reply as [|response].
  - split; [tauto|]. split; [discriminate|]. intros (resp & [=] & _).
  - destruct (Z.eqb_spec (status_code response) 200) as [E|E].
    + destruct (bulk_errors (json response)) as [|e es] eqn:B.
      * split; [split; discriminate|]. split; [|reflexivity].
        intros _. exists response. rewrite B. auto.
      * split; [split; discriminate|]. split.
        -- intros [= T]. apply below_tolerance_iff in T. exists response. rewrite B. auto.
        -- intros (resp & [= <-] & _ & [L|L]).
           ++ rewrite B in L. discriminate L.
           ++ rewrite B in L. f_equal. apply below_tolerance_iff. exact L.
    + split; [split; discriminate|]. split; [discriminate|].
      intros (resp & [= <-] & S & _). contradiction.
Qed.

Lemma bulk_index_tolerates_under_a_tenth_witness :
  fst (run (scripted None [] [] (bulk_ok 1 9) 19000%Q) 0
         (bulk_index INDEX_CUSTOMERS
            (repeat [("customer_id", PyStr "mike001")] 10))) <> Some true.
Proof.
  destruct (bulk_index_tolerates_under_a_tenth INDEX_CUSTOMERS
              (repeat [("customer_id", PyStr "mike001")] 10) _ _
              (run_exec (scripted None [] [] (bulk_ok 1 9) 19000%Q)
                 (bulk_index INDEX_CUSTOMERS
                    (repeat [("customer_id", PyStr "mike001")] 10)) 0))
    as (pre & lines & reply & Htr & _ & Hok).
  intros T. apply Hok in T. destruct T as (response & -> & _ & L).
  apply (f_equal (fun l => bulk_reply_of (List.last l (Ev Now 0%Q)))) in Htr.
  rewrite List.last_last in Htr. vm_compute in Htr.
  injection Htr as <-. vm_compute in L. lia.
Defined.

(** ** The requests of [create_transaction] *)

Lemma passive_read_only (tr : list event) : Forall passive tr -> Forall read_only tr.
Proof.
  intros F. eapply Forall_impl; [exact F|].
  intros [[] x]; simpl; auto.
Qed.

Lemma passive_no_refresh (tr : list event) :
  Forall passive tr -> List.filter is_refresh (requests_of tr) = [].
Proof.
  induction 1 as [|e tr He _ IH]; [reflexivity|].
  unfold requests_of in *. cbn [map List.filter]. rewrite IH.
  destruct e as [[] x]; simpl in *; try reflexivity; contradiction.
Qed.

Lemma clock_passive (clock : list datetime) : Forall passive (map (Ev Now) clock).
Proof. induction clock; constructor; [exact I | assumption]. Qed.

Lemma inventory_loop_passive (store_id : string) (items : list item) :
  forall (acc : list bulk_line) tr lines,
    exec (for_each items acc (inventory_line store_id)) tr lines -> Forall passive tr.
Proof.
  induction items as [|it rest IH]; intros acc tr lines H.
  - simpl in H. destruct H as [-> _]. constructor.
  - cbn [for_each] in H. apply exec_bind in H.
    destruct H as (tr1 & tr2 & mid & -> & H1 & H2).
    apply inventory_line_trace in H1. destruct H1 as (reply & clock & -> & _).
    apply Forall_app. split; [|exact (IH _ _ _ H2)].
    constructor; [exact I | apply clock_passive].
Qed.

Lemma exec_batch_transaction_updates_refresh txn_id txn customer_id cust store_id items tr ok :
  exec (_batch_transaction_updates txn_id txn customer_id cust store_id items) tr ok ->
  exists pre inventory_updates reply post,
    let lines :=
      ([ Action INDEX_TRANSACTIONS txn_id; Source (DocTransaction txn);
         Action INDEX_CUSTOMERS customer_id; Source (DocCustomer cust) ]
       ++ inventory_updates)%list in
    tr = (pre ++ Ev (PostBulk lines) reply :: post)%list /\
    exec (_prepare_inventory_updates store_id items) pre inventory_updates /\
    ok = bulk_verdict (length lines) reply /\
    if ok then exists refresh_reply, post = [Ev (Refresh refreshed_indices) refresh_reply]
    else post = [].
Proof.
  unfold _batch_transaction_updates. intros H.
  apply exec_bind in H. destruct H as (pre & tr2 & inv & -> & H1 & H2).
  cbn [app] in H2. apply exec_bind in H2.
  destruct H2 as (tr3 & post & success & -> & H2 & H3).
  apply exec_execute_bulk_update in H2. destruct H2 as (reply & -> & ->).
  exists pre, inv, reply, post. cbv zeta. cbn [app].
  split; [reflexivity|]. split; [exact H1|].
  destruct (bulk_verdict _ reply).
  - apply exec_bind in H3. destruct H3 as (tr4 & tr5 & b & -> & H3 & H4).
    apply exec_refresh_index in H3. destruct H3 as (r & ->).
    simpl in H4. destruct H4 as [-> ->].
    split; [reflexivity|]. exists r. reflexivity.
  - simpl in H3. destruct H3 as [-> ->]. split; reflexivity.
Qed.

(** Every execution of [create_transaction] in full: the read of the
    customer; then, for a customer that was found, a uuid, clock
    readings and inventory searches; one bulk write whose first two
    documents are the transaction and the updated customer; and a
    refresh exactly when the write was accepted. *)
Lemma exec_create_transaction_writes customer_id items channel store_info payment_method tr r :
  exec (create_transaction customer_id items channel store_info payment_method) tr r ->
  exists reply tr',
    tr = Ev (GetDoc Customers customer_id) reply :: tr' /\
    match fetched (i := Customers) reply with
    | None => tr' = [] /\ r = (false, "Customer not found", None)
    | Some cust =>
        let total := order_total items in
        let points_earned := calculate_points total channel (tier (loyalty cust)) in
        exists txn now pre inventory_updates bulk_reply post,
          let lines :=
            ([ Action INDEX_TRANSACTIONS (transaction_id txn); Source (DocTransaction txn);
               Action INDEX_CUSTOMERS customer_id;
               Source (DocCustomer (earn cust total points_earned now)) ]
             ++ inventory_updates)%list in
          tr' = (pre ++ Ev (PostBulk lines) bulk_reply :: post)%list /\
          Forall passive pre /\
          customer_docs inventory_updates = [] /\
          if bulk_verdict (length lines) bulk_reply
          then (exists refresh_reply, post = [Ev (Refresh refreshed_indices) refresh_reply]) /\
               exists result,
                 r = (true,
                      "Transaction successful! Earned " ++ pretty points_earned ++ " BeePoints.",
                      Some result)
          else post = [] /\ r = (false, "Failed to process transaction", None)
    end.
Proof.
  unfold create_transaction, get_customer. intros H.
  apply exec_bind in H. destruct H as (tr1 & tr' & found & -> & H1 & H2).
  apply exec_get_document in H1. destruct H1 as (reply & -> & ->).
  exists reply, tr'. split; [reflexivity|].
  destruct (fetched reply) as [cust|].
  2:{ simpl in H2. destruct H2 as [-> ->]. auto. }
  cbv zeta in H2 |- *.
  apply exec_bind in H2. destruct H2 as (trb & tr2 & built & -> & Hb & H2).
  apply exec_build_transaction in Hb.
  destruct Hb as ((uuid & t1 & t2 & t3 & t4 & -> & Hid) & Htid & _).
  exec_vis H2 now tr3.
  apply exec_bind in H2. destruct H2 as (trw & tr4 & ok & -> & Hw & H2).
  apply exec_batch_transaction_updates_refresh in Hw.
  destruct Hw as (pre & inv & bulk_reply & post & -> & Hinv & -> & Hpost).
  pose proof (inventory_loop_passive _ _ _ _ _ Hinv) as Pinv.
  apply exec_prepare_inventory_updates in Hinv. destruct Hinv as (_ & Cinv & _ & _).
  exists (snd built), now,
    ([Ev Uuid4 uuid; Ev Now t1; Ev Now t2; Ev Now t3; Ev Now t4; Ev Now now] ++ pre)%list,
    inv, bulk_reply, post.
  cbv zeta in Hpost |- *. rewrite Htid.
  destruct (bulk_verdict _ bulk_reply); simpl in H2; destruct H2 as [-> ->].
  - rewrite app_nil_r. split.
    { cbn [app]. rewrite <- ?app_assoc. reflexivity. }
    split. { apply Forall_app. split; [repeat (constructor; [exact I|]); constructor | exact Pinv]. }
    split; [exact Cinv|]. split; [exact Hpost|]. eexists. reflexivity.
  - rewrite app_nil_r. split.
    { cbn [app]. rewrite <- ?app_assoc. reflexivity. }
    split. { apply Forall_app. split; [repeat (constructor; [exact I|]); constructor | exact Pinv]. }
    split; [exact Cinv|]. split; [exact Hpost|]. reflexivity.
Qed.

(** [create_transaction] refreshes the three indices exactly when it
    reports success, once, as its last request and right after the
    single bulk write it sends; the answer to the refresh plays no part
    in the result, and a call that fails never refreshes. *)
Theorem refresh_follows_an_accepted_write customer_id items channel store_info payment_method
    tr r :
  exec (create_transaction customer_id items channel store_info payment_method) tr r ->
  List.filter is_refresh (requests_of tr)
    = (if fst (fst r) then [Refresh refreshed_indices] else []) /\
  (length (bulk_bodies tr) <= 1)%nat /\
  (fst (fst r) = true ->
   exists before lines reply refresh_reply,
     tr = (before ++ [Ev (PostBulk lines) reply;
                      Ev (Refresh refreshed_indices) refresh_reply])%list /\
     bulk_verdict (length lines) reply = true /\ Forall read_only before).
Proof.
  intros H. apply exec_create_transaction_writes in H.
  destruct H as (reply & tr' & -> & H).
  destruct (fetched reply) as [cust|].
  2:{ destruct H as [-> ->]. simpl. split; [reflexivity|]. split; [lia|]. discriminate. }
  cbv zeta in H.
  destruct H as (txn & now & pre & inv & bulk_reply & post & -> & P & _ & H).
  set (lines := (_ ++ inv)%list) in *. clearbody lines.
  change (Ev (GetDoc Customers customer_id) reply :: pre ++ Ev (PostBulk lines) bulk_reply :: post)%list
    with ((Ev (GetDoc Customers customer_id) reply :: pre)
            ++ Ev (PostBulk lines) bulk_reply :: post)%list.
  assert (R : Forall read_only (Ev (GetDoc Customers customer_id) reply :: pre)).
  { constructor; [exact I | apply passive_read_only; exact P]. }
  assert (N : List.filter is_refresh
                (requests_of (Ev (GetDoc Customers customer_id) reply :: pre)) = []).
  { unfold requests_of. cbn [map List.filter is_refresh].
    exact (passive_no_refresh _ P). }
  rewrite requests_of_app, List.filter_app, N, bulk_bodies_app, (read_only_no_bulk _ R).
  destruct (bulk_verdict (length lines) bulk_reply) eqn:V.
  - destruct H as ((rr & ->) & res & ->). simpl. split; [reflexivity|]. split; [lia|].
    intros _. exists (Ev (GetDoc Customers customer_id) reply :: pre), lines, bulk_reply, rr.
    auto.
  - destruct H as (-> & ->). simpl. split; [reflexivity|]. split; [lia|]. discriminate.
Qed.

Lemma refresh_follows_an_accepted_write_witness :
  fst (fst (fst (run (refresh_fails
                        (scripted (Some (sample_customer "BeeBuddy" 120 1800)) [] []
                                  (bulk_ok 0 2) 19000%Q)) 0
                   (create_transaction "mike001" [Item "Yumburger Solo" 450 1] "dine-in"
                      ∅ "cash")))) = true /\
  List.filter is_refresh
    (requests_of
       (snd (run (refresh_fails
                    (scripted (Some (sample_customer "BeeBuddy" 120 1800)) [] []
                              (bulk_ok 0 2) 19000%Q)) 0
               (create_transaction "mike001" [Item "Yumburger Solo" 450 1] "dine-in"
                  ∅ "cash"))))
  = [Refresh refreshed_indices].
Proof.
  split; [vm_compute; reflexivity|].
  exact (proj1 (refresh_follows_an_accepted_write "mike001" [Item "Yumburger Solo" 450 1]
                  "dine-in" ∅ "cash" _ _
                  (run_exec (refresh_fails
                               (scripted (Some (sample_customer "BeeBuddy" 120 1800)) [] []
                                         (bulk_ok 0 2) 19000%Q))
                            (create_transaction "mike001" [Item "Yumburger Solo" 450 1]
                               "dine-in" ∅ "cash") 0))).
Defined.

(** ** The routes *)

Lemma exec_redeem_points_verdict customer_id points_to_redeem redeemed_item tr r :
  exec (redeem_points customer_id points_to_redeem redeemed_item) tr r ->
  exists reply tr',
    tr = Ev (GetDoc Customers customer_id) reply :: tr' /\
    match fetched (i := Customers) reply with
    | None => tr' = [] /\ r = (false, "Customer not found", None)
    | Some cust =>
        if Z.ltb (total_points (loyalty cust)) points_to_redeem
        then tr' = [] /\ fst (fst r) = false /\ snd r = None
        else exists now put_reply stored,
               tr' = [Ev Now now; Ev (PutDoc Customers customer_id stored) put_reply] /\
               total_points (loyalty stored)
                 = total_points (loyalty cust) - points_to_redeem /\
               ledger stored = ledger cust /\
               purchase stored = purchase cust /\
               personal_name stored = personal_name cust /\
               r = if put_verdict put_reply
                   then (true,
                         "Successfully redeemed " ++ pretty points_to_redeem
                           ++ " points for " ++ redeemed_item,
                         Some (total_points (loyalty cust) - points_to_redeem))
                   else (false, "Failed to update customer points", None)
    end.
Proof.
  unfold redeem_points, get_customer. intros H.
  apply exec_bind in H. destruct H as (tr1 & tr' & found & -> & H1 & H).
  apply exec_get_document in H1. destruct H1 as (reply & -> & ->).
  exists reply, tr'. split; [reflexivity|].
  destruct (fetched reply) as [cust|].
  2:{ simpl in H. destruct H as [-> ->]. auto. }
  cbv zeta in H.
  destruct (Z.ltb (total_points (loyalty cust)) points_to_redeem).
  { simpl in H. destruct H as [-> ->]. auto. }
  apply exec_bind in H. destruct H as (tr2 & tr3 & now & -> & H2 & H).
  apply exec_call in H2. subst tr2.
  apply exec_bind in H. destruct H as (tr4 & tr5 & ok & -> & H4 & H).
  apply exec_update_document in H4. destruct H4 as (put_reply & -> & ->).
  fold (put_verdict put_reply) in H.
  exists now, put_reply. eexists.
  destruct (put_verdict put_reply); simpl in H; destruct H as [-> ->];
    (split; [reflexivity|]);
    unfold ledger;
    cbn [loyalty purchase personal_name total_points points_redeemed_ytd points_earned_ytd];
    (split; [reflexivity|]); (split; [lia|]); auto.
Qed.

(** As long as nothing raises (a well-formed body and customer
    document), the redemption route answers 200 or 400, and 200 exactly
    when the customer document was written and the write acknowledged;
    the body then reports the balance of the document that was written,
    which is not negative. Every other outcome, an unknown customer and
    a refused write included, is a 400. *)
Theorem redeem_route_status (customer : string) (data : app.redeem_body) tr out :
  exec (app.redeem_points customer data) tr out ->
  (snd out = 200 \/ snd out = 400) /\
  (snd out = 200 <-> In true (put_verdicts tr)) /\
  (snd out = 200 ->
   exists message balance stored reply,
     fst out = app.ApiRedeemed message (Some balance)
                 (default "" (app.body_item_name data)) /\
     0 <= balance /\
     In (Ev (PutDoc Customers customer stored) reply) tr /\
     total_points (loyalty stored) = balance).
Proof.
  unfold app.redeem_points. intros H.
  destruct (Z.leb (default 0 (app.points data)) 0) eqn:V.
  { simpl in H. destruct H as [-> ->]. simpl.
    split; [auto|]. split; [split; [discriminate | intros []] | discriminate]. }
  apply exec_bind in H. destruct H as (tr1 & tr2 & r & -> & H1 & H2).
  apply exec_redeem_points_verdict in H1. destruct H1 as (reply & tr' & -> & H1).
  destruct (fetched reply) as [cust|].
  2:{ destruct H1 as [-> ->]. simpl in H2. destruct H2 as [-> ->]. simpl.
      split; [auto|]. split; [split; [discriminate | intros []] | discriminate]. }
  destruct (Z.ltb (total_points (loyalty cust)) (default 0 (app.points data))) eqn:L.
  { destruct H1 as (-> & F & _). rewrite F in H2. simpl in H2. destruct H2 as [-> ->]. simpl.
    split; [auto|]. split; [split; [discriminate | intros []] | discriminate]. }
  destruct H1 as (now & put_reply & stored & -> & Hp & _ & _ & _ & ->).
  apply Z.ltb_ge in L. apply Z.leb_gt in V.
  destruct (put_verdict put_reply) eqn:P; simpl in H2; destruct H2 as [-> ->]; simpl;
    rewrite P.
  - split; [auto|]. split; [split; auto|]. intros _.
    eexists _, _, stored, put_reply. split; [reflexivity|]. split; [lia|]. auto.
  - split; [auto|]. split; [|discriminate].
    split; [discriminate|]. intros [E|[]]. discriminate E.
Qed.

Lemma redeem_route_status_witness :
  snd (fst (run (scripted (Some (sample_customer "BeeBuddy" 50 0)) [] [] BulkRaised 19000%Q) 0
              (app.redeem_points "mike001"
                 (app.RedeemBody (Some 30) (Some "Peach Mango Pie"))))) = 200.
Proof.
  apply (proj1 (proj2 (redeem_route_status "mike001"
                         (app.RedeemBody (Some 30) (Some "Peach Mango Pie")) _ _
                         (run_exec (scripted (Some (sample_customer "BeeBuddy" 50 0)) [] []
                                             BulkRaised 19000%Q)
                                   (app.redeem_points "mike001"
                                      (app.RedeemBody (Some 30) (Some "Peach Mango Pie")))
                                   0)))).
  vm_compute. auto.
Defined.

Lemma bulk_verdicts_app (tr1 tr2 : list event) :
  bulk_verdicts (tr1 ++ tr2) = (bulk_verdicts tr1 ++ bulk_verdicts tr2)%list.
Proof. unfold bulk_verdicts. apply flat_map_app. Qed.

Lemma read_only_no_verdict (tr : list event) : Forall read_only tr -> bulk_verdicts tr = [].
Proof.
  induction 1 as [|e tr He _ IH]; [reflexivity|].
  unfold bulk_verdicts in *. cbn [flat_map]. rewrite IH.
  destruct e as [[] x]; simpl in *; try reflexivity; contradiction.
Qed.

(** The transaction route answers 400, 500 or 200: 400 exactly when it
    stops at validation, before any request; 200 exactly when the one
    bulk write of the transaction was accepted, and the body then
    carries the transaction summary; every failure behind validation, an
    unknown customer included, is a 500 (as is an exception, which the
    model leaves out). *)
Theorem transaction_route_status (data : app.transaction_body) tr out :
  exec (app.create_transaction data) tr out ->
  (snd out = 200 \/ snd out = 400 \/ snd out = 500) /\
  (snd out = 400 <-> tr = []) /\
  (snd out = 200 <-> bulk_verdicts tr = [true]) /\
  (snd out = 200 -> exists message result, fst out = app.ApiTransaction message (Some result)).
Proof.
  unfold app.create_transaction. intros H.
  assert (Invalid : tr = [] /\ out = (app.ApiError "Missing required fields", 400) ->
          (snd out = 200 \/ snd out = 400 \/ snd out = 500) /\
          (snd out = 400 <-> tr = []) /\
          (snd out = 200 <-> bulk_verdicts tr = [true]) /\
          (snd out = 200 ->
           exists message result, fst out = app.ApiTransaction message (Some result))).
  { intros [-> ->]. simpl. split; [auto|]. split; [tauto|].
    split; [split; discriminate | discriminate]. }
  destruct (app.customer_id data) as [[|a customer]|]; [exact (Invalid H) | | exact (Invalid H)].
  destruct (default [] (app.items data)) as [|it rest]; [exact (Invalid H)|]. clear Invalid.
  apply exec_bind in H. destruct H as (tr1 & tr2 & r & -> & H1 & H2).
  apply exec_create_transaction_writes in H1. destruct H1 as (reply & tr' & -> & H1).
  destruct (fetched reply) as [cust|].
  2:{ destruct H1 as [-> ->]. simpl in H2. destruct H2 as [-> ->]. simpl.
      split; [auto|]. split; [split; discriminate|].
      split; [split; discriminate | discriminate]. }
  cbv zeta in H1.
  destruct H1 as (txn & now & pre & inv & bulk_reply & post & -> & P & _ & H1).
  set (lines := (_ ++ inv)%list) in *. clearbody lines.
  assert (B : bulk_verdicts
                ((Ev (GetDoc Customers (String a customer)) reply
                    :: pre ++ Ev (PostBulk lines) bulk_reply :: post) ++ tr2)%list
              = ([bulk_verdict (length lines) bulk_reply]
                   ++ bulk_verdicts post ++ bulk_verdicts tr2)%list).
  { change (Ev (GetDoc Customers (String a customer)) reply
              :: pre ++ Ev (PostBulk lines) bulk_reply :: post)%list
      with ((Ev (GetDoc Customers (String a customer)) reply :: pre)
              ++ [Ev (PostBulk lines) bulk_reply] ++ post)%list.
    rewrite !bulk_verdicts_app.
    rewrite (read_only_no_verdict (_ :: pre));
      [reflexivity | constructor; [exact I | apply passive_read_only; exact P]]. }
  rewrite B. clear B.
  destruct (bulk_verdict (length lines) bulk_reply).
  - destruct H1 as ((rr & ->) & res & ->). simpl in H2. destruct H2 as [-> ->]. simpl.
    split; [auto|]. split; [split; discriminate|]. split; [tauto|]. eauto.
  - destruct H1 as (-> & ->). simpl in H2. destruct H2 as [-> ->]. simpl.
    split; [auto|]. split; [split; discriminate|].
    split; [split; discriminate | discriminate].
Qed.

Lemma transaction_route_status_witness :
  snd (fst (run (scripted (Some (sample_customer "BeeBuddy" 120 1800)) [] [] BulkRaised 19000%Q)
              0
              (app.create_transaction
                 (app.TransactionBody (Some "mike001") (Some [Item "Yumburger Solo" 450 1])
                    None None None)))) <> 200.
Proof.
  intros E.
  apply (proj1 (proj2 (proj2 (transaction_route_status
                         (app.TransactionBody (Some "mike001")
                            (Some [Item "Yumburger Solo" 450 1]) None None None) _ _
                         (run_exec (scripted (Some (sample_customer "BeeBuddy" 120 1800)) [] []
                                             BulkRaised 19000%Q)
                                   (app.create_transaction
                                      (app.TransactionBody (Some "mike001")
                                         (Some [Item "Yumburger Solo" 450 1]) None None None))
                                   0))))) in E.
  vm_compute in E. discriminate E.
Defined.

(** A customer the store does not return ends both routes after that
    one read, with the error "Customer not found": nothing is written,
    the redemption route answers 400 and the transaction route 500. *)
Theorem unknown_customer_stops_after_the_read :
  (forall customer (data : app.redeem_body) tr out reply tr',
     exec (app.redeem_points customer data) tr out ->
     tr = Ev (GetDoc Customers customer) reply :: tr' ->
     fetched (i := Customers) reply = None ->
     tr' = [] /\ out = (app.ApiError "Customer not found", 400)) /\
  (forall (data : app.transaction_body) tr out customer reply tr',
     exec (app.create_transaction data) tr out ->
     tr = Ev (GetDoc Customers customer) reply :: tr' ->
     fetched (i := Customers) reply = None ->
     tr' = [] /\ out = (app.ApiError "Customer not found", 500)).
Proof.
  split.
  - intros customer data tr out reply tr' H E F. unfold app.redeem_points in H.
    destruct (Z.leb (default 0 (app.points data)) 0).
    { simpl in H. destruct H as [-> _]. discriminate E. }
    apply exec_bind in H. destruct H as (tr1 & tr2 & r & -> & H1 & H2).
    apply exec_redeem_points_verdict in H1. destruct H1 as (reply' & tr1' & -> & H1).
    apply (f_equal (fun l => match l with
                             | e :: _ => get_reply_of e
                             | [] => None
                             end)) in E as E1.
    simpl in E1. injection E1 as ->.
    rewrite F in H1. destruct H1 as [-> ->].
    simpl in H2. destruct H2 as [-> ->]. simpl in E. injection E as <-. auto.
  - intros data tr out customer reply tr' H E F. unfold app.create_transaction in H.
    assert (Invalid : tr = [] /\ out = (app.ApiError "Missing required fields", 400) -> False).
    { intros [-> _]. discriminate E. }
    destruct (app.customer_id data) as [[|a c]|];
      [destruct (Invalid H) | | destruct (Invalid H)].
    destruct (default [] (app.items data)) as [|it rest]; [destruct (Invalid H)|].
    clear Invalid.
    apply exec_bind in H. destruct H as (tr1 & tr2 & r & -> & H1 & H2).
    apply exec_create_transaction_writes in H1. destruct H1 as (reply' & tr1' & -> & H1).
    apply (f_equal (fun l => match l with
                             | e :: _ => get_reply_of e
                             | [] => None
                             end)) in E as E1.
    simpl in E1. injection E1 as ->.
    rewrite F in H1. destruct H1 as [-> ->].
    simpl in H2. destruct H2 as [-> ->]. simpl in E. injection E as <-. auto.
Qed.

Lemma unknown_customer_stops_after_the_read_witness :
  fst (run (scripted None [] [] (bulk_ok 0 2) 19000%Q) 0
         (app.create_transaction
            (app.TransactionBody (Some "nobody") (Some [Item "Yumburger Solo" 450 1])
               None None None)))
  = (app.ApiError "Customer not found", 500).
Proof.
  refine (proj2 (proj2 unknown_customer_stops_after_the_read
                   (app.TransactionBody (Some "nobody") (Some [Item "Yumburger Solo" 450 1])
                      None None None) _ _ "nobody" None []
                   (run_exec (scripted None [] [] (bulk_ok 0 2) 19000%Q)
                      (app.create_transaction
                         (app.TransactionBody (Some "nobody")
                            (Some [Item "Yumburger Solo" 450 1]) None None None)) 0)
                   _ _)); reflexivity.
Defined.

(** ** What no operation does to the customers index *)

Lemma follows_refl (c : customer) : follows c c.
Proof. unfold follows. repeat split; lia. Qed.

Lemma follows_trans (c1 c2 c3 : customer) : follows c1 c2 -> follows c2 c3 -> follows c1 c3.
Proof. unfold follows. intros (N1 & L1 & O1) (N2 & L2 & O2). repeat split; try congruence; lia. Qed.

Lemma follows_earn (c : customer) (total : Q) (points_earned : Z) (now : datetime) :
  follows c (earn c total points_earned now).
Proof. unfold follows, ledger, earn. simpl. repeat split; lia. Qed.

Lemma follows_apply_orders (reqs : list transaction_request) : forall c0 c,
  follows c0 c -> follows c0 (fold_left apply_order reqs c).
Proof.
  induction reqs as [|req rest IH]; intros c0 c F; [exact F|].
  cbn [fold_left]. apply IH. eapply follows_trans; [exact F|]. apply follows_earn.
Qed.

Lemma follows_same_account (c0 c c' : customer) :
  same_account c c' -> follows c0 c' -> follows c0 c.
Proof.
  unfold same_account, follows, ledger.
  intros (Hn & _ & Hp & He & Hr & _ & Hb & _) (N & L & O).
  rewrite Hn, Hp, He, Hr, Hb. auto.
Qed.

Lemma evolved_refl (m : gmap string customer) : evolved m m.
Proof. intros id. left. reflexivity. Qed.

Lemma evolved_trans (m1 m2 m3 : gmap string customer) :
  evolved m1 m2 -> evolved m2 m3 -> evolved m1 m3.
Proof.
  intros E1 E2 id.
  destruct (E1 id) as [A|(a0 & a & A0 & A & FA)]; destruct (E2 id) as [B|(b0 & b & B0 & B & FB)].
  - left. congruence.
  - right. exists b0, b. split; [congruence|]. auto.
  - right. exists a0, a. split; [exact A0|]. split; [congruence | exact FA].
  - right. exists a0, b. split; [exact A0|]. split; [exact B|].
    assert (a = b0) by congruence. subst b0. eapply follows_trans; eauto.
Qed.

Lemma evolved_insert (m : gmap string customer) (id : string) (c0 c : customer) :
  m !! id = Some c0 -> follows c0 c -> evolved m (<[id := c]> m).
Proof.
  intros L F id'. destruct (decide (id = id')) as [<-|Hne].
  - right. exists c0, c. rewrite lookup_insert_eq. auto.
  - left. apply lookup_insert_ne. exact Hne.
Qed.

Lemma evolved_bulk (m m' : gmap string customer) lines reply :
  (forall id c, In (id, c) (customer_writes lines) ->
                exists c0, m !! id = Some c0 /\ follows c0 c) ->
  store_step m (Ev (PostBulk lines) reply) m' -> evolved m m'.
Proof.
  intros W S id. simpl in S. destruct (S id) as [E|(c & Hin & E)]; [left; exact E|].
  right. destruct (W id c Hin) as (c0 & L & F). exists c0, c. auto.
Qed.

Lemma writes_from_no_customers (lines : list bulk_line) (pending : option (string * string)) :
  customer_docs lines = [] -> writes_from pending lines = [].
Proof.
  intros C. destruct (writes_from pending lines) as [|[id c] rest] eqn:E; [reflexivity|].
  assert (Hin : In (id, c) (writes_from pending lines)) by (rewrite E; left; reflexivity).
  apply writes_from_docs in Hin. rewrite C in Hin. destruct Hin.
Qed.

Lemma writes_from_transaction_lines (txns : list (string * transaction)) (rest : list bulk_line) :
  writes_from None (transaction_lines txns ++ rest) = writes_from None rest.
Proof.
  unfold transaction_lines.
  induction txns as [|[id t] more IH]; [reflexivity|].
  cbn [flat_map app writes_from]. exact IH.
Qed.

Lemma writes_from_customer_lines (custs : list (string * customer)) (rest : list bulk_line) :
  writes_from None (customer_lines custs ++ rest) = (custs ++ writes_from None rest)%list.
Proof.
  unfold customer_lines.
  induction custs as [|[id c] more IH]; [reflexivity|].
  cbn [flat_map app writes_from]. rewrite String.eqb_refl, IH. reflexivity.
Qed.

Lemma redeem_evolves customer_id points_to_redeem redeemed_item tr r m m' :
  exec (redeem_points customer_id points_to_redeem redeemed_item) tr r ->
  store_trace m tr m' -> evolved m m'.
Proof.
  intros E T. apply exec_redeem_points_verdict in E. destruct E as (reply & tr' & -> & E).
  destruct T as (m1 & S & T). simpl in S. destruct S as [-> Hread].
  destruct (fetched reply) as [cust|].
  2:{ destruct E as [-> _]. simpl in T. subst m'. apply evolved_refl. }
  destruct (Z.ltb (total_points (loyalty cust)) points_to_redeem).
  { destruct E as [-> _]. simpl in T. subst m'. apply evolved_refl. }
  destruct E as (now & put_reply & stored & -> & _ & Hl & Hb & Hn & _).
  destruct T as (m2 & S2 & m3 & S3 & ->). simpl in S2. subst m2.
  assert (Hs : evolved m (<[customer_id := stored]> m)).
  { apply (evolved_insert m customer_id cust); [exact (Hread cust eq_refl)|].
    unfold follows. rewrite Hn, Hl, Hb. repeat split; lia. }
  simpl in S3. destruct put_reply as [resp|].
  - destruct (Z.eqb (status_code resp) 200 || Z.eqb (status_code resp) 201); subst m3;
      [exact Hs | apply evolved_refl].
  - destruct S3 as [->| ->]; [apply evolved_refl | exact Hs].
Qed.

Lemma order_evolves customer_id items channel store_info payment_method tr r m m' :
  exec (create_transaction customer_id items channel store_info payment_method) tr r ->
  store_trace m tr m' -> evolved m m'.
Proof.
  intros E T. apply exec_create_transaction_writes in E. destruct E as (reply & tr' & -> & E).
  destruct T as (m1 & S & T). simpl in S. destruct S as [-> Hread].
  destruct (fetched reply) as [cust|].
  2:{ destruct E as [-> _]. simpl in T. subst m'. apply evolved_refl. }
  cbv zeta in E.
  destruct E as (txn & now & pre & inv & bulk_reply & post & -> & P & C & E).
  apply store_trace_app in T. destruct T as (m1 & T1 & m2 & S2 & T3).
  apply (store_trace_read_only _ _ _ (passive_read_only _ P)) in T1. subst m1.
  assert (Rpost : Forall read_only post).
  { destruct (bulk_verdict _ bulk_reply).
    - destruct E as ((rr & ->) & _). constructor; [exact I | constructor].
    - destruct E as (-> & _). constructor. }
  apply (store_trace_read_only _ _ _ Rpost) in T3. subst m'.
  eapply evolved_bulk; [|exact S2].
  unfold customer_writes. cbn [app writes_from]. rewrite String.eqb_refl.
  rewrite (writes_from_no_customers inv None C).
  intros id c [[= <- <-]|[]]. exists cust. split; [exact (Hread cust eq_refl)|].
  apply follows_earn.
Qed.

Lemma bulk_evolves (reqs : list transaction_request) tr r m m' :
  exec (create_bulk_transactions reqs) tr r -> store_trace m tr m' -> evolved m m'.
Proof.
  intros E T. destruct reqs as [|req0 rest].
  { simpl in E. destruct E as [-> _]. simpl in T. subst m'. apply evolved_refl. }
  apply exec_create_bulk_transactions in E; [|discriminate].
  destruct E as (start & search_reply & loop_tr & st & bulk_reply & post
                 & -> & Rloop & Rpost & Steps & _).
  cbv zeta in Steps. cbn [app] in T.
  destruct T as (m1 & S1 & m2 & S2 & T). simpl in S1. subst m1.
  simpl in S2. destruct S2 as [-> Hhits].
  apply store_trace_app in T. destruct T as (m1 & T1 & m2 & S3 & T3).
  apply (store_trace_read_only _ _ _ Rloop) in T1. subst m1.
  apply (store_trace_read_only _ _ _ Rpost) in T3. subst m'.
  eapply evolved_bulk; [|exact S3].
  destruct (process_steps_totals _ _ _ Steps) as (_ & _ & Cinv & _).
  destruct (process_steps_customers _ _ _ Steps) as (Nd & Al & _);
    [constructor | intros id c G; discriminate G |].
  cbn [all_inventory_updates customer_docs flat_map] in Cinv.
  unfold customer_writes.
  rewrite writes_from_transaction_lines, writes_from_customer_lines.
  rewrite (writes_from_no_customers _ None Cinv), app_nil_r.
  intros id c Hin. pose proof (Al id c (dict_get_In _ _ _ Nd Hin)) as L.
  match type of Steps with process_steps ?st0 _ _ => set (init := st0) in * end.
  assert (S : is_Some (customers_data init !! id)).
  { apply (process_steps_domain _ _ _ Steps id). rewrite L. eauto. }
  destruct S as [c0 Hc0].
  destruct (process_steps_accounts _ _ _ id c0 c0 Steps Hc0 (same_account_refl c0))
    as (c' & L' & A').
  rewrite L in L'. injection L' as <-.
  exists c0. split.
  - subst init. cbn [customers_data] in Hc0.
    apply fetched_batch_lookup in Hc0. destruct Hc0 as [Hc0|(h & Hh & <- & <-)].
    + rewrite lookup_empty in Hc0. discriminate Hc0.
    + exact (Hhits h Hh).
  - eapply follows_same_account; [exact A'|].
    apply follows_apply_orders. apply follows_refl.
Qed.

Lemma operation_evolves (op : operation) tr m m' :
  operation_trace op tr -> store_trace m tr m' -> evolved m m'.
Proof.
  destruct op as [customer_id items channel store_info payment_method
                 | reqs | customer_id points_to_redeem redeemed_item];
    simpl; intros [r E] T.
  - exact (order_evolves _ _ _ _ _ _ _ _ _ E T).
  - exact (bulk_evolves _ _ _ _ _ E T).
  - exact (redeem_evolves _ _ _ _ _ _ _ E T).
Qed.

Lemma history_evolves (ops : list operation) : forall m m',
  history ops m m' -> evolved m m'.
Proof.
  induction ops as [|op rest IH]; intros m m' H.
  - simpl in H. subst m'. apply evolved_refl.
  - destruct H as (tr & m1 & O & T & H).
    eapply evolved_trans; [eapply operation_evolves; eauto | apply IH; exact H].
Qed.

(** A redemption of 30 points by a customer with 50, as a history. *)
Lemma sample_redeem_history :
  history [Redeem "mike001" 30 "Peach Mango Pie"]
    ({["mike001" := sample_customer "BeeBuddy" 50 0]} : gmap string customer)
    (<["mike001" :=
         {| personal_name := "Mike";
            loyalty := {| tier := "BeeBuddy"; total_points := 20; points_earned_ytd := 50;
                          points_redeemed_ytd := 30; annual_spending := 0%Q;
                          last_activity := 19000%Q |};
            purchase := {| total_orders := 3 |};
            ml := None |}]>
       ({["mike001" := sample_customer "BeeBuddy" 50 0]} : gmap string customer)).
Proof.
  cbn [history].
  exists (snd (run (scripted (Some (sample_customer "BeeBuddy" 50 0)) [] [] BulkRaised 19000%Q)
                 0 (redeem_points "mike001" 30 "Peach Mango Pie"))).
  eexists. split; [eexists; apply run_exec|]. split; [|reflexivity].
  compute_trace. cbn [store_trace].
  eexists. split.
  { simpl. split; [reflexivity|]. intros c [= <-]. apply lookup_singleton_eq. }
  eexists. split; [simpl; reflexivity|].
  eexists. split; [simpl; reflexivity|]. reflexivity.
Qed.

(** A dine-in order of 450 by a customer with 120 points, as a history. *)
Lemma sample_order_history :
  history [Order "mike001" [Item "Yumburger Solo" 450 1] "dine-in" ∅ "cash"]
    ({["mike001" := sample_customer "BeeBuddy" 120 1800]} : gmap string customer)
    ({["mike001" := earn (sample_customer "BeeBuddy" 120 1800)
                         (order_total [Item "Yumburger Solo" 450 1]) 40 19000%Q]}
       : gmap string customer).
Proof.
  cbn [history].
  exists (snd (run (scripted (Some (sample_customer "BeeBuddy" 120 1800)) [] [] (bulk_ok 0 2)
                      19000%Q)
                 0 (create_transaction "mike001" [Item "Yumburger Solo" 450 1] "dine-in" ∅
                      "cash"))).
  eexists. split; [eexists; apply run_exec|]. split; [|reflexivity].
  compute_trace. cbn [store_trace].
  eexists. split.
  { simpl. split; [reflexivity|]. intros c [= <-]. apply lookup_singleton_eq. }
  do 7 (eexists; split; [simpl; reflexivity|]).
  eexists. split; [|eexists; split; [simpl; reflexivity | reflexivity]].
  intros id. destruct (decide (id = "mike001")) as [->|Hne].
  - right. eexists. split; [left; reflexivity|]. apply lookup_singleton_eq.
  - left. rewrite !lookup_singleton_ne by congruence. reflexivity.
Qed.

(** No sequence of orders, bulk simulations and redemptions creates or
    deletes a customer document: the index holds a document under
    exactly the ids it held before. *)
Theorem accounts_are_never_created_or_deleted (ops : list operation)
    (m m' : gmap string customer) :
  history ops m m' -> forall id, is_Some (m' !! id) <-> is_Some (m !! id).
Proof.
  intros H id. destruct (history_evolves _ _ _ H id) as [E|(c0 & c & L0 & L & _)].
  - rewrite E. reflexivity.
  - rewrite L0, L. split; eauto.
Qed.

Lemma accounts_are_never_created_or_deleted_witness :
  (<["mike001" :=
       {| personal_name := "Mike";
          loyalty := {| tier := "BeeBuddy"; total_points := 20; points_earned_ytd := 50;
                        points_redeemed_ytd := 30; annual_spending := 0%Q;
                        last_activity := 19000%Q |};
          purchase := {| total_orders := 3 |};
          ml := None |}]>
     ({["mike001" := sample_customer "BeeBuddy" 50 0]} : gmap string customer))
    !! "ana002" = None.
Proof.
  apply eq_None_not_Some. intros S.
  destruct (proj1 (accounts_are_never_created_or_deleted _ _ _ sample_redeem_history
                     "ana002") S) as [c Hc]. apply lookup_singleton_Some in Hc. destruct Hc as [Hc _].
  discriminate Hc.
Defined.

(** Across any sequence of orders, bulk simulations and redemptions a
    customer keeps their name and their ledger: the balance less the
    points earned this year plus the points redeemed this year stays
    what it was, whatever the orders were and whether or not the
    requests succeeded. *)
Theorem ledger_is_conserved (ops : list operation) (m m' : gmap string customer)
    (id : string) (c0 c : customer) :
  history ops m m' -> m !! id = Some c0 -> m' !! id = Some c ->
  ledger c = ledger c0 /\ personal_name c = personal_name c0.
Proof.
  intros H L0 L. destruct (history_evolves _ _ _ H id) as [E|(a0 & a & A0 & A & N & F & _)].
  - assert (c = c0) by congruence. subst c. auto.
  - assert (a0 = c0) by congruence. assert (a = c) by congruence. subst. auto.
Qed.

Lemma ledger_is_conserved_witness :
  ledger (earn (sample_customer "BeeBuddy" 120 1800)
               (order_total [Item "Yumburger Solo" 450 1]) 40 19000%Q)
  = ledger (sample_customer "BeeBuddy" 120 1800).
Proof.
  exact (proj1 (ledger_is_conserved _ _ _ "mike001" _ _ sample_order_history
                  (lookup_singleton_eq _ _) (lookup_singleton_eq _ _))).
Defined.

(** The order count of a customer never goes down, whatever sequence of
    orders, bulk simulations and redemptions runs. *)
Theorem order_count_never_decreases (ops : list operation) (m m' : gmap string customer)
    (id : string) (c0 c : customer) :
  history ops m m' -> m !! id = Some c0 -> m' !! id = Some c ->
  total_orders (purchase c0) <= total_orders (purchase c).
Proof.
  intros H L0 L. destruct (history_evolves _ _ _ H id) as [E|(a0 & a & A0 & A & _ & _ & F)].
  - assert (c = c0) by congruence. subst c. lia.
  - assert (a0 = c0) by congruence. assert (a = c) by congruence. subst. exact F.
Qed.

Lemma order_count_never_decreases_witness :
  total_orders (purchase (sample_customer "BeeBuddy" 120 1800))
  <= total_orders (purchase (earn (sample_customer "BeeBuddy" 120 1800)
                                  (order_total [Item "Yumburger Solo" 450 1]) 40 19000%Q)).
Proof.
  exact (order_count_never_decreases _ _ _ "mike001" _ _ sample_order_history
           (lookup_singleton_eq _ _) (lookup_singleton_eq _ _)).
Defined.

(** ** The bulk simulation, request by request *)

Lemma process_steps_order (reqs : list transaction_request) :
  forall st st',
    process_steps st reqs st' ->
    exists new,
      all_transactions st' = (all_transactions st ++ new)%list /\
      map (fun p => txn_customer_id (snd p)) new
        = map req_customer_id (served (customers_data st) reqs) /\
      map (fun p => order_total_of (snd p)) new
        = map (fun req => order_total (req_items req)) (served (customers_data st) reqs) /\
      Forall (fun p => fst p = transaction_id (snd p)) new.
Proof.
  induction reqs as [|req rest IH]; intros st st' H.
  - simpl in H. subst st'. exists []. rewrite app_nil_r. repeat split; constructor.
  - destruct H as (st1 & S1 & S2).
    destruct (IH _ _ S2) as (new & A & C & T & K).
    rewrite (served_ext _ _ rest (process_step_domain _ _ _ S1)) in C, T.
    rewrite served_cons. unfold process_step in S1.
    destruct (customers_data st !! req_customer_id req) as [cust|] eqn:E.
    + cbv zeta in S1. destruct S1 as (txn & now & inv & Hc & Ht & _ & _ & _ & ->).
      rewrite bool_decide_eq_true_2 by eauto.
      cbn [all_transactions] in A. exists ((transaction_id txn, txn) :: new).
      rewrite A, <- app_assoc. cbn [map app fst snd]. rewrite C, T, Hc, Ht.
      repeat split; auto.
    + subst st1. rewrite bool_decide_eq_false_2 by (intros [x Hx]; discriminate Hx).
      exists new. auto.
Qed.

Lemma process_steps_none (reqs : list transaction_request) :
  forall st st',
    process_steps st reqs st' -> served (customers_data st) reqs = [] -> st' = st.
Proof.
  induction reqs as [|req rest IH]; intros st st' H N.
  - exact H.
  - destruct H as (st1 & S1 & S2). rewrite served_cons in N.
    unfold process_step in S1.
    destruct (customers_data st !! req_customer_id req) as [cust|] eqn:E.
    + rewrite bool_decide_eq_true_2 in N by eauto. discriminate N.
    + subst st1. rewrite bool_decide_eq_false_2 in N by (intros [x Hx]; discriminate Hx).
      exact (IH _ _ S2 N).
Qed.

Lemma served_empty (reqs : list transaction_request) : served ∅ reqs = [].
Proof.
  induction reqs as [|req rest IH]; [reflexivity|].
  rewrite served_cons, IH, bool_decide_eq_false_2; [reflexivity|].
  rewrite lookup_empty. intros [x Hx]. discriminate Hx.
Qed.

Lemma request_loop_passive (reqs : list transaction_request) :
  forall st tr st', exec (for_each reqs st process_request) tr st' -> Forall passive tr.
Proof.
  induction reqs as [|req rest IH]; intros st tr st' H.
  - simpl in H. destruct H as [-> _]. constructor.
  - cbn [for_each] in H. apply exec_bind in H.
    destruct H as (tr1 & tr2 & st1 & -> & H1 & H2).
    apply Forall_app. split; [|exact (IH _ _ _ H2)]. clear H2 IH.
    unfold process_request in H1.
    destruct (customers_data st !! req_customer_id req) as [cust|].
    2:{ simpl in H1. destruct H1 as [-> _]. constructor. }
    cbv zeta in H1.
    apply exec_bind in H1. destruct H1 as (trb & tr3 & built & -> & Hb & H).
    apply exec_build_transaction in Hb.
    destruct Hb as ((uuid & t1 & t2 & t3 & t4 & -> & _) & _).
    exec_vis H now tr4.
    apply exec_bind in H. destruct H as (tri & tr5 & inv & -> & Hi & H).
    apply inventory_loop_passive in Hi.
    simpl in H. destruct H as [-> _].
    repeat (constructor; [exact I|]). rewrite app_nil_r. exact Hi.
Qed.

(** Every execution of [create_bulk_transactions] on a non-empty
    array, in full. *)
Lemma exec_create_bulk_transactions_tail (reqs : list transaction_request) tr r :
  reqs <> [] ->
  exec (create_bulk_transactions reqs) tr r ->
  exists start search_reply loop_tr st bulk_reply post,
    let ids := elements (list_to_set (C := gset string) (map req_customer_id reqs)) in
    let known := fold_left (fun customers h => <[_id h := _source h]> customers)
                           (hits_of (i := Customers) search_reply) ∅ in
    let lines := (transaction_lines (all_transactions st) ++ customer_lines (all_customers st)
                    ++ all_inventory_updates st)%list in
    tr = ([Ev Now start; Ev (Search Customers (TermsIds ids (length ids))) search_reply]
            ++ loop_tr ++ Ev (PostBulk lines) bulk_reply :: post)%list /\
    Forall passive loop_tr /\
    process_steps {| all_transactions := []; all_customers := []; all_inventory_updates := [];
                     revenue := 0%Q; customers_data := known |} reqs st /\
    if bulk_verdict (length lines) bulk_reply
    then exists refresh_reply finish,
           post = [Ev (Refresh refreshed_indices) refresh_reply; Ev Now finish] /\
           r = BulkSuccess (length (all_transactions st)) (revenue st)
                           (total_seconds (finish - start))
    else post = [] /\ r = BulkFailure "Bulk update failed".
Proof.
  intros Hne H. unfold create_bulk_transactions in H.
  destruct reqs as [|req0 rest]; [contradiction|].
  set (reqs := req0 :: rest) in *. clearbody reqs. clear Hne req0 rest.
  apply exec_bind in H. destruct H as (tr0 & tr0' & start & -> & H0 & H).
  apply exec_call in H0. subst tr0.
  apply exec_bind in H. destruct H as (tr1 & tr2 & known & -> & H1 & H).
  apply exec_fetch_customers_batch in H1. destruct H1 as (search_reply & -> & Hknown).
  apply exec_bind in H. destruct H as (tr3 & tr4 & st & -> & Hloop & H).
  pose proof (request_loop_passive _ _ _ _ Hloop) as Ploop.
  apply exec_request_loop in Hloop. destruct Hloop as [Steps _].
  apply exec_bind in H. destruct H as (tr5 & tr6 & ok & -> & Hbulk & H).
  apply exec_execute_bulk_update in Hbulk. destruct Hbulk as (bulk_reply & -> & ->).
  exists start, search_reply, tr3, st, bulk_reply, tr6. cbv zeta. rewrite <- Hknown.
  split; [reflexivity|]. split; [exact Ploop|]. split; [exact Steps|].
  destruct (bulk_verdict _ bulk_reply).
  - apply exec_bind in H. destruct H as (tr7 & tr8 & b & -> & H7 & H8).
    apply exec_refresh_index in H7. destruct H7 as (rr & ->).
    apply exec_bind in H8. destruct H8 as (tr9 & tr10 & fin & -> & H9 & H10).
    apply exec_call in H9. subst tr9. simpl in H10. destruct H10 as [-> ->].
    exists rr, fin. auto.
  - simpl in H. destruct H as [-> ->]. auto.
Qed.

(** The transaction records of a bulk simulation come in the order of
    the request array: the bulk body starts with one record per request
    whose customer was found, each filed under its own transaction id
    and carrying the customer id and the order total of its request;
    everything after them holds no transaction record. *)
Theorem bulk_transactions_follow_request_order (reqs : list transaction_request) tr r :
  reqs <> [] ->
  exec (create_bulk_transactions reqs) tr r ->
  exists search_reply txns rest,
    let ids := elements (list_to_set (C := gset string) (map req_customer_id reqs)) in
    let known := fold_left (fun customers h => <[_id h := _source h]> customers)
                           (hits_of (i := Customers) search_reply) ∅ in
    let done := served known reqs in
    In (Ev (Search Customers (TermsIds ids (length ids))) search_reply) tr /\
    bulk_bodies tr = [(transaction_lines txns ++ rest)%list] /\
    transaction_docs rest = [] /\
    map (fun p => txn_customer_id (snd p)) txns = map req_customer_id done /\
    map (fun p => order_total_of (snd p)) txns
      = map (fun req => order_total (req_items req)) done /\
    Forall (fun p => fst p = transaction_id (snd p)) txns.
Proof.
  intros Hne H.
  destruct (exec_create_bulk_transactions reqs tr r Hne H)
    as (start & search_reply & tr3 & st & bulk_reply & tr6 & Htr & Rloop & R6 & Steps & _).
  cbv zeta in Htr, Steps.
  destruct (process_steps_totals _ _ _ Steps) as (_ & _ & _ & Tinv).
  destruct (process_steps_order _ _ _ Steps) as (new & A & C & T & K).
  cbn [all_transactions all_inventory_updates customers_data transaction_docs flat_map app]
    in A, C, T, Tinv.
  exists search_reply, (all_transactions st),
    (customer_lines (all_customers st) ++ all_inventory_updates st)%list.
  cbv zeta. subst tr. rewrite A.
  split; [right; left; reflexivity|].
  split.
  { rewrite !bulk_bodies_app, (read_only_no_bulk tr3 Rloop), <- A.
    change (bulk_bodies (Ev (PostBulk (transaction_lines (all_transactions st)
                                         ++ customer_lines (all_customers st)
                                         ++ all_inventory_updates st)) bulk_reply :: tr6))
      with ((transaction_lines (all_transactions st) ++ customer_lines (all_customers st)
               ++ all_inventory_updates st)%list :: bulk_bodies tr6).
    rewrite (read_only_no_bulk tr6 R6). reflexivity. }
  split.
  { destruct (docs_app (customer_lines (all_customers st)) (all_inventory_updates st))
      as (_ & _ & ->).
    rewrite (proj2 (customer_lines_docs _)), Tinv. reflexivity. }
  auto.
Qed.

Lemma bulk_transactions_follow_request_order_witness :
  let reqs := [sample_request "mike001" 450; sample_request "nobody" 200;
               sample_request "mike001" 150] in
  let tr := snd (run (scripted None [Hit "mike001" (sample_customer "BeeBuddy" 120 1800)] []
                        (bulk_ok 0 3) 19000%Q) 0
                   (create_bulk_transactions reqs)) in
  exists search_reply txns rest,
    let known := fold_left (fun customers h => <[_id h := _source h]> customers)
                           (hits_of (i := Customers) search_reply) ∅ in
    In (Ev (Search Customers (TermsIds ["mike001"; "nobody"] 2)) search_reply) tr /\
    bulk_bodies tr = [(transaction_lines txns ++ rest)%list] /\
    map (fun p => txn_customer_id (snd p)) txns = map req_customer_id (served known reqs) /\
    map (fun p => order_total_of (snd p)) txns
      = map (fun req => order_total (req_items req)) (served known reqs).
Proof.
  cbv zeta.
  destruct (bulk_transactions_follow_request_order
              [sample_request "mike001" 450; sample_request "nobody" 200;
               sample_request "mike001" 150] _ _ ltac:(discriminate)
              (run_exec (scripted None [Hit "mike001" (sample_customer "BeeBuddy" 120 1800)] []
                           (bulk_ok 0 3) 19000%Q)
                 (create_bulk_transactions
                    [sample_request "mike001" 450; sample_request "nobody" 200;
                     sample_request "mike001" 150]) 0))
    as (search_reply & txns & rest & Hin & B & _ & C & T & _).
  exists search_reply, txns, rest.
  split; [exact Hin|]. split; [exact B|]. split; [exact C | exact T].
Defined.

(** A bulk simulation reports success exactly when its bulk write was
    accepted, and only then refreshes the indices: the refresh follows
    the write, one last clock reading follows the refresh, and the
    processing time reported is that reading less the one taken before
    anything else. A failed simulation never refreshes, and an empty
    request array fails without a single request. *)
Theorem bulk_simulation_refresh_and_timing (reqs : list transaction_request) tr r :
  exec (create_bulk_transactions reqs) tr r ->
  (reqs = [] -> tr = [] /\ r = BulkFailure "No transactions to process") /\
  match r with
  | BulkSuccess n total seconds =>
      exists start middle refresh_reply finish,
        tr = (Ev Now start :: middle
                ++ [Ev (Refresh refreshed_indices) refresh_reply; Ev Now finish])%list /\
        seconds = total_seconds (finish - start) /\
        List.filter is_refresh (requests_of middle) = [] /\
        bulk_verdicts middle = [true]
  | BulkFailure _ =>
      List.filter is_refresh (requests_of tr) = [] /\ ~ In true (bulk_verdicts tr)
  end.
Proof.
  intros H. destruct reqs as [|req0 rest].
  { simpl in H. destruct H as [-> ->]. split; [auto|]. simpl. split; [reflexivity | tauto]. }
  split; [discriminate|].
  apply exec_create_bulk_transactions_tail in H; [|discriminate].
  destruct H as (start & search_reply & loop_tr & st & bulk_reply & post
                 & -> & P & _ & H).
  cbv zeta in H |- *.
  set (ids := elements _) in *. clearbody ids.
  set (lines := (transaction_lines _ ++ _)%list) in *. clearbody lines.
  assert (Q : Forall passive (Ev (Search Customers (TermsIds ids (length ids))) search_reply
                                :: loop_tr)) by (constructor; [exact I | exact P]).
  destruct (bulk_verdict (length lines) bulk_reply) eqn:V.
  - destruct H as (rr & fin & -> & ->).
    exists start,
      ((Ev (Search Customers (TermsIds ids (length ids))) search_reply :: loop_tr)
         ++ [Ev (PostBulk lines) bulk_reply])%list, rr, fin.
    split. { cbn [app]. rewrite <- !app_assoc. reflexivity. }
    split; [reflexivity|].
    rewrite requests_of_app, List.filter_app, (passive_no_refresh _ Q).
    rewrite bulk_verdicts_app, (read_only_no_verdict _ (passive_read_only _ Q)).
    simpl. rewrite V. auto.
  - destruct H as (-> & ->).
    change ([Ev Now start; Ev (Search Customers (TermsIds ids (length ids))) search_reply]
              ++ loop_tr ++ [Ev (PostBulk lines) bulk_reply])%list
      with ((Ev Now start
               :: Ev (Search Customers (TermsIds ids (length ids))) search_reply :: loop_tr)
              ++ [Ev (PostBulk lines) bulk_reply])%list.
    assert (Q' : Forall passive
                   (Ev Now start
                      :: Ev (Search Customers (TermsIds ids (length ids))) search_reply
                      :: loop_tr)) by (constructor; [exact I | exact Q]).
    rewrite requests_of_app, List.filter_app, (passive_no_refresh _ Q').
    rewrite bulk_verdicts_app, (read_only_no_verdict _ (passive_read_only _ Q')).
    simpl. rewrite V. split; [reflexivity|]. intros [E|[]]. discriminate E.
Qed.

Lemma bulk_simulation_refresh_and_timing_witness :
  List.filter is_refresh
    (requests_of
       (snd (run (scripted None [Hit "mike001" (sample_customer "BeeBuddy" 120 1800)] []
                    BulkRaised 19000%Q) 0
               (create_bulk_transactions [sample_request "mike001" 450])))) = [].
Proof.
  pose proof (proj2 (bulk_simulation_refresh_and_timing [sample_request "mike001" 450] _ _
                       (run_exec (scripted None
                                    [Hit "mike001" (sample_customer "BeeBuddy" 120 1800)] []
                                    BulkRaised 19000%Q)
                          (create_bulk_transactions [sample_request "mike001" 450]) 0))) as H.
  exact (proj1 H).
Defined.

Lemma bulk_bodies_single (pre post : list event) lines reply :
  Forall read_only pre -> Forall read_only post ->
  bulk_bodies (pre ++ Ev (PostBulk lines) reply :: post) = [lines].
Proof.
  intros Rpre Rpost. rewrite bulk_bodies_app, (read_only_no_bulk pre Rpre).
  change (bulk_bodies (Ev (PostBulk lines) reply :: post)) with (lines :: bulk_bodies post).
  rewrite (read_only_no_bulk post Rpost). reflexivity.
Qed.

(** When the batch search returns no customer, a bulk simulation skips
    every request and still sends its bulk write, with an empty body;
    if that write is accepted it reports success with no transaction
    and no revenue. *)
Theorem bulk_simulation_without_known_customers (reqs : list transaction_request) tr r :
  reqs <> [] ->
  exec (create_bulk_transactions reqs) tr r ->
  customer_hits tr = [] ->
  bulk_bodies tr = [[]] /\
  forall n total seconds, r = BulkSuccess n total seconds -> n = 0%nat /\ total = 0%Q.
Proof.
  intros Hne H N.
  destruct (exec_create_bulk_transactions reqs tr r Hne H)
    as (start & search_reply & tr3 & st & bulk_reply & tr6 & Htr & Rloop & R6 & Steps & Hr).
  cbv zeta in Htr, Steps. subst tr.
  unfold customer_hits in N. cbn [app flat_map] in N.
  apply app_eq_nil in N. destruct N as [N _]. rewrite N in Steps. cbn [fold_left] in Steps.
  apply process_steps_none in Steps; [|apply served_empty]. subst st.
  cbn [all_transactions all_customers all_inventory_updates revenue transaction_lines
       customer_lines flat_map app] in *.
  split.
  - apply (bulk_bodies_single
             (Ev Now start :: Ev (Search Customers (TermsIds _ _)) search_reply :: tr3));
      [|exact R6].
    constructor; [exact I|]. constructor; [exact I | exact Rloop].
  - intros n total seconds E. destruct (Hr n total seconds E) as [-> ->]. auto.
Qed.

Lemma bulk_simulation_without_known_customers_witness :
  bulk_bodies
    (snd (run (scripted None [] [] (bulk_ok 0 0) 19000%Q) 0
            (create_bulk_transactions [sample_request "nobody" 450])))
  = [[]].
Proof.
  refine (proj1 (bulk_simulation_without_known_customers [sample_request "nobody" 450] _ _ _
                   (run_exec (scripted None [] [] (bulk_ok 0 0) 19000%Q)
                      (create_bulk_transactions [sample_request "nobody" 450]) 0) _)).
  - discriminate.
  - vm_compute. reflexivity.
Defined.

(** ** The batch fetch *)

Lemma fetched_batch_domain (hits : list (hit customer)) :
  forall (acc : gmap string customer) (id : string),
    is_Some (fold_left (fun customers h => <[_id h := _source h]> customers) hits acc !! id)
    <-> is_Some (acc !! id) \/ In id (map _id hits).
Proof.
  induction hits as [|h rest IH]; intros acc id; simpl.
  - tauto.
  - rewrite IH. destruct (decide (_id h = id)) as [E|Hne].
    + rewrite E, lookup_insert_eq. split; [auto|]. intros _. left. eauto.
    + rewrite lookup_insert_ne by exact Hne. tauto.
Qed.

(** [_fetch_customers_batch] asks for all the ids in one search, with
    room for as many hits as there are ids, and does nothing else; it
    returns a document under exactly the ids of the hits, each taken
    from a hit with that id, and nothing at all when the search fails. *)
Theorem fetch_customers_batch_returns_the_hits (ids : list string) tr
    (m : gmap string customer) :
  exec (_fetch_customers_batch ids) tr m ->
  exists reply,
    tr = [Ev (Search Customers (TermsIds ids (length ids))) reply] /\
    (forall id, is_Some (m !! id) <-> In id (map _id (hits_of (i := Customers) reply))) /\
    (forall id c, m !! id = Some c -> In (Hit id c) (hits_of (i := Customers) reply)) /\
    (hits_of (i := Customers) reply = [] -> m = ∅).
Proof.
  intros H. apply exec_fetch_customers_batch in H. destruct H as (reply & -> & ->).
  exists reply. split; [reflexivity|]. split; [|split].
  - intros id. rewrite fetched_batch_domain, lookup_empty. split.
    + intros [[x Hx]|Hin]; [discriminate Hx | exact Hin].
    + auto.
  - intros id c L. apply fetched_batch_lookup in L.
    destruct L as [L|(h & Hin & <- & <-)].
    + rewrite lookup_empty in L. discriminate L.
    + destruct h. exact Hin.
  - intros ->. reflexivity.
Qed.

Lemma fetch_customers_batch_returns_the_hits_witness :
  fst (run (scripted None [Hit "mike001" (sample_customer "BeeBuddy" 120 1800)] []
              BulkRaised 19000%Q) 0
         (_fetch_customers_batch ["mike001"; "nobody"])) !! "nobody" = None.
Proof.
  destruct (fetch_customers_batch_returns_the_hits ["mike001"; "nobody"] _ _
              (run_exec (scripted None [Hit "mike001" (sample_customer "BeeBuddy" 120 1800)] []
                           BulkRaised 19000%Q)
                 (_fetch_customers_batch ["mike001"; "nobody"]) 0))
    as (reply & Htr & Hdom & _).
  apply eq_None_not_Some. intros S. apply Hdom in S.
  apply (f_equal customer_hits) in Htr.
  unfold customer_hits at 2 in Htr. cbn [flat_map] in Htr. rewrite app_nil_r in Htr.
  rewrite <- Htr in S. vm_compute in S. destruct S as [S|[]]. discriminate S.
Defined.

(** ** Inventory analytics after the decrement *)

Lemma status_counts (items : list inventory_item) :
  (length (List.filter (has_status "Critical") items)
   + length (List.filter (has_status "Low") items)
   + length (List.filter (fun d => has_status "Adequate" d || has_status "Good" d) items)
   <= length items)%nat /\
  (Forall (fun d => exists stock reorder, status d = stock_status stock reorder) items ->
   (length (List.filter (has_status "Critical") items)
    + length (List.filter (has_status "Low") items)
    + length (List.filter (fun d => has_status "Adequate" d || has_status "Good" d) items)
    = length items)%nat).
Proof.
  induction items as [|d rest [IH1 IH2]]; [split; reflexivity|].
  cbn [List.filter length]. unfold has_status in *. split.
  - destruct (String.eqb_spec (status d) "Critical") as [E|_].
    + rewrite E. simpl. lia.
    + destruct (String.eqb_spec (status d) "Low") as [E|_].
      * rewrite E. simpl. lia.
      * destruct (String.eqb (status d) "Adequate" || String.eqb (status d) "Good");
          simpl; lia.
  - intros F. inversion F as [|? ? (stock & reorder & Hs) Frest]; subst.
    specialize (IH2 Frest). rewrite Hs. unfold stock_status.
    destruct (Qle_bool _ _); [simpl; lia|].
    destruct (Z.leb stock reorder); [simpl; lia|].
    destruct (Z.leb stock (reorder * 2)); simpl; lia.
Qed.

(** The analytics of the documents the decrement loop has written
    account for every one of them: the critical, low and adequate counts
    add up to the total (for arbitrary records they only stay below it),
    there is one recommendation for each critical or low document, and a
    recommendation has priority high exactly when the stock is at most
    half the reorder point, and medium when it is above half and at most
    the reorder point. *)
Theorem analytics_account_for_decremented_stock (store_id : string) (items : list item)
    tr lines :
  exec (_prepare_inventory_updates store_id items) tr lines ->
  let summary := fst (inventory_insights (inventory_docs lines)) in
  let recommendations := snd (inventory_insights (inventory_docs lines)) in
  (critical_items summary + low_items summary + adequate_items summary
   = total_items summary)%nat /\
  length recommendations = (critical_items summary + low_items summary)%nat /\
  Forall (fun r =>
            (priority r = "high" /\ 2 * rec_current_stock r <= rec_reorder_point r) \/
            (priority r = "medium" /\ rec_reorder_point r < 2 * rec_current_stock r
             /\ rec_current_stock r <= rec_reorder_point r))
         recommendations.
Proof.
  intros H. apply exec_prepare_inventory_updates in H. destruct H as (F & _).
  assert (S : Forall (fun d => status d = spec_stock_status (current_stock d) (reorder_point d))
                     (inventory_docs lines)).
  { eapply Forall_impl; [exact F|].
    intros d (it & reply & h & rest & _ & _ & _ & D).
    destruct D as (_ & Hr & _ & Hs & _). rewrite Hs, Hr. apply stock_status_spec. }
  clear F. cbv zeta. unfold inventory_insights. cbn [fst snd total_items critical_items
    low_items adequate_items].
  split; [|split].
  - apply (proj2 (status_counts _)). eapply Forall_impl; [exact S|].
    intros d Hd. exists (current_stock d), (reorder_point d).
    rewrite Hd. symmetry. apply stock_status_spec.
  - rewrite length_map, length_app. reflexivity.
  - apply Forall_forall. intros r Hr. apply list_elem_of_In in Hr.
    apply in_map_iff in Hr. destruct Hr as (d & <- & Hd).
    assert (Sd : status d = spec_stock_status (current_stock d) (reorder_point d)).
    { rewrite Forall_forall in S. apply S. apply list_elem_of_In.
      apply in_app_or in Hd. destruct Hd as [Hd|Hd]; apply filter_In in Hd; tauto. }
    unfold recommend. cbn [priority rec_current_stock rec_reorder_point].
    apply in_app_or in Hd. destruct Hd as [Hd|Hd]; apply filter_In in Hd;
      destruct Hd as [_ Hd]; unfold has_status in *; rewrite Sd in *;
      unfold spec_stock_status in *;
      destruct (Z.leb_spec (2 * current_stock d) (reorder_point d));
      destruct (Z.leb_spec (current_stock d) (reorder_point d));
      destruct (Z.leb_spec (current_stock d) (2 * reorder_point d));
      simpl in Hd |- *; try discriminate Hd; auto.
Qed.

Lemma analytics_account_for_decremented_stock_witness :
  map priority
    (snd (inventory_insights
            (inventory_docs
               (fst (run (scripted None [] [sample_stock 20 30 (Some 10%Q)] BulkRaised 19000%Q)
                       0 (_prepare_inventory_updates "store_001"
                            [Item "Regular Fries" 50 25])))))) = ["high"] /\
  Forall (fun r => 2 * rec_current_stock r <= rec_reorder_point r
                   \/ rec_current_stock r <= rec_reorder_point r)
    (snd (inventory_insights
            (inventory_docs
               (fst (run (scripted None [] [sample_stock 20 30 (Some 10%Q)] BulkRaised 19000%Q)
                       0 (_prepare_inventory_updates "store_001"
                            [Item "Regular Fries" 50 25])))))).
Proof.
  split; [vm_compute; reflexivity|].
  eapply Forall_impl;
    [exact (proj2 (proj2 (analytics_account_for_decremented_stock "store_001"
                            [Item "Regular Fries" 50 25] _ _
                            (run_exec (scripted None [] [sample_stock 20 30 (Some 10%Q)]
                                                BulkRaised 19000%Q)
                                      (_prepare_inventory_updates "store_001"
                                         [Item "Regular Fries" 50 25]) 0))))|].
  intros r [[_ H]|[_ [_ H]]]; auto.
Defined.
